(** * Signal Booster: network diagnostics, parameter search and orchestration

    A shallow embedding of the parts of the Signal Booster sources that the
    specification's testable properties talk about, together with the proofs
    that settle them.

    - [Mtu]      : [signal_booster/network/utils.py]  (MTU discovery)
    - [Channel]  : [signal_booster/network/platform/windows.py] and
                   [.../macos.py]  (wireless channel selection)
    - [Config]   : [signal_booster/advanced_config.py]  (level tables,
                   override merging, the apply sequence)
    - [Core]     : [signal_booster/core.py]  (the [SignalBooster] class)
    - [Session]  : [signal_booster/core.py]  (construction, interface
                   choice, the measuring helpers)
    - [Simulated]: [signal_booster/advanced_config.py]  (the diagnostic
                   helpers at module level)
    - [Platform] : [signal_booster/network/platform/windows.py] and
                   [.../macos.py]  (signal strength, DNS, congestion)
    - [Interfaces]: [signal_booster/network/interfaces.py]
    - [Diagnostics]: [signal_booster/network/diagnostics.py]
    - [Gui]      : [signal_booster/visualization.py], [gui_utils.py],
                   [gui_components/status_bar.py] and [.../dashboard.py]
    - [Levels]   : [signal_booster/core.py]  ([set_optimization_level],
                   [start])
    - [GuiSettings]: [signal_booster/gui.py] and
                   [gui_components/advanced_settings.py]
    - [Compat]   : [signal_booster/network_utils.py]

    Python [float] values are modelled by exact rationals ([Q]); Python [int]
    by [Z]; a [dict] used as a map by stdpp's [gmap], and by an association
    list where its objects are shared or iterated in insertion order.
    External commands (ping, netsh, airport, ...) are oracles. *)

From stdpp Require Import base gmap strings list pretty.
From Stdlib Require Import ZArith QArith Qminmax Qround Lia Lqa.
From Equations Require Import Equations.

Local Open Scope Z_scope.
Set Warnings "-register-all".

(** The platforms [platform.system()] can report. *)
Inductive os_type := Windows | Linux | Darwin | OtherOS.

(* ===================================================================== *)
(** * MTU discovery ([network/utils.py]) *)
(* ===================================================================== *)
Module Mtu.

(** One ping: [too_large n payload] tells whether the output of the [n]-th
    probe (counted from 0), sent with [payload] data bytes and the
    don't-fragment flag, makes the condition
    [stdout and ("Frag needed" in stdout or ... "100% packet loss" ...)]
    true.  An empty output counts as delivered, as in the source. *)
Definition ping_oracle := nat -> Z -> bool.

(** The local variables of the search loop, and the probes sent so far
    (size tested, delivered?), most recent first. *)
Record search_state := mk_search {
  max_mtu : Z;
  min_mtu : Z;
  optimal_mtu : Z;
  probe_log : list (Z * bool)
}.

Definition init_state : search_state :=
  {| max_mtu := 1500; min_mtu := 1200; optimal_mtu := 1500; probe_log := [] |}.

(** The loop condition [max_mtu - min_mtu > 8]. *)
Definition continue (st : search_state) : {8 < max_mtu st - min_mtu st} + {~ 8 < max_mtu st - min_mtu st} :=
  Z_lt_dec 8 (max_mtu st - min_mtu st).

(** The loop body. *)
Definition step (too_large : ping_oracle) (st : search_state) : search_state :=
  let test_mtu := (max_mtu st + min_mtu st) / 2 in
  if too_large (length (probe_log st)) (test_mtu - 28) then
    {| max_mtu := test_mtu; min_mtu := min_mtu st;
       optimal_mtu := optimal_mtu st;
       probe_log := (test_mtu, false) :: probe_log st |}
  else
    {| max_mtu := max_mtu st; min_mtu := test_mtu;
       optimal_mtu := test_mtu;
       probe_log := (test_mtu, true) :: probe_log st |}.

Lemma step_decreases too_large st :
  8 < max_mtu st - min_mtu st ->
  (Z.to_nat (max_mtu (step too_large st) - min_mtu (step too_large st))
     < Z.to_nat (max_mtu st - min_mtu st))%nat.
Proof.
  unfold step. intros H.
  destruct (too_large _ _); cbn [max_mtu min_mtu];
    Z.div_mod_to_equations; lia.
Qed.

(** [while max_mtu - min_mtu > 8: ...] *)
Equations? search_loop (too_large : ping_oracle) (st : search_state) : search_state
  by wf (Z.to_nat (max_mtu st - min_mtu st)) lt :=
  search_loop too_large st with continue st := {
    | left Hc => search_loop too_large (step too_large st)
    | right _ => st }.
Proof. by apply step_decreases. Qed.

(** [_find_windows_optimal_mtu] and [_find_linux_optimal_mtu] differ only
    in the ping command line and in the strings looked for in its output,
    both of which the oracle stands for. *)
Definition _find_linux_optimal_mtu (too_large : ping_oracle) : Z :=
  optimal_mtu (search_loop too_large init_state).

Definition _find_windows_optimal_mtu (too_large : ping_oracle) : Z :=
  optimal_mtu (search_loop too_large init_state).

(** [range(start, stop, -8)] *)
Definition range_down8 (start stop : Z) : list Z :=
  map (fun i => start - 8 * Z.of_nat i)
      (seq 0 (Z.to_nat ((start - stop + 7) / 8))).

(** The [for ... else]-less scan of [_find_macos_optimal_mtu]: the first
    size that is not too large wins; [n] counts the probes. *)
Fixpoint macos_scan (too_large : ping_oracle) (n : nat) (sizes : list Z)
         (optimal : Z) : Z :=
  match sizes with
  | [] => optimal
  | test_mtu :: rest =>
      if too_large n (test_mtu - 28) then macos_scan too_large (S n) rest optimal
      else test_mtu
  end.

(** [current_mtu] is what the [mtu\s+(\d+)] match on the [ifconfig] output
    gave ([None] when there is no match or no output). *)
Definition _find_macos_optimal_mtu (ifconfig_mtu : option Z)
           (too_large : ping_oracle) : Z :=
  let current_mtu := default 1500 ifconfig_mtu in
  macos_scan too_large 0 (range_down8 current_mtu 1400) current_mtu.

Definition find_optimal_mtu (os : os_type) (ifconfig_mtu : option Z)
           (too_large : ping_oracle) : Z :=
  match os with
  | Windows => _find_windows_optimal_mtu too_large
  | Linux => _find_linux_optimal_mtu too_large
  | Darwin => _find_macos_optimal_mtu ifconfig_mtu too_large
  | OtherOS => 1500
  end.

(** A network whose path MTU is [m]: a probe of total size [payload + 28]
    is too large exactly when it exceeds [m]. *)
Definition path_mtu (m : Z) : ping_oracle := fun _ payload => m <? payload + 28.

(** A network on which no probe gets through. *)
Definition unreachable : ping_oracle := fun _ _ => true.

End Mtu.

(* ===================================================================== *)
(** * Wireless channel selection ([network/platform/windows.py], [macos.py]) *)
(* ===================================================================== *)
Module Channel.

(** ** Windows: [find_windows_best_channel] *)

(** What [netsh wlan show networks mode=bssid] gave: the return code and
    the numbers matched by [Channel\s+:\s+(\d+)], in order. *)
Record netsh_scan := mk_netsh {
  returncode : Z;
  scanned : list Z
}.

(** [channel_count]: a dict from channel to number of networks, kept in
    insertion order. *)
Fixpoint count_channel (channel_int : Z) (channel_count : list (Z * Z))
  : list (Z * Z) :=
  match channel_count with
  | [] => [(channel_int, 1)]
  | (ch, n) :: rest =>
      if Z.eqb ch channel_int then (ch, n + 1) :: rest
      else (ch, n) :: count_channel channel_int rest
  end.

Definition count_channels (channels : list Z) : list (Z * Z) :=
  fold_left (fun acc channel => count_channel channel acc) channels [].

(** The inner loop for one primary channel:
    [if abs(channel - ch) <= 2: primary_channels[channel] += count]. *)
Definition overlap_count (channel : Z) (channel_count : list (Z * Z)) : Z :=
  fold_left (fun acc '(ch, count) =>
               if Z.leb (Z.abs (channel - ch)) 2 then acc + count else acc)
            channel_count 0.

(** Python's [min(items, key=...)]: the first item with the least key. *)
Fixpoint py_min_by_count (best : Z * Z) (items : list (Z * Z)) : Z * Z :=
  match items with
  | [] => best
  | item :: rest =>
      if Z.ltb (snd item) (snd best) then py_min_by_count item rest
      else py_min_by_count best rest
  end.

Definition primary_channels (channel_count : list (Z * Z)) : list (Z * Z) :=
  [ (1, overlap_count 1 channel_count);
    (6, overlap_count 6 channel_count);
    (11, overlap_count 11 channel_count) ].

Definition find_windows_best_channel (scan : netsh_scan) : Z :=
  if negb (Z.eqb (returncode scan) 0) then 6
  else
    let channel_count := count_channels (scanned scan) in
    match channel_count with
    | [] => 6
    | _ =>
        match primary_channels channel_count with
        | first :: rest => fst (py_min_by_count first rest)
        | [] => 6
        end
    end.

(** ** macOS: [find_macos_best_channel] *)

(** [channel_usage = {1: 0, 2: 0, ..., 11: 0}] *)
Definition initial_usage : list (Z * Q) :=
  map (fun ch => (ch, 0%Q)) [1; 2; 3; 4; 5; 6; 7; 8; 9; 10; 11].

(** [channel_usage[channel] += w] *)
Definition add_usage (channel : Z) (w : Q) (usage : list (Z * Q)) : list (Z * Q) :=
  map (fun '(ch, u) => if Z.eqb ch channel then (ch, (u + w)%Q) else (ch, u)) usage.

(** [range(lo, hi + 1)] *)
Definition range_incl (lo hi : Z) : list Z :=
  map (fun i => lo + Z.of_nat i) (seq 0 (Z.to_nat (hi + 1 - lo))).

(** The body of the loop over scan lines, for a line whose fourth column
    parsed as [channel]. *)
Definition record_network (channel : Z) (usage : list (Z * Q)) : list (Z * Q) :=
  if Z.leb 1 channel && Z.leb channel 11 then
    let usage1 := add_usage channel 1%Q usage in
    fold_left (fun acc adj_ch =>
                 if negb (Z.eqb adj_ch channel) then add_usage adj_ch (1 # 2)%Q acc
                 else acc)
              (range_incl (Z.max 1 (channel - 2)) (Z.min 11 (channel + 2)))
              usage1
  else usage.

(** A scan line after the header: [Some channel] when it has at least four
    columns and the fourth is an integer, [None] when the line is skipped
    ([ValueError], too few columns). *)
Definition scan_line := option Z.

Definition record_line (usage : list (Z * Q)) (line : scan_line) : list (Z * Q) :=
  match line with
  | Some channel => record_network channel usage
  | None => usage
  end.

Definition usage_of_scan (lines : list scan_line) : list (Z * Q) :=
  fold_left record_line lines initial_usage.

(** The scan for the least usage; [min_usage = None] stands for
    [float('inf')].  [best_channels] is kept in append order. *)
Definition select_step (acc : option Q * list Z) (item : Z * Q) : option Q * list Z :=
  let '(min_usage, best_channels) := acc in
  let '(channel, usage) := item in
  match min_usage with
  | None => (Some usage, [channel])
  | Some m =>
      match (usage ?= m)%Q with
      | Lt => (Some usage, [channel])
      | Eq => (min_usage, best_channels ++ [channel])
      | Gt => acc
      end
  end.

Definition best_channels_of (usage : list (Z * Q)) : list Z :=
  snd (fold_left select_step usage (None, [])).

Definition is_preferred (ch : Z) : bool :=
  Z.eqb ch 1 || Z.eqb ch 6 || Z.eqb ch 11.

Definition choose_channel (usage : list (Z * Q)) : Z :=
  let best_channels := best_channels_of usage in
  match List.filter is_preferred best_channels with
  | ch :: _ => ch
  | [] => match best_channels with ch :: _ => ch | [] => 6 end
  end.

(** The [system_profiler] fallback: the integers of the
    [Preferred Channels:] line. *)
Definition choose_profiler (channels : list Z) : option Z :=
  match channels with
  | [] => None
  | first :: _ =>
      match List.filter is_preferred channels with
      | ch :: _ => Some ch
      | [] => Some first
      end
  end.

(** The environment of [find_macos_best_channel]: [airport_scan] is [None]
    when the airport tool is missing or printed nothing, and otherwise the
    lines after the header; [profiler_channels] is [None] when
    [system_profiler] printed nothing or nothing matched. *)
Record macos_env := mk_macos {
  airport_scan : option (list scan_line);
  profiler_channels : option (list Z)
}.

Definition find_macos_best_channel (env : macos_env) : Z :=
  match airport_scan env with
  | Some lines => choose_channel (usage_of_scan lines)
  | None =>
      match profiler_channels env with
      | Some channels => default 6 (choose_profiler channels)
      | None => 6
      end
  end.

(** The usage a channel has in the table ([0] outside the table). *)
Definition usage_at (usage : list (Z * Q)) (channel : Z) : Q :=
  match List.find (fun '(ch, _) => Z.eqb ch channel) usage with
  | Some (_, u) => u
  | None => 0%Q
  end.

End Channel.

(* ===================================================================== *)
(** * Level tables, override merging, apply sequence ([advanced_config.py]) *)
(* ===================================================================== *)
Module Config.

Local Open Scope string_scope.

(** Configuration values: what the level tables hold and what [json.load]
    yields for the custom configuration file.  A [dict] is an association
    list in insertion order. *)
Inductive value :=
| VNone
| VBool (b : bool)
| VInt (n : Z)
| VStr (s : string)
| VList (l : list value)
| VDict (items : list (string * value)).

Definition dict := list (string * value).

Inductive OptimizationLevel := LIGHT | STANDARD | AGGRESSIVE | EXTREME.

Definition level_value (l : OptimizationLevel) : string :=
  match l with
  | LIGHT => "light" | STANDARD => "standard"
  | AGGRESSIVE => "aggressive" | EXTREME => "extreme"
  end.

Inductive ConnectionType := WIFI_2GHZ | WIFI_5GHZ | ETHERNET | MOBILE | UNKNOWN.

Definition connection_value (c : ConnectionType) : string :=
  match c with
  | WIFI_2GHZ => "wifi_2ghz" | WIFI_5GHZ => "wifi_5ghz"
  | ETHERNET => "ethernet" | MOBILE => "mobile" | UNKNOWN => "unknown"
  end.

(** [d[key]] / [key in d] *)
Fixpoint dict_get (key : string) (d : dict) : option value :=
  match d with
  | [] => None
  | (k, v) :: rest => if String.eqb k key then Some v else dict_get key rest
  end.

(** [d[key] = v]: an existing key keeps its position, a new one goes last. *)
Fixpoint dict_set (key : string) (v : value) (d : dict) : dict :=
  match d with
  | [] => [(key, v)]
  | (k, w) :: rest =>
      if String.eqb k key then (k, v) :: rest else (k, w) :: dict_set key v rest
  end.

Definition has_key (key : string) (d : dict) : bool :=
  match dict_get key d with Some _ => true | None => false end.

Definition ints (l : list Z) : value := VList (map VInt l).
Definition strs (l : list string) : value := VList (map VStr l).

(** ** [_load_default_configs] *)

Definition tcp_params : dict :=
  [ ("light", VDict [ ("tcp_window_size", VInt 65535);
                      ("max_syn_backlog", VInt 2048);
                      ("congestion_algorithm", VStr "cubic") ]);
    ("standard", VDict [ ("tcp_window_size", VInt 131072);
                         ("max_syn_backlog", VInt 4096);
                         ("congestion_algorithm", VStr "cubic") ]);
    ("aggressive", VDict [ ("tcp_window_size", VInt 262144);
                           ("max_syn_backlog", VInt 8192);
                           ("congestion_algorithm", VStr "bbr") ]);
    ("extreme", VDict [ ("tcp_window_size", VInt 524288);
                        ("max_syn_backlog", VInt 16384);
                        ("congestion_algorithm", VStr "bbr");
                        ("tcp_rmem", ints [4096; 131072; 6291456]);
                        ("tcp_wmem", ints [4096; 16384; 4194304]) ]) ].

Definition wifi_params : dict :=
  [ ("light", VDict [ ("power_save", VStr "off");
                      ("beacon_interval", VInt 100);
                      ("txpower", VStr "auto") ]);
    ("standard", VDict [ ("power_save", VStr "off");
                         ("beacon_interval", VInt 50);
                         ("txpower", VStr "high") ]);
    ("aggressive", VDict [ ("power_save", VStr "off");
                           ("beacon_interval", VInt 30);
                           ("txpower", VStr "max");
                           ("antenna_diversity", VStr "on");
                           ("roaming_aggressiveness", VStr "high") ]);
    ("extreme", VDict [ ("power_save", VStr "off");
                        ("beacon_interval", VInt 25);
                        ("txpower", VStr "max");
                        ("antenna_diversity", VStr "on");
                        ("roaming_aggressiveness", VStr "highest");
                        ("preamble", VStr "short");
                        ("channel_width", VStr "40MHz") ]) ].

Definition dns_params : dict :=
  [ ("light", VDict [ ("nameservers", strs ["8.8.8.8"; "8.8.4.4"]);
                      ("dns_cache_size", VInt 512) ]);
    ("standard", VDict [ ("nameservers", strs ["1.1.1.1"; "1.0.0.1"]);
                         ("dns_cache_size", VInt 1024) ]);
    ("aggressive", VDict [ ("nameservers", strs ["9.9.9.9"; "149.112.112.112"]);
                           ("dns_cache_size", VInt 2048);
                           ("dns_cache_ttl", VInt 3600) ]);
    ("extreme", VDict [ ("nameservers", strs ["1.1.1.1"; "8.8.8.8"]);
                        ("dns_cache_size", VInt 4096);
                        ("dns_cache_ttl", VInt 7200);
                        ("prefetch", VBool true) ]) ].

Definition qos_params : dict :=
  [ ("light", VDict [ ("enabled", VBool false) ]);
    ("standard", VDict [ ("enabled", VBool true);
                         ("prioritize_ack", VBool true) ]);
    ("aggressive", VDict [ ("enabled", VBool true);
                           ("prioritize_ack", VBool true);
                           ("prioritize_dns", VBool true);
                           ("priority_ports", ints [80; 443]);
                           ("traffic_shaping", VBool true) ]);
    ("extreme", VDict [ ("enabled", VBool true);
                        ("prioritize_ack", VBool true);
                        ("prioritize_dns", VBool true);
                        ("priority_ports", ints [80; 443; 53; 123]);
                        ("traffic_shaping", VBool true);
                        ("buffer_bloat_mitigation", VBool true) ]) ].

Definition buffer_params : dict :=
  [ ("light", VDict [ ("txqueuelen", VInt 1000) ]);
    ("standard", VDict [ ("txqueuelen", VInt 2000);
                         ("netdev_max_backlog", VInt 2000) ]);
    ("aggressive", VDict [ ("txqueuelen", VInt 5000);
                           ("netdev_max_backlog", VInt 5000);
                           ("socket_buffer_size", VInt 12582912) ]);
    ("extreme", VDict [ ("txqueuelen", VInt 10000);
                        ("netdev_max_backlog", VInt 10000);
                        ("socket_buffer_size", VInt 25165824);
                        ("tcp_moderate_rcvbuf", VInt 0) ]) ].

Definition connection_specific : dict :=
  [ ("wifi_2ghz", VDict [ ("channel_selection", VStr "auto");
                          ("band_steering", VBool false) ]);
    ("wifi_5ghz", VDict [ ("channel_selection", VStr "auto");
                          ("band_steering", VBool true);
                          ("beamforming", VBool true) ]);
    ("ethernet", VDict [ ("jumbo_frames", VBool false);
                         ("flow_control", VBool true) ]);
    ("mobile", VDict [ ("data_saver", VBool false);
                       ("tcp_delayed_ack", VBool false) ]) ].

Definition _load_default_configs : dict :=
  [ ("tcp", VDict tcp_params);
    ("wifi", VDict wifi_params);
    ("dns", VDict dns_params);
    ("qos", VDict qos_params);
    ("buffer", VDict buffer_params);
    ("connection_specific", VDict connection_specific);
    ("version", VStr "1.0.0") ].

(** ** The configuration manager *)

(** The attributes of an [AdvancedConfig] object.  [configs] is the one
    object built by [_load_default_configs] in [__init__]: every dict in
    it is shared by all who hold a reference to it. *)
Record AdvancedConfig := mk_config {
  configs : dict;
  custom_configs : dict;
  os_type_ : os_type;
  is_admin : bool
}.

(** [AdvancedConfig()] with the custom document found on disk. *)
Definition init (custom : dict) (os : os_type) (admin : bool) : AdvancedConfig :=
  {| configs := _load_default_configs; custom_configs := custom;
     os_type_ := os; is_admin := admin |}.

(** [save_custom_config], when writing the file succeeds. *)
Definition save_custom_config (config_data : dict) (self : AdvancedConfig)
  : AdvancedConfig :=
  {| configs := configs self; custom_configs := config_data;
     os_type_ := os_type_ self; is_admin := is_admin self |}.

(** What an entry of the dict returned by [get_config_for_level] refers to:
    [result[param_group] = self.configs[param_group][level_str]] stores a
    reference to the table object itself, not a copy. *)
Inductive ref :=
| Table (group key : string)
| Own (v : value).

Definition result := list (string * ref).

Definition table_get (cfgs : dict) (group key : string) : option value :=
  match dict_get group cfgs with
  | Some (VDict t) => dict_get key t
  | _ => None
  end.

(** Replace the contents of the table object [cfgs[group][key]]. *)
Definition table_put (cfgs : dict) (group key : string) (v : value) : dict :=
  match dict_get group cfgs with
  | Some (VDict t) => dict_set group (VDict (dict_set key v t)) cfgs
  | _ => cfgs
  end.

Fixpoint result_get (key : string) (r : result) : option ref :=
  match r with
  | [] => None
  | (k, v) :: rest => if String.eqb k key then Some v else result_get key rest
  end.

Fixpoint result_set (key : string) (v : ref) (r : result) : result :=
  match r with
  | [] => [(key, v)]
  | (k, w) :: rest =>
      if String.eqb k key then (k, v) :: rest else (k, w) :: result_set key v rest
  end.

(** [_merge_configs(base_config, override_config)] on a dict value:
    the updated contents of the object [base_config]. *)
Fixpoint _merge_configs (override_config : value) (base_config : dict) : dict :=
  match override_config with
  | VDict items =>
      (fix go (items : list (string * value)) (base_config : dict) : dict :=
         match items with
         | [] => base_config
         | (key, value) :: rest =>
             go rest
                match dict_get key base_config, value with
                | Some (VDict b), VDict _ =>
                    dict_set key (VDict (_merge_configs value b)) base_config
                | _, _ => dict_set key value base_config
                end
         end) items base_config
  | _ => base_config
  end.

(** The outermost call [_merge_configs(result, self.custom_configs)]:
    [result] is fresh, but its entries may be the level tables, and the
    recursive call then writes into the table object. *)
Definition merge_entry (acc : result * dict) (item : string * value)
  : result * dict :=
  let '(res, cfgs) := acc in
  let '(key, value) := item in
  match result_get key res, value with
  | Some (Table g k), VDict _ =>
      match table_get cfgs g k with
      | Some (VDict b) => (res, table_put cfgs g k (VDict (_merge_configs value b)))
      | _ => (result_set key (Own value) res, cfgs)
      end
  | Some (Own (VDict b)), VDict _ =>
      (result_set key (Own (VDict (_merge_configs value b))) res, cfgs)
  | _, _ => (result_set key (Own value) res, cfgs)
  end.

Definition merge_into_result (custom : dict) (res : result) (cfgs : dict)
  : result * dict :=
  fold_left merge_entry custom (res, cfgs).

Definition param_groups : list string := ["tcp"; "wifi"; "dns"; "qos"; "buffer"].

(** The first loop of [get_config_for_level]. *)
Definition level_entries (cfgs : dict) (level_str : string) : result :=
  fold_left (fun res param_group =>
               match dict_get param_group cfgs with
               | Some (VDict t) =>
                   if has_key level_str t
                   then result_set param_group (Table param_group level_str) res
                   else res
               | _ => res
               end)
            param_groups [].

(** [get_config_for_level(level, connection_type)]: the dict returned and
    the manager afterwards. *)
Definition get_config_for_level (self : AdvancedConfig)
           (level_str conn_type_str : string) : result * AdvancedConfig :=
  let res := level_entries (configs self) level_str in
  let res :=
    match dict_get "connection_specific" (configs self) with
    | Some (VDict t) =>
        if has_key conn_type_str t
        then result_set "connection_specific"
                        (Table "connection_specific" conn_type_str) res
        else res
    | _ => res
    end in
  match custom_configs self with
  | [] => (res, self)
  | _ =>
      let '(res', cfgs') := merge_into_result (custom_configs self) res (configs self) in
      (res', {| configs := cfgs'; custom_configs := custom_configs self;
                os_type_ := os_type_ self; is_admin := is_admin self |})
  end.

(** Reading through a reference. *)
Definition deref (cfgs : dict) (r : ref) : option value :=
  match r with
  | Table g k => table_get cfgs g k
  | Own v => Some v
  end.

(** [config[group][param]] for a dict returned by [get_config_for_level]. *)
Definition read_param (self : AdvancedConfig) (res : result)
           (group param : string) : option value :=
  match result_get group res with
  | Some r =>
      match deref (configs self) r with
      | Some (VDict d) => dict_get param d
      | _ => None
      end
  | None => None
  end.

(** The dict as a reader sees it at this moment. *)
Definition view (self : AdvancedConfig) (res : result) : dict :=
  omap (fun '(k, r) => match deref (configs self) r with
                       | Some v => Some (k, v)
                       | None => None
                       end) res.

(** ** [apply_optimizations] *)

Inductive message :=
| MsgAdminWarning
| MsgApplied (what : string)
| MsgSetDns (servers : value)
| MsgFailed (what : string).

Record results := mk_results {
  success : bool;
  applied : list string;
  failed : list string;
  messages : list message
}.

(** [needle in v]; [None] is the [TypeError] of a value that is no
    container. *)
Definition py_in (needle : string) (v : value) : option bool :=
  match v with
  | VDict d => Some (has_key needle d)
  | VList l => Some (existsb (fun x => match x with
                                       | VStr s => String.eqb s needle
                                       | _ => false
                                       end) l)
  | VStr s => Some (match String.index 0 needle s with
                    | Some _ => true | None => false
                    end)
  | _ => None
  end.

(** [v[key]] for a string key; [None] when it raises. *)
Definition subscript (v : value) (key : string) : option value :=
  match v with
  | VDict d => dict_get key d
  | _ => None
  end.

(** The prefix of the action names and the platform's name in the
    messages. *)
Definition platform_names (os : os_type) : option (string * string) :=
  match os with
  | Windows => Some ("windows", "Windows")
  | Linux => Some ("linux", "Linux")
  | Darwin => Some ("macos", "macOS")
  | OtherOS => None
  end.

(** One simulated platform step: the body of the [try] appends to
    [applied] and to [messages] and cannot raise. *)
Definition platform_step (group label name : string) (config : dict)
           (r : results) : results :=
  if has_key group config then
    {| success := success r;
       applied := applied r ++ [name];
       failed := failed r;
       messages := messages r ++ [MsgApplied label] |}
  else r.

(** [_apply_windows_optimizations], [_apply_linux_optimizations],
    [_apply_macos_optimizations]. *)
Definition apply_platform (os : os_type) (config : dict) (r : results) : results :=
  match platform_names os with
  | Some (p, name) =>
      platform_step "wifi" (name ++ " WiFi") (p ++ "_wifi") config
        (platform_step "tcp" (name ++ " TCP") (p ++ "_tcp") config r)
  | None => r
  end.

(** The DNS step.  Its [try] first appends ["dns_servers"] to [applied]
    and then formats [config['dns']['nameservers']]; when that subscript
    raises, the handler appends to [failed]. *)
Definition dns_step (dns : value) (r : results) : results :=
  let r1 := {| success := success r;
               applied := applied r ++ ["dns_servers"];
               failed := failed r;
               messages := messages r |} in
  match subscript dns "nameservers" with
  | Some servers =>
      {| success := success r1; applied := applied r1; failed := failed r1;
         messages := messages r1 ++ [MsgSetDns servers] |}
  | None =>
      {| success := success r1; applied := applied r1;
         failed := failed r1 ++ ["dns_servers"];
         messages := messages r1 ++ [MsgFailed "dns_servers"] |}
  end.

(** [apply_optimizations(config)]; [None] when the membership test on
    [config["dns"]] raises, which the function does not catch. *)
Definition apply_optimizations (self : AdvancedConfig) (config : dict)
  : option results :=
  let r0 := {| success := false; applied := []; failed := [];
               messages := if is_admin self then [] else [MsgAdminWarning] |} in
  let r1 := apply_platform (os_type_ self) config r0 in
  let finish r := {| success := negb (Nat.eqb (length (applied r)) 0);
                     applied := applied r; failed := failed r;
                     messages := messages r |} in
  match dict_get "dns" config with
  | Some dns =>
      match py_in "nameservers" dns with
      | Some true => Some (finish (dns_step dns r1))
      | Some false => Some (finish r1)
      | None => None
      end
  | None => Some (finish r1)
  end.

End Config.

(* ===================================================================== *)
(** * The [SignalBooster] class ([core.py]) *)
(* ===================================================================== *)
Module Core.
Import Config.

Local Open Scope string_scope.
Local Open Scope Z_scope.

(** [sum(factors) / len(factors)] *)
Definition Qsum (l : list Q) : Q := fold_right Qplus 0%Q l.

Definition mean (l : list Q) : Q :=
  (Qsum l / inject_Z (Z.of_nat (length l)))%Q.

Definition Qlt_bool (a b : Q) : bool := negb (Qle_bool b a).

(** ** Feature flags: [_set_feature_flags] *)

Record feature_flags := mk_flags {
  dns_prefetching : bool;
  channel_switching : bool;
  enable_deep_packet_inspection : bool;
  enable_bandwidth_control : bool;
  packet_prioritization : bool
}.

(** The [if]/[elif] chain on the level; each of the four branches assigns
    all five attributes. *)
Definition level_flags (level : OptimizationLevel) : feature_flags :=
  match level with
  | LIGHT =>
      {| dns_prefetching := true; channel_switching := true;
         enable_deep_packet_inspection := false;
         enable_bandwidth_control := false;
         packet_prioritization := false |}
  | STANDARD =>
      {| dns_prefetching := true; channel_switching := true;
         enable_deep_packet_inspection := false;
         enable_bandwidth_control := true;
         packet_prioritization := true |}
  | AGGRESSIVE =>
      {| dns_prefetching := true; channel_switching := true;
         enable_deep_packet_inspection := true;
         enable_bandwidth_control := true;
         packet_prioritization := true |}
  | EXTREME =>
      {| dns_prefetching := true; channel_switching := true;
         enable_deep_packet_inspection := true;
         enable_bandwidth_control := true;
         packet_prioritization := true |}
  end.

(** [advanced_settings] restricted to its flag entries. *)
Definition _set_feature_flags (level : OptimizationLevel)
           (advanced_settings : gmap string bool) : feature_flags :=
  let f := level_flags level in
  {| dns_prefetching :=
       default (dns_prefetching f) (advanced_settings !! "dns_prefetching");
     channel_switching :=
       default (channel_switching f) (advanced_settings !! "channel_switching");
     enable_deep_packet_inspection :=
       default (enable_deep_packet_inspection f)
               (advanced_settings !! "deep_packet_inspection");
     enable_bandwidth_control :=
       default (enable_bandwidth_control f)
               (advanced_settings !! "bandwidth_control");
     packet_prioritization :=
       default (packet_prioritization f)
               (advanced_settings !! "packet_prioritization") |}.

(** The order [light < standard < aggressive < extreme]. *)
Definition level_rank (l : OptimizationLevel) : nat :=
  match l with LIGHT => 0 | STANDARD => 1 | AGGRESSIVE => 2 | EXTREME => 3 end.

(** The five flags by name. *)
Inductive flag :=
| DeepPacketInspection | BandwidthControl | PacketPrioritization
| DnsPrefetching | ChannelSwitching.

Definition flag_key (f : flag) : string :=
  match f with
  | DeepPacketInspection => "deep_packet_inspection"
  | BandwidthControl => "bandwidth_control"
  | PacketPrioritization => "packet_prioritization"
  | DnsPrefetching => "dns_prefetching"
  | ChannelSwitching => "channel_switching"
  end.

Definition flag_of (f : flag) (fl : feature_flags) : bool :=
  match f with
  | DeepPacketInspection => enable_deep_packet_inspection fl
  | BandwidthControl => enable_bandwidth_control fl
  | PacketPrioritization => packet_prioritization fl
  | DnsPrefetching => dns_prefetching fl
  | ChannelSwitching => channel_switching fl
  end.

(** ** Congestion: [_analyze_network_congestion] *)

(** The dict [measure_latency] returns; all three are [0.0] when the ping
    failed or its output did not match. *)
Record latency := mk_latency {
  lat_min : Q;
  lat_avg : Q;
  lat_max : Q
}.

(** What the measurements of one congestion analysis gave.
    - [win_stats]: [(received, dropped)] when both patterns matched the
      PowerShell output;
    - [linux_rows]: for each line of [/proc/net/dev] that names the
      interface, has two parts and at least four statistics, its
      [(packets, errors, drops)], or [None] at a line where [int] raises;
    - [mac_rows]: likewise [(packets, errors)] from [netstat -i];
    - [loadavg], [cpu_percent]: [None] when the call raises. *)
Record congestion_env := mk_congestion_env {
  cg_os : os_type;
  cg_interface : bool;
  latency_results : latency;
  win_stats : option (Z * Z);
  linux_rows : list (option (Z * Z * Z));
  mac_rows : list (option (Z * Z));
  has_getloadavg : bool;
  loadavg : option Q;
  cpu_percent : option Q
}.

(** [min(100, (a / max(1, b)) * 100)] *)
Definition percent_of (a b : Z) : Q :=
  Qmin 100 (inject_Z a / inject_Z (Z.max 1 b) * 100)%Q.

(** Factor 1.  The guard [if latency_results:] tests a dict with three
    keys and is always taken. *)
Definition latency_factors (l : latency) : list Q :=
  let jitter := (lat_max l - lat_min l)%Q in
  let jitter_factor := Qmin 100 jitter in
  let latency_factor := Qmin 100 (Qmax 0 ((lat_avg l - 10) / 190 * 100))%Q in
  [jitter_factor; latency_factor].

(** The loop over the Linux rows; an exception ends it and keeps what was
    appended before. *)
Fixpoint linux_factors (rows : list (option (Z * Z * Z))) : list Q :=
  match rows with
  | [] => []
  | None :: _ => []
  | Some (packets, errors, drops) :: rest =>
      (if 0 <? packets then [percent_of errors packets; percent_of drops packets]
       else []) ++ linux_factors rest
  end.

Fixpoint mac_factors (rows : list (option (Z * Z))) : list Q :=
  match rows with
  | [] => []
  | None :: _ => []
  | Some (packets, errors) :: rest =>
      (if 0 <? packets then [percent_of errors packets] else [])
        ++ mac_factors rest
  end.

(** Factor 2. *)
Definition stats_factors (env : congestion_env) : list Q :=
  if cg_interface env then
    match cg_os env with
    | Windows =>
        match win_stats env with
        | Some (received, dropped) =>
            if 0 <? received then [percent_of dropped received] else []
        | None => []
        end
    | Linux => linux_factors (linux_rows env)
    | Darwin => mac_factors (mac_rows env)
    | OtherOS => []
    end
  else [].

(** Factor 3. *)
Definition load_factors (env : congestion_env) : list Q :=
  if has_getloadavg env then
    match loadavg env with
    | Some load =>
        let load_factor := Qmin 100 (Qmax 0 ((load - 1) / 4 * 100))%Q in
        [(load_factor * (1 # 2))%Q]
    | None => []
    end
  else
    match cg_os env with
    | Windows =>
        match cpu_percent env with
        | Some cpu => if Qlt_bool 80 cpu then [50%Q] else []
        | None => []
        end
    | _ => []
    end.

Definition congestion_factors (env : congestion_env) : list Q :=
  latency_factors (latency_results env) ++ stats_factors env ++ load_factors env.

Definition _analyze_network_congestion (env : congestion_env) : Q :=
  match congestion_factors env with
  | [] => 30%Q
  | factors => mean factors
  end.

(** ** Interference: [_check_for_interference] *)

(** - [channel_scan]: [(current_channel, channels)] when the first block
      found the channel in use and listed the visible networks' channels;
      [None] when the tool is missing, nothing matched or the block raised;
    - [signal_samples]: the three readings of [_measure_signal_strength];
    - [band_channel]: the channel matched in the third block (Windows). *)
Record interference_env := mk_interference_env {
  if_os : os_type;
  channel_scan : option (Z * list Z);
  signal_samples : list Z;
  band_channel : option Z
}.

Definition list_max (l : list Z) : Z := fold_right Z.max (hd 0 l) l.
Definition list_min (l : list Z) : Z := fold_right Z.min (hd 0 l) l.

Definition channel_congestion (env : interference_env) : Z :=
  match channel_scan env with
  | Some (current_channel, channels) =>
      if Z.eqb current_channel 0 then 0
      else
        let network_count :=
          Z.of_nat (length (List.filter (Z.eqb current_channel) channels)) in
        Z.min 100 (network_count * 10)
  | None => 0
  end.

Definition variation_factors (env : interference_env) : list Q :=
  match signal_samples env with
  | [] => []
  | samples =>
      let variation := list_max samples - list_min samples in
      if 0 <? variation then [inject_Z (Z.min 100 (variation * 5))] else []
  end.

Definition non_wifi_interference (env : interference_env) : Z :=
  match if_os env, band_channel env with
  | Windows, Some channel =>
      if (1 <=? channel) && (channel <=? 13) then 30 else 0
  | _, _ => 0
  end.

Definition interference_factors (env : interference_env) : list Q :=
  (if 0 <? channel_congestion env then [inject_Z (channel_congestion env)] else [])
    ++ variation_factors env
    ++ (if 0 <? non_wifi_interference env
        then [inject_Z (non_wifi_interference env)] else []).

Definition _check_for_interference (env : interference_env) : Q :=
  match interference_factors env with
  | [] => 20%Q
  | factors => mean factors
  end.

(** ** Baseline capture: [_get_windows_tcp_params] *)

Inductive setting :=
| SStr (s : string)
| SInt (n : Z)
| SBool (b : bool).

(** How an f-string renders a setting. *)
Definition render (v : setting) : string :=
  match v with
  | SStr s => s
  | SInt n => pretty n
  | SBool b => if b then "True" else "False"
  end.

(** A registry read: the value, [FileNotFoundError], or another
    [OSError]. *)
Inductive reg_read := RegValue (n : Z) | RegNotFound | RegError.

(** - [netsh_global]: [None] when [netsh interface tcp show global]
      raises; otherwise what the two patterns matched (the auto-tuning
      level already lower-cased);
    - the three registry reads, in the order the code makes them. *)
Record tcp_probe := mk_tcp_probe {
  netsh_global : option (option string * option string);
  reg_window_size : reg_read;
  reg_retransmissions : reg_read;
  reg_ttl : reg_read
}.

Definition _get_windows_tcp_params (p : tcp_probe) : gmap string setting :=
  match netsh_global p with
  | None => ∅
  | Some (autotuning_match, congestion_match) =>
      let t0 : gmap string setting := ∅ in
      let t1 := match autotuning_match with
                | Some a => <["autotuning" := SStr a]> t0
                | None => t0
                end in
      let t2 := match congestion_match with
                | Some c => <["congestion_provider" := SStr c]> t1
                | None => t1
                end in
      let second_block (t : gmap string setting) :=
        match reg_retransmissions p, reg_ttl p with
        | RegValue r, RegValue ttl =>
            <["ttl" := SInt ttl]> (<["max_syn_retransmissions" := SInt r]> t)
        | _, _ =>
            <["ttl" := SInt 128]> (<["max_syn_retransmissions" := SInt 2]> t)
        end in
      match reg_window_size p with
      | RegValue w => second_block (<["window_size" := SInt w]> t2)
      | RegNotFound => second_block (<["window_size" := SInt 65535]> t2)
      | RegError => t2
      end
  end.

Record windows_settings := mk_windows_settings {
  tcp_params : gmap string setting;
  power_settings : gmap string bool;
  packet_scheduler_enabled : bool;
  existing_rules : list string
}.

Record linux_settings := mk_linux_settings {
  sysctl_params : list (string * string);
  nameservers : list string
}.

Record macos_settings := mk_macos_settings {
  wifi_service : option string;
  dns_servers : option (list string);
  mtu : option setting;
  tcp_settings : list (string * string)
}.

(** [self.original_settings]: empty, or one entry for the platform the
    object was created on. *)
Inductive baseline :=
| NoBaseline
| WindowsBaseline (s : windows_settings)
| LinuxBaseline (s : linux_settings)
| MacosBaseline (s : macos_settings).


(** ** The object and the observable actions *)

Record SignalBooster := mk_booster {
  os : os_type;
  active : bool;
  is_running : bool;
  active_interface : option string;
  original_settings : baseline;
  has_monitor_thread : bool;
  target_speed : Q;
  target_signal_strength : Z;
  current_speed : Q;
  current_signal : Z;
  optimization_level_value : Q
}.

Definition set_flags (a r : bool) (st : SignalBooster) : SignalBooster :=
  {| os := os st; active := a; is_running := r;
     active_interface := active_interface st;
     original_settings := original_settings st;
     has_monitor_thread := has_monitor_thread st;
     target_speed := target_speed st;
     target_signal_strength := target_signal_strength st;
     current_speed := current_speed st;
     current_signal := current_signal st;
     optimization_level_value := optimization_level_value st |}.

Definition set_thread (t : bool) (st : SignalBooster) : SignalBooster :=
  {| os := os st; active := active st; is_running := is_running st;
     active_interface := active_interface st;
     original_settings := original_settings st;
     has_monitor_thread := t;
     target_speed := target_speed st;
     target_signal_strength := target_signal_strength st;
     current_speed := current_speed st;
     current_signal := current_signal st;
     optimization_level_value := optimization_level_value st |}.

Definition set_speed (v : Q) (st : SignalBooster) : SignalBooster :=
  {| os := os st; active := active st; is_running := is_running st;
     active_interface := active_interface st;
     original_settings := original_settings st;
     has_monitor_thread := has_monitor_thread st;
     target_speed := target_speed st;
     target_signal_strength := target_signal_strength st;
     current_speed := v;
     current_signal := current_signal st;
     optimization_level_value := optimization_level_value st |}.

Definition set_signal (v : Z) (st : SignalBooster) : SignalBooster :=
  {| os := os st; active := active st; is_running := is_running st;
     active_interface := active_interface st;
     original_settings := original_settings st;
     has_monitor_thread := has_monitor_thread st;
     target_speed := target_speed st;
     target_signal_strength := target_signal_strength st;
     current_speed := current_speed st;
     current_signal := v;
     optimization_level_value := optimization_level_value st |}.

Definition set_level_value (v : Q) (st : SignalBooster) : SignalBooster :=
  {| os := os st; active := active st; is_running := is_running st;
     active_interface := active_interface st;
     original_settings := original_settings st;
     has_monitor_thread := has_monitor_thread st;
     target_speed := target_speed st;
     target_signal_strength := target_signal_strength st;
     current_speed := current_speed st;
     current_signal := current_signal st;
     optimization_level_value := v |}.

(** What [stop_boosting] does to the outside, in order.  A command carries
    the names of the baseline parameters whose values are formatted into
    its arguments. *)
Inductive event :=
| EvVisualizerStop
| EvRun (carries : list string) (argv : list string)
| EvCopy (src dst : string)
| EvRemove (path : string)
| EvJoin (timeout : Q).

(** The world during a stop:
    - [run_raises argv]: [subprocess.run(argv)] raises (tool missing);
    - [path_exists]: [os.path.exists];
    - [services]: macOS, [None] when listing the network services raises,
      otherwise the Wi-Fi service found, if any;
    - [thread_alive]: [monitor_thread.is_alive()] at the time of the test. *)
Record stop_env := mk_stop_env {
  run_raises : list string -> bool;
  path_exists : string -> bool;
  services : option (option string);
  thread_alive : bool
}.

Definition command := (list string * list string)%type.

(** Commands run one after the other inside one [try]: the first that
    raises ends the block. *)
Fixpoint try_block (raises : list string -> bool) (cmds : list command)
  : list event :=
  match cmds with
  | [] => []
  | (carries, argv) :: rest =>
      EvRun carries argv :: (if raises argv then [] else try_block raises rest)
  end.

Definition netsh_tcp_global (arg : string) : list string :=
  ["netsh"; "interface"; "tcp"; "set"; "global"; arg].

Definition delete_rule (name : string) : list string :=
  ["netsh"; "advfirewall"; "firewall"; "delete"; "rule"; "name=" ++ name].

Definition restore_windows (env : stop_env) (iface : option string)
           (s : windows_settings) : list event :=
  let tcp := tcp_params s in
  try_block (run_raises env)
    ((match tcp !! "window_size" with
      | Some _ =>
          match tcp !! "autotuning" with
          | Some a => [(["autotuning"],
                        netsh_tcp_global ("autotuninglevel=" ++ render a))]
          | None => [([], netsh_tcp_global "autotuninglevel=normal")]
          end
      | None => []
      end)
     ++
     (match tcp !! "congestion_provider" with
      | Some c => [(["congestion_provider"],
                    netsh_tcp_global ("congestionprovider=" ++ render c))]
      | None => []
      end))
  ++ try_block (run_raises env)
       [([], delete_rule "SignalBoosterRealTime");
        ([], delete_rule "SignalBoosterWeb")]
  ++ match iface with
     | Some i =>
         if default true (power_settings s !! "power_saving_enabled") then
           try_block (run_raises env)
             [([], ["powershell";
                    "Set-NetAdapterPowerManagement -Name '" ++ i
                      ++ "' -WakeOnMagicPacket Enabled -WakeOnPattern Enabled"])]
         else []
     | None => []
     end.

Definition restore_linux (env : stop_env) (iface : option string)
           (s : linux_settings) : list event :=
  try_block (run_raises env)
    (map (fun '(param, value) =>
            ([param], ["sysctl"; "-w"; param ++ "=" ++ value]))
         (sysctl_params s))
  ++ (if path_exists env "/etc/resolv.conf.bak"
      then [EvCopy "/etc/resolv.conf.bak" "/etc/resolv.conf"] else [])
  ++ match iface with
     | Some i => try_block (run_raises env)
                   [([], ["tc"; "qdisc"; "del"; "dev"; i; "root"])]
     | None => []
     end
  ++ try_block (run_raises env) [([], ["iptables"; "-t"; "mangle"; "-F"])].

Definition restore_macos (env : stop_env) (iface : option string)
           (s : macos_settings) : list event :=
  match dns_servers s, iface with
  | Some (d :: original_dns), Some _ =>
      EvRun [] ["networksetup"; "-listallnetworkservices"]
      :: match services env with
         | Some (Some w) =>
             try_block (run_raises env)
               [(["dns_servers"],
                 (["networksetup"; "-setdnsservers"; w] ++ d :: original_dns)%list)]
         | _ => []
         end
  | _, _ => []
  end
  ++ try_block (run_raises env) [([], ["pfctl"; "-d"])].

Definition temp_files : list string :=
  ["/tmp/pf_signal_booster.conf"; "/tmp/pf_priorities.conf";
   "/tmp/pf_bw_control.conf"].

(** [_restore_original_settings]: it reads the baseline and leaves the
    object as it is. *)
Definition _restore_original_settings (env : stop_env) (st : SignalBooster)
  : list event :=
  match os st, original_settings st with
  | Windows, WindowsBaseline s => restore_windows env (active_interface st) s
  | Linux, LinuxBaseline s => restore_linux env (active_interface st) s
  | Darwin, MacosBaseline s => restore_macos env (active_interface st) s
  | _, _ => []
  end
  ++ map EvRemove (List.filter (path_exists env) temp_files).

(** [stop_boosting] *)
Definition stop_boosting (env : stop_env) (st : SignalBooster)
  : SignalBooster * list event :=
  if negb (active st) && negb (is_running st) then (st, [])
  else
    let st1 := set_flags false false st in
    (st1,
     ([EvVisualizerStop]
        ++ _restore_original_settings env st1
        ++ (if has_monitor_thread st1 && thread_alive env
            then [EvJoin 2%Q] else []))%list).

(** [stop], the method the GUI calls. *)
Definition stop (env : stop_env) (st : SignalBooster)
  : SignalBooster * list event :=
  stop_boosting env (set_flags false false st).

(** How often the value of baseline parameter [key] is handed to a
    command. *)
Definition times_passed (key : string) (trace : list event) : nat :=
  length (List.filter (fun ev => match ev with
                                 | EvRun carries _ => bool_decide (key ∈ carries)
                                 | _ => false
                                 end) trace).

(** Position of the first event satisfying [p]. *)
Fixpoint first_index (p : event -> bool) (trace : list event) : option nat :=
  match trace with
  | [] => None
  | ev :: rest => if p ev then Some 0%nat else S <$> first_index p rest
  end.

Definition is_join (ev : event) : bool :=
  match ev with EvJoin _ => true | _ => false end.

Definition is_restore (ev : event) : bool :=
  match ev with EvRun _ _ | EvCopy _ _ | EvRemove _ => true | _ => false end.

(** ** Measuring and the monitor loop *)

(** What one round of measurements meets:
    - [bandwidth_download]: [measure_bandwidth(duration=3)["download"]],
      [None] when the call raises;
    - [speed_variation]: [random.uniform(-0.5, 0.5)];
    - [wifi_signal]: [get_wifi_signal_strength()], [None] when it raises;
    - [signal_variation]: [random.randint(-3, 3)];
    - [signal_after]: the [new_signal] that [_optimize_signal_strength]
      stores, [None] when it raises before the assignment. *)
Record round_env := mk_round_env {
  bandwidth_download : option Q;
  speed_variation : Q;
  wifi_signal : option Z;
  signal_variation : Z;
  signal_after : option Z
}.

(** [_measure_current_speed] *)
Definition _measure_current_speed (env : round_env) (st : SignalBooster) : Q :=
  match bandwidth_download env with
  | Some download =>
      if Qlt_bool 0 download then download
      else if Qlt_bool 0 (current_speed st)
           then Qmax (1 # 2) (current_speed st + speed_variation env)%Q
           else 5%Q
  | None => 5%Q
  end.

(** [_measure_signal_strength] *)
Definition _measure_signal_strength (env : round_env) (st : SignalBooster) : Z :=
  match wifi_signal env with
  | Some signal =>
      if 0 <=? signal then signal
      else if 0 <? current_signal st
           then Z.max 1 (Z.min 100 (current_signal st + signal_variation env))
           else 50
  | None => 50
  end.

(** [_apply_optimizations], as far as the attributes above go: the signal
    branch stores the signal measured after optimising, and the last
    statement recomputes [optimization_level_value].  [None] is the
    [ZeroDivisionError] of that statement for a zero target.  The blocks
    in between run platform commands inside their own [try] and assign
    none of the attributes above. *)
Definition _apply_optimizations (env : round_env) (st : SignalBooster)
  : option SignalBooster :=
  let st1 :=
    if current_signal st <? target_signal_strength st then
      match signal_after env with
      | Some new_signal => set_signal new_signal st
      | None => st
      end
    else st in
  if Qeq_bool (target_speed st1) 0 || Z.eqb (target_signal_strength st1) 0
  then None
  else
    Some (set_level_value
            (Qmin (inject_Z (current_signal st1)
                     / inject_Z (target_signal_strength st1) * 100)
                  (current_speed st1 / target_speed st1 * 100))%Q
            st1).

(** One pass through the body of [while self.active:] in
    [_monitor_and_optimize]; the flag tells whether the pass called
    [_apply_optimizations].  [None]: the pass raised, which ends the
    loop. *)
Definition monitor_pass (env : round_env) (st : SignalBooster)
  : option (SignalBooster * bool) :=
  let st1 := set_speed (_measure_current_speed env st) st in
  let st2 := set_signal (_measure_signal_strength env st1) st1 in
  if current_signal st2 <? target_signal_strength st2 then
    match _apply_optimizations env st2 with
    | Some st3 => Some (st3, true)
    | None => None
    end
  else Some (st2, false).

(** The loop, for as many passes as there are rounds in [envs]; the list
    returned says, pass by pass, whether the optimisations were
    re-applied. *)
Fixpoint _monitor_and_optimize (envs : list round_env) (st : SignalBooster)
  : SignalBooster * list bool :=
  match envs with
  | [] => (st, [])
  | env :: rest =>
      if active st then
        match monitor_pass env st with
        | Some (st', reapplied) =>
            let '(st'', log) := _monitor_and_optimize rest st' in
            (st'', reapplied :: log)
        | None => (st, [])
        end
      else (st, [])
  end.

(** ** Starting: [start_boosting] and [_run_diagnostics] *)

(** [net_utils.find_network_best_wifi_channel()] and
    [net_utils.find_network_optimal_mtu()].  [net_utils] is
    [network_utils.py], which defines no function of either name (its own
    are [find_best_wifi_channel] and [find_optimal_mtu]): the attribute
    lookup raises [AttributeError], which is [None]. *)
Definition find_network_best_wifi_channel : option Z := None.

Definition find_network_optimal_mtu : option Z := None.

Definition _find_optimal_channel : option Z := find_network_best_wifi_channel.

Definition _find_optimal_mtu : option Z := find_network_optimal_mtu.

(** [_determine_optimal_settings]: the channel and the MTU of the dict it
    builds (the other entries are constants), [None] when building it
    raises; the channel is evaluated first. *)
Definition _determine_optimal_settings : option (Z * Z) :=
  match _find_optimal_channel with
  | Some channel =>
      match _find_optimal_mtu with
      | Some mtu => Some (channel, mtu)
      | None => None
      end
  | None => None
  end.

(** How a call ends, with the object as the call leaves it. *)
Inductive outcome :=
| Returned (st : SignalBooster)
| Raised (st : SignalBooster).

Definition state_after (o : outcome) : SignalBooster :=
  match o with
  | Returned st | Raised st => st
  end.

(** [_run_diagnostics]: it stores the two measurements, runs the
    congestion and interference analyses (which catch what they raise and
    assign no attribute) and then calls [_determine_optimal_settings],
    outside any [try]. *)
Definition _run_diagnostics (env : round_env) (st : SignalBooster) : outcome :=
  let st1 := set_speed (_measure_current_speed env st) st in
  let st2 := set_signal (_measure_signal_strength env st1) st1 in
  match _determine_optimal_settings with
  | Some _ => Returned st2
  | None => Raised st2
  end.

(** The object when [_apply_optimizations] raises at its last statement:
    the signal branch has run. *)
Definition after_signal_branch (env : round_env) (st : SignalBooster)
  : SignalBooster :=
  if current_signal st <? target_signal_strength st then
    match signal_after env with
    | Some new_signal => set_signal new_signal st
    | None => st
    end
  else st.

(** [start_boosting]: nothing catches what [_run_diagnostics] or
    [_apply_optimizations] raises, and the flags are set after both. *)
Definition start_boosting (env : round_env) (st : SignalBooster) : outcome :=
  if active st then Returned st
  else
    match active_interface st with
    | None => Returned st
    | Some _ =>
        match _run_diagnostics env st with
        | Returned st2 =>
            match _apply_optimizations env st2 with
            | Some st3 => Returned (set_thread true (set_flags true true st3))
            | None => Raised (after_signal_branch env st2)
            end
        | Raised st2 => Raised st2
        end
    end.

(** ** [get_current_metrics] *)

(** - [random_uniform]: the value of [random.uniform(0, 0.8)];
    - [metric_signal]: [net_utils.get_wifi_signal_strength()];
    - [metric_bandwidth]: download and upload of [net_utils.measure_speed()];
    - [metric_latency]: the average of [net_utils.measure_latency];
    [None] when the call raises. *)
Record metrics_env := mk_metrics_env {
  random_uniform : Q;
  metric_signal : option Z;
  metric_bandwidth : option (Q * Q);
  metric_latency : option Q
}.

Record metrics := mk_metrics {
  m_signal_strength : Z;
  m_current_speed : Q;
  m_upload_speed : Q;
  m_target_speed : Q;
  m_optimization_level : Q;
  m_latency : Q
}.

(** The first two statements: seeding and the gradual increase. *)
Definition bump_level (r : Q) (st : SignalBooster) : SignalBooster :=
  let st1 :=
    if Qeq_bool (optimization_level_value st) 0 && is_running st
    then set_level_value 25 st else st in
  if is_running st1
  then set_level_value (Qmin 98 (optimization_level_value st1 + r)%Q) st1
  else st1.

Definition get_current_metrics (env : metrics_env) (st : SignalBooster)
  : metrics * SignalBooster :=
  let st1 := bump_level (random_uniform env) st in
  let current_signal0 := current_signal st1 in
  let current_speed0 := current_speed st1 in
  let upload0 := (current_speed0 * (15 # 100))%Q in
  if is_running st1 then
    let '(signal, st2) :=
      match metric_signal env with
      | Some sg => if 0 <? sg then (sg, set_signal sg st1) else (current_signal0, st1)
      | None => (current_signal0, st1)
      end in
    let '(speed, upload, st3) :=
      match metric_bandwidth env with
      | Some (download, up) =>
          let '(speed, st3) :=
            if Qlt_bool 0 download then (download, set_speed download st2)
            else (current_speed0, st2) in
          (speed, if Qlt_bool 0 up then up else upload0, st3)
      | None => (current_speed0, upload0, st2)
      end in
    let latency_ :=
      match metric_latency env with
      | Some avg => if Qlt_bool 0 avg then avg else 50%Q
      | None => 50%Q
      end in
    ({| m_signal_strength := signal; m_current_speed := speed;
        m_upload_speed := upload; m_target_speed := target_speed st3;
        m_optimization_level := optimization_level_value st3;
        m_latency := latency_ |}, st3)
  else
    ({| m_signal_strength := current_signal0; m_current_speed := current_speed0;
        m_upload_speed := upload0; m_target_speed := target_speed st1;
        m_optimization_level := optimization_level_value st1;
        m_latency := 50%Q |}, st1).

(** A run of calls, one per environment, with nothing else writing to the
    object in between; the values of [optimization_level_value] after each
    call. *)
Fixpoint metrics_calls (envs : list metrics_env) (st : SignalBooster) : list Q :=
  match envs with
  | [] => []
  | env :: rest =>
      let st' := snd (get_current_metrics env st) in
      optimization_level_value st' :: metrics_calls rest st'
  end.

End Core.

(* ===================================================================== *)
(** * Construction, interface choice and the measuring helpers ([core.py]) *)
(* ===================================================================== *)
Module Session.
Import Config Core.

Local Open Scope string_scope.
Local Open Scope Z_scope.

(** ** The level an object is created with: [__init__] *)

(** [OptimizationLevel(value)]: the member with that value; [None] is the
    [ValueError] of a string that names no member. *)
Definition level_of_value (s : string) : option OptimizationLevel :=
  if String.eqb s "light" then Some LIGHT
  else if String.eqb s "standard" then Some STANDARD
  else if String.eqb s "aggressive" then Some AGGRESSIVE
  else if String.eqb s "extreme" then Some EXTREME
  else None.

(** The [optimization_level] argument: a string or a member of the enum. *)
Inductive level_arg :=
| ByName (s : string)
| ByEnum (l : OptimizationLevel).

(** The level [__init__] stores: an unknown name falls back to [STANDARD],
    and aggressive mode lifts [LIGHT] and [STANDARD] to [AGGRESSIVE]. *)
Definition init_level (aggressive : bool) (optimization_level : level_arg)
  : OptimizationLevel :=
  let level :=
    match optimization_level with
    | ByName s =>
        match level_of_value s with
        | Some l => l
        | None => STANDARD
        end
    | ByEnum l => l
    end in
  if aggressive && (match level with LIGHT | STANDARD => true | _ => false end)
  then AGGRESSIVE
  else level.

(** The flags [__init__] ends with: [_set_feature_flags] on the stored
    level. *)
Definition init_flags (aggressive : bool) (optimization_level : level_arg)
           (advanced_settings : gmap string bool) : feature_flags :=
  _set_feature_flags (init_level aggressive optimization_level) advanced_settings.

(** ** [_get_active_interface] *)

(** The two entries of an interface's details that the choice reads. *)
Record iface_details := mk_iface {
  is_wireless : bool;
  ip_address : option string
}.

(** [details.get('ip_address')] as a condition: a non-empty string. *)
Definition has_ip (d : iface_details) : bool :=
  match ip_address d with
  | Some s => negb (String.eqb s "")
  | None => false
  end.

(** [self.interfaces]: a list of names (the older shape) or a dict from
    name to details, in insertion order. *)
Inductive iface_table :=
| IfList (names : list string)
| IfDict (items : list (string * iface_details)).

(** The first loop: the connectivity test is tried for each wireless
    interface with an address; [connect_ok n] tells whether the [n]-th
    attempt succeeds. *)
Fixpoint first_connected (connect_ok : nat -> bool) (n : nat)
         (items : list (string * iface_details)) : option string :=
  match items with
  | [] => None
  | (interface, details) :: rest =>
      if is_wireless details && has_ip details then
        if connect_ok n then Some interface
        else first_connected connect_ok (S n) rest
      else first_connected connect_ok n rest
  end.

Definition _get_active_interface (connect_ok : nat -> bool)
           (interfaces : iface_table) : option string :=
  match interfaces with
  | IfList names => head names
  | IfDict items =>
      match items with
      | [] => None
      | (first, _) :: _ =>
          match first_connected connect_ok 0 items with
          | Some interface => Some interface
          | None =>
              match List.find (fun '(_, details) => has_ip details) items with
              | Some (interface, _) => Some interface
              | None => Some first
              end
          end
      end
  end.

(** ** [_signal_strength_to_text] *)

Definition _signal_strength_to_text (signal : Z) : string :=
  if 75 <=? signal then pretty signal ++ "% (Excellent)"
  else if 50 <=? signal then pretty signal ++ "% (Good)"
  else if 30 <=? signal then pretty signal ++ "% (Fair)"
  else pretty signal ++ "% (Poor)".

(** ** [_measure_latency] and [_measure_upload_speed] *)

(** [avg] is [latency_results["avg"]]; [None] when the call raises. *)
Definition _measure_latency (avg : option Q) : Q :=
  match avg with
  | Some a => if Qlt_bool 0 a then a else 50%Q
  | None => 50%Q
  end.

(** [upload] is [net_utils.measure_speed()["upload"]], [None] when the
    call raises; [variation] is [random.uniform(-0.2, 0.2)]. *)
Definition _measure_upload_speed (upload : option Q) (variation : Q)
           (st : SignalBooster) : Q :=
  match upload with
  | Some up =>
      if Qlt_bool 0 up then up
      else
        let current_download :=
          if Qlt_bool 0 (current_speed st) then current_speed st else 5%Q in
        let estimated_upload := (current_download * (3 # 10))%Q in
        Qmax (1 # 2) (estimated_upload + variation)%Q
  | None => 1%Q
  end.

End Session.

(* ===================================================================== *)
(** * The diagnostic helpers of [advanced_config.py] *)
(* ===================================================================== *)
Module Simulated.

Local Open Scope string_scope.
Local Open Scope Z_scope.

(** [range(start, stop, step)] for a positive [step]. *)
Definition range_step (start stop step : Z) : list Z :=
  map (fun i => start + step * Z.of_nat i)
      (seq 0 (Z.to_nat ((stop - start + step - 1) / step))).

(** ** [check_dns_response_times] *)

Definition default_nameservers : list string :=
  ["1.1.1.1"; "8.8.8.8"; "9.9.9.9"; "208.67.222.222"].

(** [hash] is Python's [hash] on strings: some integer for each string.
    [nameservers = None] is the default argument. *)
Definition check_dns_response_times (hash : string -> Z)
           (nameservers : option (list string)) : gmap string Z :=
  let nameservers :=
    match nameservers with
    | None => default_nameservers
    | Some l => l
    end in
  foldl (fun results ns => <[ns := 20 + hash ns `mod` 40]> results)
        ∅ nameservers.

(** ** [analyze_wifi_spectrum] *)

Record channel_info := mk_channel_info {
  signal : Z;
  noise : Z;
  utilization : Z
}.

(** The [channels] dict after the three loops, in insertion order. *)
Definition spectrum_channels (hash : string -> Z) : list (Z * channel_info) :=
  map (fun i => (i, mk_channel_info 0 0 (hash (pretty i) `mod` 80 + 10)))
      (range_step 1 12 1)
  ++ map (fun i => (i, mk_channel_info 0 0 (hash (pretty i) `mod` 60 + 5)))
         (range_step 36 165 4).

(** [channels[x]["utilization"]]; a key that is missing would raise. *)
Definition utilization_of (channels : list (Z * channel_info)) (x : Z)
  : option Z :=
  utilization <$> (snd <$> List.find (fun '(ch, _) => Z.eqb ch x) channels).

(** [min(candidates, key=...)]: the first candidate with the least key;
    [None] when the sequence is empty or a key lookup raises. *)
Fixpoint py_min_by (key : Z -> option Z) (best : Z * Z) (rest : list Z)
  : option Z :=
  match rest with
  | [] => Some (fst best)
  | x :: rest' =>
      match key x with
      | Some kx =>
          if kx <? snd best then py_min_by key (x, kx) rest'
          else py_min_by key best rest'
      | None => None
      end
  end.

Definition py_min (key : Z -> option Z) (candidates : list Z) : option Z :=
  match candidates with
  | [] => None
  | x :: rest =>
      match key x with
      | Some kx => py_min_by key (x, kx) rest
      | None => None
      end
  end.

Record spectrum := mk_spectrum {
  channels : list (Z * channel_info);
  best_2ghz : Z;
  best_5ghz : Z
}.

Definition analyze_wifi_spectrum (hash : string -> Z) : option spectrum :=
  let channels := spectrum_channels hash in
  match py_min (utilization_of channels) (range_step 1 12 1),
        py_min (utilization_of channels) (range_step 36 165 4) with
  | Some b2, Some b5 => Some (mk_spectrum channels b2 b5)
  | _, _ => None
  end.

(** ** [measure_bandwidth_over_time] *)

Record bandwidth_series := mk_series {
  timestamp : list Z;
  download_mbps : list Q;
  upload_mbps : list Q
}.

(** [uniform n] is the value of the [n]-th call of [random.uniform]
    (counted from 0): each turn of the loop draws first for the download
    and then for the upload. *)
Definition measure_bandwidth_over_time (uniform : nat -> Q) (duration : Z)
  : bandwidth_series :=
  let turns := range_step 0 duration 5 in
  {| timestamp := turns;
     download_mbps :=
       imap (fun k _ => Qmax 1 (50 + uniform (2 * k)%nat)%Q) turns;
     upload_mbps :=
       imap (fun k _ => Qmax (1 # 2) (10 + uniform (2 * k + 1)%nat)%Q) turns |}.

End Simulated.

(* ===================================================================== *)
(** * Platform helpers ([network/platform/windows.py], [.../macos.py]) *)
(* ===================================================================== *)
Module Platform.
Import Core.

Local Open Scope string_scope.
Local Open Scope Z_scope.

(** ** Signal strength *)

(** What [netsh wlan show interfaces] gave: the return code and the digits
    matched by [Signal\s+:\s+(\d+)%]. *)
Record netsh_wlan := mk_netsh_wlan {
  wlan_returncode : Z;
  signal_match : option N
}.

(** [get_windows_wifi_signal]; [None] is a call that raises. *)
Definition get_windows_wifi_signal (out : option netsh_wlan) : Z :=
  match out with
  | None => 0
  | Some o =>
      if negb (Z.eqb (wlan_returncode o) 0) then 0
      else match signal_match o with
           | Some n => Z.of_N n
           | None => 0
           end
  end.

(** The first line of [airport -I] with ["agrCtlRSSI"] and a colon: what
    follows the colon is an integer or not (then [int] raises). *)
Inductive rssi_line :=
| RssiInt (rssi : Z)
| RssiNotInt.

(** - [airport_rssi]: [None] when the airport tool is missing, printed
      nothing, or has no such line;
    - [profiler_snr]: the digits matched by [Signal / Noise:\s+(\d+)] in
      the output of [system_profiler], if any. *)
Record macos_signal_env := mk_macos_signal {
  airport_rssi : option rssi_line;
  profiler_snr : option N
}.

Definition get_macos_wifi_signal (env : macos_signal_env) : Q :=
  match airport_rssi env with
  | Some (RssiInt rssi) =>
      inject_Z (Z.max 0 (Z.min 100 (2 * (rssi + 100))))
  | Some RssiNotInt => 60%Q
  | None =>
      match profiler_snr env with
      | Some snr => Qmin 100 (Qmax 0 (inject_Z (Z.of_N snr) * (5 # 2)))%Q
      | None => 60%Q
      end
  end.

(** [get_wifi_signal_strength] of [network/utils.py]: the reading of the
    platform, and 60 when the platform is none of the three or the branch
    raises.  [linux]: what [get_linux_wifi_signal()] returns, [None] when
    importing or calling it raises; the other two catch what they
    raise. *)
Definition get_wifi_signal_strength (os : os_type)
           (windows : option netsh_wlan) (linux : option Q)
           (macos : macos_signal_env) : Q :=
  match os with
  | Windows => inject_Z (get_windows_wifi_signal windows)
  | Linux => default 60%Q linux
  | Darwin => get_macos_wifi_signal macos
  | OtherOS => 60%Q
  end.

(** ** [set_windows_dns] *)







(** ** [analyze_windows_network_congestion] *)

(** - [interface_given]: the argument is a non-empty name;
    - [interface_detected]: the adapter query returned a name;
    - [jitter], [packet_loss]: [measure_windows_jitter()],
      [measure_windows_packet_loss()];
    - [adapter_counts]: total errors and total packets when all six
      counters matched, [None] otherwise or when the query raised;
    - [tcp_connections]: the count parsed, [None] when the command
      failed, printed nothing, or [int] raised;
    - [cpu_usage]: likewise for the processor time. *)
Record win_congestion_env := mk_win_congestion {
  interface_given : bool;
  interface_detected : bool;
  jitter : Q;
  packet_loss : Q;
  adapter_counts : option (N * N);
  tcp_connections : option Z;
  cpu_usage : option Q
}.

Definition win_congestion_factors (env : win_congestion_env) : list Q :=
  [ Qmin 100 (jitter env * (333 # 100))%Q; packet_loss env ]
  ++ match adapter_counts env with
     | Some (total_errors, total_packets) =>
         if (0 <? Z.of_N total_packets)%Z then
           [ Qmin 100 (inject_Z (Z.of_N total_errors)
                       / inject_Z (Z.max 1 (Z.of_N total_packets)) * 100)%Q ]
         else []
     | None => []
     end
  ++ match tcp_connections env with
     | Some tcp_conn_count =>
         [ Qmin 100 (inject_Z tcp_conn_count / 100 * 50)%Q ]
     | None => []
     end
  ++ match cpu_usage env with
     | Some cpu =>
         if Qlt_bool 70 cpu
         then [ ((cpu - 70) * (333 # 100) * (1 # 2))%Q ]
         else []
     | None => []
     end.

Definition analyze_windows_network_congestion (env : win_congestion_env) : Q :=
  if negb (interface_given env) && negb (interface_detected env) then 30%Q
  else
    match win_congestion_factors env with
    | [] => 30%Q
    | factors => mean factors
    end.

(** ** The prefix length of a dotted subnet mask *)

(** [bin(n).count('1')] *)
Fixpoint ones (p : positive) : Z :=
  match p with
  | xH => 1
  | xO q => ones q
  | xI q => 1 + ones q
  end.

Definition bit_count (n : Z) : Z :=
  match n with
  | Z0 => 0
  | Zpos p | Zneg p => ones p
  end.

(** [sum([bin(int(x)).count('1') for x in mask.split('.')])] on the
    integers of the mask. *)
Definition prefix_of_mask (octets : list Z) : Z :=
  fold_right Z.add 0 (map bit_count octets).

End Platform.

(* ===================================================================== *)
(** * Interfaces ([network/interfaces.py]) *)
(* ===================================================================== *)
Module Interfaces.

Local Open Scope string_scope.
Local Open Scope Z_scope.

(** The netmask of [_get_macos_interfaces]: the four integers joined by
    dots, [(netmask_int >> (24 - i * 8)) & 0xFF] for [i] in [range(4)]. *)
Definition netmask_octets (netmask_int : Z) : list Z :=
  map (fun i => Z.land (Z.shiftr netmask_int (24 - i * 8)) 255) [0; 1; 2; 3].

Fixpoint join (sep : string) (parts : list string) : string :=
  match parts with
  | [] => ""
  | [p] => p
  | p :: rest => p ++ sep ++ join sep rest
  end.

Definition netmask_dotted (netmask_int : Z) : string :=
  join "." (map pretty (netmask_octets netmask_int)).

(** ** [get_active_interface] *)

(** The interfaces dict, in insertion order, with the [ip_address] of
    each entry (the empty string when it has none). *)
Definition interfaces := list (string * string).

Definition has_address (details : string) : bool :=
  negb (String.eqb details "").

(** - [route_device]: on Linux and macOS the device matched in the output
      of the default-route query, if any; on Windows the query compares
      [details.get('interface_idx')] with a string, and no entry of any
      interfaces dict has that key, so it never returns;
    - [connect_ok n]: whether the [n]-th connectivity test succeeds. *)
Fixpoint first_reachable (connect_ok : nat -> bool) (n : nat)
         (ifs : interfaces) : option string :=
  match ifs with
  | [] => None
  | (interface, ip) :: rest =>
      if has_address ip then
        if connect_ok n then Some interface
        else first_reachable connect_ok (S n) rest
      else first_reachable connect_ok n rest
  end.

Definition first_with_address (ifs : interfaces) : option string :=
  fst <$> List.find (fun '(_, ip) => has_address ip) ifs.

Definition get_active_interface (os : os_type) (route_device : option string)
           (connect_ok : nat -> bool) (ifs : interfaces) : option string :=
  let by_route :=
    match os with
    | Linux | Darwin => route_device
    | _ => None
    end in
  match by_route with
  | Some device => Some device
  | None =>
      match first_reachable connect_ok 0 ifs with
      | Some interface => Some interface
      | None => first_with_address ifs
      end
  end.

End Interfaces.

(* ===================================================================== *)
(** * Connection quality ([network/diagnostics.py]) *)
(* ===================================================================== *)
Module Diagnostics.
Import Core.

Local Open Scope string_scope.
Local Open Scope Z_scope.

(** What the ping printed, as far as the patterns matched:
    - no output at all;
    - Windows: the loss percentage, and minimum, maximum and average;
    - Linux and macOS: the loss percentage, and min, avg, max and mdev. *)
Inductive ping_output :=
| NoOutput
| WindowsPing (loss : option Q) (latency : option (Q * Q * Q))
| UnixPing (loss : option Q) (latency : option (Q * Q * Q * Q)).

Record quality := mk_quality {
  min_latency : Q;
  max_latency : Q;
  avg_latency : Q;
  jitter : Q;
  packet_loss : Q;
  quality_score : Z;
  quality_issues : list string;
  quality_rating : string
}.

(** Python's [round] of a float to an integer: to the nearest, and to the
    even neighbour at a half. *)
Definition py_round (q : Q) : Z :=
  let f := Qfloor q in
  match (q - inject_Z f ?= 1 # 2)%Q with
  | Lt => f
  | Gt => f + 1
  | Eq => if Z.even f then f else f + 1
  end.

Definition rating_of (score : Z) : string :=
  if 90 <=? score then "Excellent"
  else if 70 <=? score then "Good"
  else if 50 <=? score then "Fair"
  else if 30 <=? score then "Poor"
  else "Very Poor".

Definition check_connection_quality (out : ping_output) : quality :=
  let loss :=
    match out with
    | WindowsPing (Some l) _ | UnixPing (Some l) _ => l
    | _ => 0%Q
    end in
  let '(mn, mx, avg, jit) :=
    match out with
    | WindowsPing _ (Some (mn, mx, avg)) => (mn, mx, avg, ((mx - mn) / 2)%Q)
    | UnixPing _ (Some (mn, avg, mx, mdev)) => (mn, mx, avg, mdev)
    | _ => (0, 0, 0, 0)%Q
    end in
  let latency_score := Qmax 0 (40 - avg / 5)%Q in
  let jitter_score := Qmax 0 (30 - jit * (6 # 10))%Q in
  let packet_loss_score := Qmax 0 (30 - loss * 3)%Q in
  let score := py_round (latency_score + jitter_score + packet_loss_score)%Q in
  {| min_latency := mn; max_latency := mx; avg_latency := avg;
     jitter := jit; packet_loss := loss;
     quality_score := score;
     quality_issues :=
       ((if Qlt_bool 100 avg then ["High latency"] else [])
          ++ (if Qlt_bool 20 jit then ["High jitter/instability"] else [])
          ++ (if Qlt_bool 1 loss then ["Packet loss detected"] else []))%list;
     quality_rating := rating_of score |}.

End Diagnostics.

(* ===================================================================== *)
(** * What the session feeds: the visualizer and the GUI
      ([visualization.py], [gui_utils.py], [gui_components/status_bar.py],
      [gui.py]) *)
(* ===================================================================== *)
Module Gui.
Import Core.

Local Open Scope string_scope.
Local Open Scope Z_scope.

(** ** [SignalVisualizer.add_data_point] *)

(** [self.data]: six series. *)
Record viz_data := mk_viz {
  time : list Q;
  signal_strength : list Q;
  download_speed : list Q;
  upload_speed : list Q;
  latency : list Q;
  optimization_level : list Q
}.

Definition empty_data : viz_data := mk_viz [] [] [] [] [] [].

(** One point as the monitor loop hands it over, with the clock reading
    taken by [add_data_point]. *)
Record data_point := mk_point {
  p_time : Q;
  p_signal_strength : Q;
  p_download_speed : Q;
  p_upload_speed : Q;
  p_latency : Q;
  p_optimization_level : Q
}.

(** [if len(l) > max_points: l = l[-max_points:]]; the slice [l[-0:]] is
    the whole list. *)
Definition keep_last {A} (max_points : nat) (l : list A) : list A :=
  if (max_points <? length l)%nat then
    match max_points with
    | O => l
    | S _ => drop (length l - max_points) l
    end
  else l.

(** The series after [add_data_point]; the files it may save on the way
    are not part of the data. *)
Definition add_data_point (max_points : nat) (d : viz_data) (p : data_point)
  : viz_data :=
  {| time := keep_last max_points (time d ++ [p_time p]);
     signal_strength :=
       keep_last max_points (signal_strength d ++ [p_signal_strength p]);
     download_speed :=
       keep_last max_points (download_speed d ++ [p_download_speed p]);
     upload_speed :=
       keep_last max_points (upload_speed d ++ [p_upload_speed p]);
     latency := keep_last max_points (latency d ++ [p_latency p]);
     optimization_level :=
       keep_last max_points (optimization_level d ++ [p_optimization_level p]) |}.

(** [self.max_points] *)
Definition max_points : nat := 100.

(** ** [gui_utils.py] *)

Definition get_quality_color (value good_threshold medium_threshold : Q)
  : string :=
  if Qle_bool good_threshold value then "#4CAF50"
  else if Qle_bool medium_threshold value then "#FFC107"
  else "#F44336".

Definition get_signal_quality_text (signal_strength : Q) : string :=
  if Qle_bool 80 signal_strength then "Excellent"
  else if Qle_bool 60 signal_strength then "Good"
  else if Qle_bool 40 signal_strength then "Fair"
  else if Qle_bool 20 signal_strength then "Poor"
  else "Very Poor".

(** The caption of the dashboard's signal card in
    [update_visualizations], for a whole percentage. *)
Definition signal_card_text (signal : Z) : string :=
  pretty signal ++ "% (" ++ get_signal_quality_text (inject_Z signal) ++ ")".

(** ** [StatusBar.update_indicators] *)

(** Where the three bars are set and in which colour. *)
Record indicators := mk_indicators {
  signal_norm : Q;
  signal_color : string;
  speed_norm : Q;
  speed_color : string;
  opt_norm : Q;
  opt_color : string
}.

(** [None] is the [ZeroDivisionError] of a zero target speed. *)
Definition update_indicators (signal current_speed target_speed level : Q)
  : option indicators :=
  if Qeq_bool target_speed 0 then None
  else
    let speed_norm := Qmax 0 (Qmin (current_speed / target_speed) 1) in
    Some {| signal_norm := Qmax 0 (Qmin (signal / 100) 1);
            signal_color := get_quality_color signal 70 40;
            speed_norm := speed_norm;
            speed_color := get_quality_color (speed_norm * 100) 70 40;
            opt_norm := Qmax 0 (Qmin (level / 100) 1);
            opt_color := get_quality_color level 70 40 |}.

End Gui.

(* ===================================================================== *)
(** * Changing the level of a live object ([core.py]) *)
(* ===================================================================== *)
Module Levels.
Import Config Core Session.

Local Open Scope string_scope.

(** The attributes of a [SignalBooster] that hold the level and what is
    derived from it.  No other method than [__init__],
    [set_optimization_level] and [start] assigns them. *)
Record level_state := mk_level_state {
  aggressive : bool;
  optimization_level : OptimizationLevel;
  advanced_settings : gmap string bool;
  flags : feature_flags
}.

Definition with_level (l : OptimizationLevel) (self : level_state) : level_state :=
  {| aggressive := aggressive self; optimization_level := l;
     advanced_settings := advanced_settings self; flags := flags self |}.

Definition with_flags (f : feature_flags) (self : level_state) : level_state :=
  {| aggressive := aggressive self;
     optimization_level := optimization_level self;
     advanced_settings := advanced_settings self; flags := f |}.

(** [set_optimization_level(level)]: the value returned and the attributes
    afterwards.
    - [config_ok]: whether [_get_effective_config()] returns;
    - [active]: [self.active];
    - [apply_ok]: whether [_apply_optimizations()] returns.
    The handler of the [try] turns every exception into [False]; what was
    assigned before stays assigned. *)
Definition set_optimization_level (config_ok active apply_ok : bool)
           (level : level_arg) (self : level_state) : bool * level_state :=
  match (match level with
         | ByName s => level_of_value s
         | ByEnum l => Some l
         end) with
  | None => (false, self)
  | Some l =>
      let self := with_level l self in
      if config_ok then
        let self :=
          with_flags (_set_feature_flags (optimization_level self)
                                         (advanced_settings self)) self in
        if active then (apply_ok, self) else (true, self)
      else (false, self)
  end.

(** [start(target_speed, aggressive, monitor, optimization_level,
    advanced_settings)], up to its call of [start_boosting]: the attributes
    at that point, and whether the call is reached.  An argument that is
    [None] is skipped.
    - [level_config_ok], [settings_config_ok]: whether
      [_get_effective_config()] returns, in [set_optimization_level] and in
      the settings branch; in the latter nothing catches the exception.
    [dict.update] lets the new entries win. *)
Definition start (aggressive : option bool)
           (optimization_level : option level_arg)
           (advanced_settings : option (gmap string bool))
           (level_config_ok settings_config_ok active apply_ok : bool)
           (self : level_state) : level_state * bool :=
  let self :=
    match aggressive with
    | Some a =>
        {| Levels.aggressive := a;
           Levels.optimization_level := Levels.optimization_level self;
           Levels.advanced_settings := Levels.advanced_settings self;
           flags := flags self |}
    | None => self
    end in
  let self :=
    match optimization_level with
    | Some level =>
        snd (set_optimization_level level_config_ok active apply_ok level self)
    | None => self
    end in
  match advanced_settings with
  | Some new =>
      let self :=
        {| Levels.aggressive := Levels.aggressive self;
           Levels.optimization_level := Levels.optimization_level self;
           Levels.advanced_settings := new ∪ Levels.advanced_settings self;
           flags := flags self |} in
      if settings_config_ok then
        (with_flags (_set_feature_flags (Levels.optimization_level self)
                                        (Levels.advanced_settings self)) self,
         true)
      else (self, false)
  | None => (self, true)
  end.

End Levels.

(* ===================================================================== *)
(** * The settings the GUI collects ([gui.py],
      [gui_components/advanced_settings.py]) *)
(* ===================================================================== *)
Module GuiSettings.

Local Open Scope string_scope.

Section Settings.

(** What a widget holds: a boolean, a string or a number. *)
Context {V : Type}.

(** An entry of the settings dict: a plain value, or the dict of one
    category. *)
Inductive entry :=
| Leaf (v : V)
| Group (items : list (string * V)).

(** [self.advanced_settings] of the window, in insertion order. *)
Definition settings := list (string * entry).

Fixpoint assoc_get {A} (key : string) (d : list (string * A)) : option A :=
  match d with
  | [] => None
  | (k, v) :: rest => if String.eqb k key then Some v else assoc_get key rest
  end.

(** [d[key] = v] *)
Fixpoint assoc_set {A} (key : string) (v : A) (d : list (string * A))
  : list (string * A) :=
  match d with
  | [] => [(key, v)]
  | (k, w) :: rest =>
      if String.eqb k key then (k, v) :: rest else (k, w) :: assoc_set key v rest
  end.

(** [name in [...]] *)
Definition name_in (name : string) (names : list string) : bool :=
  existsb (String.eqb name) names.

(** The [if]/[elif] chain that files a setting under a category; it is the
    same in [on_advanced_setting_change] and in [get_all_settings]. *)
Definition category_of (name : string) : option string :=
  if name_in name ["tcp_window_size"; "congestion_algorithm"; "tcp_autotuning"]
  then Some "tcp"
  else if name_in name ["channel_switching"; "tx_power";
                        "roaming_aggressiveness"; "band_preference"]
  then Some "wifi"
  else if name_in name ["dns_prefetching"; "dns_provider"; "custom_dns"]
  then Some "dns"
  else if name_in name ["deep_packet_inspection"; "bandwidth_control";
                        "packet_prioritization"; "buffer_bloat_mitigation"]
  then Some "features"
  else None.

(** The dict that [get_all_settings] builds for one category from the
    widgets, [(name, value)] in the order of [settings_widgets]. *)
Definition collect (category : string) (widgets : list (string * V))
  : list (string * V) :=
  fold_left (fun acc '(name, value) =>
               match category_of name with
               | Some c => if String.eqb c category
                           then assoc_set name value acc else acc
               | None => acc
               end)
            widgets [].

Definition get_all_settings (optimization_level : V)
           (widgets : list (string * V)) : settings :=
  [ ("optimization_level", Leaf optimization_level);
    ("tcp", Group (collect "tcp" widgets));
    ("wifi", Group (collect "wifi" widgets));
    ("dns", Group (collect "dns" widgets));
    ("features", Group (collect "features" widgets)) ].

(** The calls of the callback that the settings frame makes:
    [callback("optimization_level", level)],
    [callback("all_settings", settings)] and, for a widget,
    [callback(name, value)]. *)
Inductive call :=
| LevelCall (level : string)
| AllSettingsCall (document : settings)
| WidgetCall (name : string) (value : V).

Definition call_name (c : call) : string :=
  match c with
  | LevelCall _ => "optimization_level"
  | AllSettingsCall _ => "all_settings"
  | WidgetCall name _ => name
  end.

(** [on_advanced_setting_change(name, value)]: the window's
    [advanced_settings] afterwards.  [None]: the item assignment raises
    because the category holds no dict, or a widget is named
    ["all_settings"] and its value takes the place of the dict. *)
Definition on_advanced_setting_change (advanced_settings : settings)
           (c : call) : option settings :=
  if String.eqb (call_name c) "optimization_level" then Some advanced_settings
  else if String.eqb (call_name c) "all_settings" then
    match c with
    | AllSettingsCall document => Some document
    | _ => None
    end
  else
    match category_of (call_name c), c with
    | Some category, WidgetCall name value =>
        let advanced_settings :=
          match assoc_get category advanced_settings with
          | Some _ => advanced_settings
          | None => assoc_set category (Group []) advanced_settings
          end in
        match assoc_get category advanced_settings with
        | Some (Group items) =>
            Some (assoc_set category (Group (assoc_set name value items))
                            advanced_settings)
        | _ => None
        end
    | _, _ => Some advanced_settings
    end.

(** The window's settings after a sequence of calls, from the empty dict of
    [__init__]. *)
Definition after_calls (calls : list call) : option settings :=
  foldl (fun acc c =>
           match acc with
           | Some s => on_advanced_setting_change s c
           | None => None
           end)
        (Some []) calls.

(** A call as the frame makes it: the document of ["all_settings"] comes
    from [get_all_settings], and no widget has that name. *)
Definition frame_call (c : call) : Prop :=
  match c with
  | LevelCall _ => True
  | AllSettingsCall document =>
      exists optimization_level widgets,
        document = get_all_settings optimization_level widgets
  | WidgetCall name _ => name <> "all_settings"
  end.

End Settings.

Arguments entry : clear implicits.
Arguments settings : clear implicits.
Arguments call : clear implicits.

(** The keys under which [_set_feature_flags] looks for an override. *)
Definition flag_keys : list string :=
  [ "dns_prefetching"; "channel_switching"; "deep_packet_inspection";
    "bandwidth_control"; "packet_prioritization" ].

(** The keys a settings dict of the window can have. *)
Definition window_keys : list string :=
  [ "optimization_level"; "tcp"; "wifi"; "dns"; "features" ].

End GuiSettings.

(* ===================================================================== *)
(** * The compatibility module ([network_utils.py]), which [core.py]
      imports as [net_utils] *)
(* ===================================================================== *)
Module Compat.
Import Core.

Local Open Scope string_scope.
Local Open Scope Z_scope.

(** [get_wifi_signal_strength]: a placeholder. *)
Definition get_wifi_signal_strength : Z := 0.

(** ** [measure_speed] *)

Record speed := mk_speed {
  download : Q;
  upload : Q;
  ping : Q
}.

(** What the speedtest library did:
    - it could not be imported ([HAS_SPEEDTEST] is [False]);
    - or [Speedtest()] and [get_best_server()] returned or not
      ([server_found]), and then [st.download()], [st.upload()] (bits per
      second) and [st.results.ping], each [None] when it raised. *)
Inductive speedtest :=
| NotInstalled
| Installed (server_found : bool) (download_bps upload_bps ping_ms : option Q).

(** The handler of the [try] keeps what was assigned before the
    exception. *)
Definition measure_speed (s : speedtest) : speed :=
  match s with
  | NotInstalled => mk_speed 10 2 50
  | Installed false _ _ _ => mk_speed 0 0 0
  | Installed true None _ _ => mk_speed 0 0 0
  | Installed true (Some d) None _ => mk_speed (d / 1000000) 0 0
  | Installed true (Some d) (Some u) None =>
      mk_speed (d / 1000000) (u / 1000000) 0
  | Installed true (Some d) (Some u) (Some p) =>
      mk_speed (d / 1000000) (u / 1000000) p
  end.

(** ** [measure_latency] *)

(** What the pattern of the platform found in the output of [ping]:
    nothing (also when the command failed), the three integers of the
    Windows summary, or the decimals of [min/avg/max/mdev]. *)
Inductive ping_stats :=
| NoStats
| WindowsStats (minimum maximum average : N)
| UnixStats (min_ avg_ max_ : Q).

Definition measure_latency (p : ping_stats) : latency :=
  match p with
  | NoStats => mk_latency 0 0 0
  | WindowsStats minimum maximum average =>
      mk_latency (inject_Z (Z.of_N minimum)) (inject_Z (Z.of_N average))
                 (inject_Z (Z.of_N maximum))
  | UnixStats min_ avg_ max_ => mk_latency min_ avg_ max_
  end.

(** ** What [get_current_metrics] measures through [net_utils] *)

(** None of the three functions raises; [r] is the random draw. *)
Definition metrics_env_of (r : Q) (s : speedtest) (p : ping_stats)
  : metrics_env :=
  mk_metrics_env r (Some get_wifi_signal_strength)
                 (Some (download (measure_speed s), upload (measure_speed s)))
                 (Some (lat_avg (measure_latency p))).

End Compat.

(* ===================================================================== *)
(** * Properties of the MTU search *)
(* ===================================================================== *)
Module MtuProofs.
Import Mtu.

(** The most recent delivered and the most recent failed probe size of a
    log (newest entry first). *)
Definition last_delivered (log : list (Z * bool)) : option Z :=
  fst <$> List.find snd log.

Definition last_failed (log : list (Z * bool)) : option Z :=
  fst <$> List.find (fun e => negb (snd e)) log.

(** Every entry of the log is what the oracle answered to that probe. *)
Fixpoint log_sound (too_large : ping_oracle) (log : list (Z * bool)) : Prop :=
  match log with
  | [] => True
  | (t, ok) :: rest =>
      ok = negb (too_large (length rest) (t - 28)) /\ log_sound too_large rest
  end.

(** The loop invariant. *)
Record search_inv (too_large : ping_oracle) (st : search_state) : Prop := {
  inv_low : 1200 <= min_mtu st;
  inv_order : min_mtu st < max_mtu st;
  inv_high : max_mtu st <= 1500;
  inv_min : min_mtu st = default 1200 (last_delivered (probe_log st));
  inv_max : max_mtu st = default 1500 (last_failed (probe_log st));
  inv_optimal : optimal_mtu st = default 1500 (last_delivered (probe_log st));
  inv_log : log_sound too_large (probe_log st)
}.

Lemma search_loop_more too_large st :
  8 < max_mtu st - min_mtu st ->
  search_loop too_large st = search_loop too_large (step too_large st).
Proof.
  intros H. rewrite search_loop_equation_1. unfold continue.
  destruct (Z_lt_dec 8 (max_mtu st - min_mtu st)); [reflexivity | contradiction].
Qed.

Lemma search_loop_done too_large st :
  max_mtu st - min_mtu st <= 8 -> search_loop too_large st = st.
Proof.
  intros H. rewrite search_loop_equation_1. unfold continue.
  destruct (Z_lt_dec 8 (max_mtu st - min_mtu st)); [lia | reflexivity].
Qed.

(** Whatever the body preserves while the loop runs holds when it ends,
    and then the exit condition holds as well. *)
Lemma search_loop_invariant (P : search_state -> Prop) too_large :
  (forall st, P st -> 8 < max_mtu st - min_mtu st -> P (step too_large st)) ->
  forall st, P st ->
    P (search_loop too_large st) /\
    max_mtu (search_loop too_large st) - min_mtu (search_loop too_large st) <= 8.
Proof.
  intros Hstep st.
  remember (Z.to_nat (max_mtu st - min_mtu st)) as n eqn:Hn.
  revert st Hn. induction n as [n IH] using lt_wf_ind. intros st -> HP.
  destruct (Z_lt_dec 8 (max_mtu st - min_mtu st)) as [Hc | Hc].
  - rewrite search_loop_more by assumption.
    apply (IH _ (step_decreases too_large st Hc) _ eq_refl). by apply Hstep.
  - rewrite search_loop_done by lia. split; [assumption | lia].
Qed.

Lemma init_inv too_large : search_inv too_large init_state.
Proof. split; cbn; try lia; done. Qed.

Lemma step_inv too_large st :
  search_inv too_large st -> 8 < max_mtu st - min_mtu st ->
  search_inv too_large (step too_large st).
Proof.
  intros [H1 H2 H3 H4 H5 H6 H7] Hc. unfold step.
  destruct (too_large _ _) eqn:Hp; split;
    cbn [max_mtu min_mtu optimal_mtu probe_log last_delivered last_failed
         List.find snd fst negb fmap option_fmap option_map default log_sound];
    try assumption; try (Z.div_mod_to_equations; lia); try reflexivity.
  - split; [by rewrite Hp | assumption].
  - split; [by rewrite Hp | assumption].
Qed.

Lemma search_final_inv too_large :
  search_inv too_large (search_loop too_large init_state) /\
  max_mtu (search_loop too_large init_state)
    - min_mtu (search_loop too_large init_state) <= 8.
Proof.
  apply (search_loop_invariant (search_inv too_large)).
  - apply step_inv.
  - apply init_inv.
Qed.

(** One symbolic turn of the loop from a state with concrete bounds. *)
Ltac turn too_large :=
  rewrite search_loop_more by (vm_compute; reflexivity);
  unfold step; cbn [max_mtu min_mtu optimal_mtu probe_log length];
  repeat match goal with
         | |- context [(?a + ?b) / 2] =>
             let v := eval vm_compute in ((a + b) / 2) in
             change ((a + b) / 2) with v
         end;
  destruct (too_large _ _).

(** The interval 300 wide is halved to 8 or less by six probes, whatever
    the answers. *)
Lemma six_probes too_large :
  length (probe_log (search_loop too_large init_state)) = 6%nat.
Proof.
  unfold init_state.
  turn too_large; turn too_large; turn too_large;
    turn too_large; turn too_large; turn too_large;
    rewrite search_loop_done by (vm_compute; discriminate); reflexivity.
Qed.

(** A delivered probe of a sound log was not too large. *)
Lemma last_delivered_sound too_large log t :
  log_sound too_large log -> last_delivered log = Some t ->
  exists n, too_large n (t - 28) = false.
Proof.
  unfold last_delivered. induction log as [| [t' ok] rest IH]; cbn.
  - discriminate.
  - intros [Hok Hrest]. destruct ok; cbn.
    + intros [= <-]. exists (length rest). symmetry in Hok.
      by apply negb_true_iff in Hok.
    + by apply IH.
Qed.

(** C2, as the code has it.  On Windows and Linux, for every answer of the
    network: the search ends with [low = min_mtu] and [high = max_mtu]
    inside [1200, 1500] and at most 8 apart, [low] being the last size
    confirmed deliverable (1200 when there is none) and [high] the last
    size confirmed failing (1500 when there is none); the value returned
    lies in [1200, 1500] and is [low] as soon as one probe was delivered,
    and the default 1500 when none was; every probe carries the size
    minus the 28 header bytes; exactly six probes are sent, which is within
    ceil(log2(300/8)) + 1 = 7; and on a network that fails every probe
    above 1400, a search in which some probe is delivered returns at most
    1400. *)
Theorem mtu_search_returns_low_or_default (too_large : ping_oracle) :
  let fin := search_loop too_large init_state in
  let log := probe_log fin in
  find_optimal_mtu Linux None too_large = optimal_mtu fin /\
  find_optimal_mtu Windows None too_large = optimal_mtu fin /\
  1200 <= optimal_mtu fin <= 1500 /\
  1200 <= min_mtu fin /\ min_mtu fin < max_mtu fin /\ max_mtu fin <= 1500 /\
  max_mtu fin - min_mtu fin <= 8 /\
  min_mtu fin = default 1200 (last_delivered log) /\
  max_mtu fin = default 1500 (last_failed log) /\
  optimal_mtu fin = default 1500 (last_delivered log) /\
  (is_Some (last_delivered log) -> optimal_mtu fin = min_mtu fin) /\
  log_sound too_large log /\
  length log = 6%nat /\ (length log <= 7)%nat /\
  ((forall n payload, 1400 < payload + 28 -> too_large n payload = true) ->
   is_Some (last_delivered log) -> optimal_mtu fin <= 1400).
Proof.
  intros fin log.
  destruct (search_final_inv too_large) as [[H1 H2 H3 H4 H5 H6 H7] Hexit].
  fold fin in H1, H2, H3, H4, H5, H6, H7, Hexit. fold log in H4, H5, H6, H7.
  pose proof (six_probes too_large) as Hsix. fold fin in Hsix. fold log in Hsix.
  assert (Hopt : 1200 <= optimal_mtu fin <= 1500).
  { rewrite H6. rewrite H4 in H1, H2. revert H1 H2.
    destruct (last_delivered log); cbn; lia. }
  repeat split; try assumption; try reflexivity; try lia.
  - intros [t Ht]. rewrite H6, H4, Ht. reflexivity.
  - intros Hnet [t Ht]. rewrite H6, Ht. cbn.
    destruct (last_delivered_sound too_large log t H7 Ht) as [n Hn].
    destruct (Z_lt_dec 1400 (t - 28 + 28)) as [Hbig | Hsmall].
    + rewrite (Hnet n (t - 28) Hbig) in Hn. discriminate.
    + lia.
Qed.

(** The theorem at the network whose path MTU is 1400. *)
Lemma mtu_search_path_1400 :
  find_optimal_mtu Linux None (path_mtu 1400) = 1396 /\
  find_optimal_mtu Linux None (path_mtu 1400) <= 1400.
Proof.
  pose proof (mtu_search_returns_low_or_default (path_mtu 1400)) as H.
  cbv zeta in H.
  destruct H as (HL & _ & _ & _ & _ & _ & _ & _ & _ & _ & _ & _ & _ & _ & Hnet).
  split.
  - reflexivity.
  - rewrite HL. apply Hnet.
    + intros n payload Hp. unfold path_mtu. apply Z.ltb_lt. exact Hp.
    + vm_compute. eexists. reflexivity.
Defined.

(** C2 as stated fails.  On a network that lets no probe through (and so
    fails every probe above 1400), the Linux and Windows searches end with
    [low = 1200] and return 1500, which is neither [low] nor at most 1400;
    and on macOS, where the scan starts from the interface's current MTU,
    the value returned can lie outside [1200, 1500]. *)
Lemma mtu_search_default_is_not_low :
  (forall n payload, 1400 < payload + 28 -> unreachable n payload = true) /\
  min_mtu (search_loop unreachable init_state) = 1200 /\
  find_optimal_mtu Linux None unreachable = 1500 /\
  find_optimal_mtu Windows None unreachable = 1500 /\
  ~ find_optimal_mtu Linux None unreachable <= 1400 /\
  find_optimal_mtu Darwin (Some 9000) unreachable = 9000.
Proof.
  repeat split; try reflexivity. vm_compute. intros H. apply H. reflexivity.
Qed.

End MtuProofs.

(* ===================================================================== *)
(** * Properties of the channel selection *)
(* ===================================================================== *)
Module ChannelProofs.
Import Channel.

(** ** The weights the specification describes *)

(** Weight of a network at channel distance [d]: same channel 1, one or
    two channels away 1/2, beyond that 0. *)
Definition overlap_weight (d : Z) : Q :=
  if Z.eqb d 0 then 1%Q else if Z.leb d 2 then (1 # 2)%Q else 0%Q.

(** What one scan line adds to the count of channel [ch]; only networks on
    channels 1 to 11 are counted. *)
Definition line_weight (ch : Z) (line : scan_line) : Q :=
  match line with
  | Some n =>
      if Z.leb 1 n && Z.leb n 11 then overlap_weight (Z.abs (ch - n)) else 0%Q
  | None => 0%Q
  end.

Definition weighted_count (lines : list scan_line) (ch : Z) : Q :=
  fold_left (fun acc line => (acc + line_weight ch line)%Q) lines 0%Q.

(** The number of scanned networks within two channels of [c]. *)
Definition overlapping (c : Z) (channels : list Z) : Z :=
  Z.of_nat (length (List.filter (fun n => Z.leb (Z.abs (c - n)) 2) channels)).

(** ** Windows *)

Lemma overlap_fold c cc acc :
  fold_left (fun acc '(ch, count) =>
               if Z.leb (Z.abs (c - ch)) 2 then acc + count else acc) cc acc
  = acc + overlap_count c cc.
Proof.
  unfold overlap_count. revert acc.
  induction cc as [| [ch n] rest IH]; intros acc; cbn.
  - lia.
  - rewrite (IH (if Z.leb (Z.abs (c - ch)) 2 then acc + n else acc)),
      (IH (if Z.leb (Z.abs (c - ch)) 2 then 0 + n else 0)).
    destruct (Z.leb _ _); lia.
Qed.

Lemma overlap_count_cons c ch n rest :
  overlap_count c ((ch, n) :: rest)
  = (if Z.leb (Z.abs (c - ch)) 2 then n else 0) + overlap_count c rest.
Proof.
  unfold overlap_count at 1. cbn. rewrite overlap_fold.
  destruct (Z.leb _ _); lia.
Qed.

Lemma overlap_count_channel c n cc :
  overlap_count c (count_channel n cc)
  = overlap_count c cc + (if Z.leb (Z.abs (c - n)) 2 then 1 else 0).
Proof.
  induction cc as [| [ch k] rest IH]; cbn [count_channel].
  - rewrite overlap_count_cons. unfold overlap_count. cbn.
    destruct (Z.leb _ _); lia.
  - destruct (Z.eqb_spec ch n) as [-> | Hne].
    + rewrite !overlap_count_cons. destruct (Z.leb _ _); lia.
    + rewrite !overlap_count_cons, IH. lia.
Qed.

Lemma count_channels_snoc channels n :
  count_channels (channels ++ [n]) = count_channel n (count_channels channels).
Proof. unfold count_channels. by rewrite fold_left_app. Qed.

(** Each primary channel is charged the full count of every network
    within two channels of it. *)
Lemma overlap_count_spec c channels :
  overlap_count c (count_channels channels) = overlapping c channels.
Proof.
  unfold overlapping.
  induction channels as [| n rest IH] using rev_ind.
  - reflexivity.
  - rewrite count_channels_snoc, overlap_count_channel, IH.
    rewrite List.filter_app, length_app. cbn.
    destruct (Z.leb _ _); cbn; lia.
Qed.

Lemma count_channel_nonempty n cc : count_channel n cc <> [].
Proof. destruct cc as [| [ch k] rest]; cbn; [| destruct (Z.eqb _ _)]; discriminate. Qed.

Lemma count_channels_empty channels :
  count_channels channels = [] -> channels = [].
Proof.
  destruct channels as [| n rest] using rev_ind; [done |].
  rewrite count_channels_snoc. intros H. by apply count_channel_nonempty in H.
Qed.

(** The least of three, the first winning ties. *)
Definition first_least (s1 s6 s11 : Z) : Z :=
  if Z.ltb s6 s1 then (if Z.ltb s11 s6 then 11 else 6)
  else (if Z.ltb s11 s1 then 11 else 1).

Lemma find_windows_best_channel_spec scan :
  find_windows_best_channel scan =
    if negb (Z.eqb (returncode scan) 0) then 6
    else match scanned scan with
         | [] => 6
         | _ => first_least (overlapping 1 (scanned scan))
                            (overlapping 6 (scanned scan))
                            (overlapping 11 (scanned scan))
         end.
Proof.
  unfold find_windows_best_channel.
  destruct (negb _); [reflexivity |].
  destruct (count_channels (scanned scan)) as [| e cc] eqn:E.
  - apply count_channels_empty in E. by rewrite E.
  - destruct (scanned scan) as [| n rest] eqn:Es; [discriminate |].
    rewrite <- E. unfold primary_channels. rewrite !overlap_count_spec.
    generalize (overlapping 1 (n :: rest)) (overlapping 6 (n :: rest))
               (overlapping 11 (n :: rest)).
    intros s1 s6 s11. unfold first_least.
    cbn [py_min_by_count fst snd].
    destruct (Z.ltb_spec s6 s1); cbn [py_min_by_count fst snd];
      destruct (Z.ltb_spec s11 s6); destruct (Z.ltb_spec s11 s1);
      try reflexivity; lia.
Qed.

(** ** macOS: the usage table *)

Definition table_keys : list Z := [1; 2; 3; 4; 5; 6; 7; 8; 9; 10; 11].

Lemma add_usage_keys c w usage :
  map fst (add_usage c w usage) = map fst usage.
Proof.
  unfold add_usage. induction usage as [| [ch u] rest IH]; cbn; [done |].
  rewrite IH. by destruct (Z.eqb ch c).
Qed.

Lemma usage_at_cons ch0 u rest ch :
  usage_at ((ch0, u) :: rest) ch = if Z.eqb ch0 ch then u else usage_at rest ch.
Proof. unfold usage_at. cbn. by destruct (Z.eqb ch0 ch). Qed.

Lemma usage_at_add c w usage ch :
  In ch (map fst usage) ->
  (usage_at (add_usage c w usage) ch
   == usage_at usage ch + (if Z.eqb ch c then w else 0))%Q.
Proof.
  induction usage as [| [ch0 u] rest IH]; cbn [map fst In]; [done |].
  intros Hin. unfold add_usage. cbn [map]. fold (add_usage c w rest).
  destruct (Z.eqb_spec ch0 c) as [E0 | Hne]; rewrite !usage_at_cons.
  - subst ch0. destruct (Z.eqb_spec c ch) as [E1 | Hch].
    + subst ch. rewrite Z.eqb_refl. reflexivity.
    + destruct Hin as [E2 | Hin]; [done |]. by apply IH.
  - destruct (Z.eqb_spec ch0 ch) as [E1 | Hch].
    + subst ch0. destruct (Z.eqb_spec ch c) as [E2 | _]; [done | lra].
    + destruct Hin as [E2 | Hin]; [done |]. by apply IH.
Qed.

Lemma record_network_keys n usage :
  map fst (record_network n usage) = map fst usage.
Proof.
  unfold record_network. destruct (_ && _); [| done].
  generalize (range_incl (Z.max 1 (n - 2)) (Z.min 11 (n + 2))).
  intros adjs. rewrite <- (add_usage_keys n 1 usage).
  generalize (add_usage n 1 usage). induction adjs as [| a rest IH]; intros acc; cbn.
  - done.
  - rewrite IH. destruct (negb _); [apply add_usage_keys | done].
Qed.

Lemma record_line_keys line usage :
  map fst (record_line usage line) = map fst usage.
Proof. destruct line; [apply record_network_keys | done]. Qed.

Lemma usage_of_scan_keys lines : map fst (usage_of_scan lines) = table_keys.
Proof.
  unfold usage_of_scan.
  induction lines as [| line rest IH] using rev_ind; [done |].
  by rewrite fold_left_app, <- IH; cbn; rewrite record_line_keys.
Qed.

Ltac add_usage_steps :=
  repeat (rewrite usage_at_add by (rewrite ?add_usage_keys; assumption)).

(** One network on channel [n] adds to every channel of the table the
    weight of its distance to [n]. *)
Lemma usage_at_record_network n usage ch :
  In ch (map fst usage) -> 1 <= ch <= 11 ->
  (usage_at (record_network n usage) ch
   == usage_at usage ch + line_weight ch (Some n))%Q.
Proof.
  intros Hin Hch. unfold record_network, line_weight.
  destruct (Z.leb 1 n && Z.leb n 11) eqn:Hn; [| lra].
  apply andb_true_iff in Hn as [H1%Z.leb_le H2%Z.leb_le].
  assert (n = 1 \/ n = 2 \/ n = 3 \/ n = 4 \/ n = 5 \/ n = 6 \/ n = 7 \/
          n = 8 \/ n = 9 \/ n = 10 \/ n = 11) as Hcases by lia.
  unfold overlap_weight.
  destruct Hcases as [-> | [-> | [-> | [-> | [-> | [-> | [-> | [-> | [-> | [-> | ->]]]]]]]]]];
    match goal with
    | |- context [range_incl ?a ?b] =>
        let v := eval vm_compute in (range_incl a b) in
        change (range_incl a b) with v
    end;
    cbn [fold_left];
    repeat match goal with
           | |- context [negb (Z.eqb ?a ?b)] =>
               let v := eval vm_compute in (negb (Z.eqb a b)) in
               change (negb (Z.eqb a b)) with v
           end;
    cbv iota;
    add_usage_steps;
    repeat match goal with
           | |- context [Z.eqb ch ?k] => destruct (Z.eqb_spec ch k); [subst ch |]
           end;
    try (exfalso; lia);
    repeat match goal with
           | |- context [Z.eqb ?a ?b] => destruct (Z.eqb_spec a b); [exfalso; lia |]
           | |- context [Z.leb ?a ?b] => destruct (Z.leb_spec a b); [| exfalso; lia]
           | |- context [Z.leb ?a ?b] => destruct (Z.leb_spec a b); [exfalso; lia |]
           end;
    repeat match goal with
           | |- context [Z.eqb (Z.abs ?a) 0] =>
               let v := eval vm_compute in (Z.eqb (Z.abs a) 0) in
               change (Z.eqb (Z.abs a) 0) with v
           end;
    cbv iota; lra.
Qed.

Lemma usage_at_initial ch : (usage_at initial_usage ch == 0)%Q.
Proof.
  unfold initial_usage. cbn [map]. rewrite !usage_at_cons.
  repeat (destruct (Z.eqb _ ch); [reflexivity |]). reflexivity.
Qed.

Lemma weighted_count_snoc lines line ch :
  weighted_count (lines ++ [line]) ch
  = (weighted_count lines ch + line_weight ch line)%Q.
Proof. unfold weighted_count. by rewrite fold_left_app. Qed.

(** The table built from a scan holds, for each channel 1 to 11, the
    weighted count of the specification. *)
Lemma usage_of_scan_spec lines ch :
  1 <= ch <= 11 ->
  (usage_at (usage_of_scan lines) ch == weighted_count lines ch)%Q.
Proof.
  intros Hch. induction lines as [| line rest IH] using rev_ind.
  - apply usage_at_initial.
  - rewrite weighted_count_snoc, <- IH.
    unfold usage_of_scan. rewrite fold_left_app. cbn [fold_left].
    fold (usage_of_scan rest). destruct line as [n |]; cbn [record_line].
    + apply usage_at_record_network; [| assumption].
      rewrite usage_of_scan_keys. unfold table_keys. cbn. lia.
    + cbn. lra.
Qed.

(** ** macOS: the choice *)

Definition attains (m : Q) (e : Z * Q) : bool := Qeq_bool (snd e) m.

(** What the scan for the least usage holds after the entries [seen]. *)
Definition select_inv (seen : list (Z * Q)) (acc : option Q * list Z) : Prop :=
  match fst acc with
  | None => seen = [] /\ snd acc = []
  | Some m =>
      Forall (fun e => (m <= snd e)%Q) seen /\
      snd acc = map fst (List.filter (attains m) seen) /\
      snd acc <> []
  end.

Lemma filter_below m m' seen :
  Forall (fun e : Z * Q => (m <= snd e)%Q) seen -> (m' < m)%Q ->
  List.filter (attains m') seen = [].
Proof.
  intros Hall Hlt. induction Hall as [| e rest He _ IH]; cbn; [done |].
  rewrite IH. unfold attains.
  destruct (Qeq_bool (snd e) m') eqn:E; [| done].
  apply Qeq_bool_iff in E. lra.
Qed.

Lemma attains_pair m (c : Z) u : attains m (c, u) = Qeq_bool u m.
Proof. reflexivity. Qed.

Lemma select_step_inv seen acc e :
  select_inv seen acc -> select_inv (seen ++ [e]) (select_step acc e).
Proof.
  destruct acc as [[m |] best], e as [channel usage];
    unfold select_inv; cbn [fst snd select_step].
  - intros (Hall & Hbest & Hne).
    destruct (usage ?= m)%Q eqn:Hcmp; cbn [fst snd].
    + apply Qeq_alt in Hcmp. repeat split.
      * apply Forall_app. split; [assumption |].
        constructor; [cbn; lra | constructor].
      * rewrite List.filter_app, map_app, Hbest. cbn [List.filter].
        rewrite attains_pair.
        apply Qeq_bool_iff in Hcmp. by rewrite Hcmp.
      * intros H. by apply app_eq_nil in H as [_ H].
    + apply Qlt_alt in Hcmp. repeat split.
      * apply Forall_app. split.
        -- eapply Forall_impl; [exact Hall |]. cbn. intros a Ha. lra.
        -- constructor; [cbn; lra | constructor].
      * rewrite List.filter_app, (filter_below m usage seen Hall Hcmp).
        cbn [List.filter app]. rewrite attains_pair.
        assert (Qeq_bool usage usage = true) as -> by (apply Qeq_bool_iff; lra).
        reflexivity.
      * discriminate.
    + apply Qgt_alt in Hcmp. repeat split.
      * apply Forall_app. split; [assumption |].
        constructor; [cbn; lra | constructor].
      * rewrite List.filter_app, map_app, Hbest. cbn [List.filter].
        rewrite attains_pair.
        destruct (Qeq_bool usage m) eqn:E.
        -- apply Qeq_bool_iff in E. lra.
        -- cbn. by rewrite app_nil_r.
      * assumption.
  - intros [-> ->]. cbn. repeat split.
    + constructor; [cbn; lra | constructor].
    + cbn [List.filter app]. rewrite attains_pair.
      assert (Qeq_bool usage usage = true) as -> by (apply Qeq_bool_iff; lra).
      reflexivity.
    + discriminate.
Qed.

Lemma select_fold_inv todo seen acc :
  select_inv seen acc ->
  select_inv (seen ++ todo) (fold_left select_step todo acc).
Proof.
  revert seen acc. induction todo as [| e rest IH]; intros seen acc Hinv; cbn.
  - by rewrite app_nil_r.
  - replace (seen ++ e :: rest) with ((seen ++ [e]) ++ rest)
      by (by rewrite <- app_assoc).
    apply IH. by apply select_step_inv.
Qed.

(** The outcome of the scan over a non-empty table: the least usage [m]
    and the channels that attain it, in table order. *)
Lemma best_channels_spec usage :
  usage <> [] ->
  exists m,
    Forall (fun e => (m <= snd e)%Q) usage /\
    best_channels_of usage = map fst (List.filter (attains m) usage) /\
    best_channels_of usage <> [].
Proof.
  intros Hne. unfold best_channels_of.
  pose proof (select_fold_inv usage [] (None, []) (conj eq_refl eq_refl)) as H.
  cbn [app] in H. unfold select_inv in H.
  destruct (fold_left select_step usage (None, [])) as [[m |] best];
    cbn [fst snd] in *.
  - by exists m.
  - by destruct H.
Qed.

Lemma head_filter_map {A} (p : A -> bool) (g : Z -> bool) (f : A -> Z) l :
  hd_error (List.filter g (map f (List.filter p l)))
  = f <$> List.find (fun e => p e && g (f e)) l.
Proof.
  induction l as [| a rest IH]; cbn; [done |].
  destruct (p a); cbn; [destruct (g (f a)); cbn |]; done.
Qed.

Lemma head_map_filter {A} (p : A -> bool) (f : A -> Z) l :
  hd_error (map f (List.filter p l)) = f <$> List.find p l.
Proof.
  induction l as [| a rest IH]; cbn; [done |]. by destruct (p a).
Qed.

(** The choice, read off the table: the first entry of least usage on a
    preferred channel, or else the first entry of least usage. *)
Lemma choose_channel_find usage :
  usage <> [] ->
  exists m,
    Forall (fun e => (m <= snd e)%Q) usage /\
    is_Some (List.find (attains m) usage) /\
    choose_channel usage =
      match List.find (fun e => attains m e && is_preferred (fst e)) usage with
      | Some e => fst e
      | None => match List.find (attains m) usage with
                | Some e => fst e
                | None => 6
                end
      end.
Proof.
  intros Hne. destruct (best_channels_spec usage Hne) as (m & Hall & Hbest & Hnn).
  exists m. split; [assumption |].
  pose proof (head_map_filter (attains m) fst usage) as Hhd.
  pose proof (head_filter_map (attains m) is_preferred fst usage) as Hpref.
  rewrite <- Hbest in Hhd, Hpref. unfold choose_channel. split.
  - destruct (List.find (attains m) usage); [by eexists |].
    destruct (best_channels_of usage); [done | discriminate].
  - destruct (List.filter is_preferred (best_channels_of usage)) as [| c cs];
      cbn in Hpref.
    + destruct (List.find (fun e => _) usage); [discriminate |].
      destruct (best_channels_of usage) as [| b bs]; cbn in Hhd;
        destruct (List.find (attains m) usage); cbn in Hhd; congruence.
    + destruct (List.find (fun e => _) usage); cbn in Hpref; congruence.
Qed.

(** A channel of the table whose usage is least. *)
Definition least (usage : list (Z * Q)) (ch : Z) : Prop :=
  In ch (map fst usage) /\
  forall ch', In ch' (map fst usage) -> (usage_at usage ch <= usage_at usage ch')%Q.

Lemma usage_at_in usage e :
  List.NoDup (map fst usage) -> In e usage -> usage_at usage (fst e) = snd e.
Proof.
  induction usage as [| [c u] rest IH]; cbn [map fst In]; [done |].
  intros Hnd Hin. apply List.NoDup_cons_iff in Hnd as [Hc Hnd].
  rewrite usage_at_cons. destruct Hin as [<- | Hin].
  - cbn. by rewrite Z.eqb_refl.
  - destruct (Z.eqb_spec c (fst e)) as [E | _]; [| by apply IH].
    exfalso. apply Hc. rewrite E. by apply in_map.
Qed.

Lemma usage_at_bound m usage ch :
  Forall (fun e : Z * Q => (m <= snd e)%Q) usage -> In ch (map fst usage) ->
  (m <= usage_at usage ch)%Q.
Proof.
  intros Hall. induction Hall as [| [c u] rest He _ IH]; cbn [map fst In]; [done |].
  intros Hin. rewrite usage_at_cons. destruct (Z.eqb_spec c ch) as [E | Hne].
  - exact He.
  - destruct Hin as [E | Hin]; [done | by apply IH].
Qed.

Lemma attains_least m usage e :
  List.NoDup (map fst usage) ->
  Forall (fun e : Z * Q => (m <= snd e)%Q) usage ->
  is_Some (List.find (attains m) usage) ->
  In e usage ->
  attains m e = true <-> least usage (fst e).
Proof.
  intros Hnd Hall [e0 Hfind] Hin.
  apply List.find_some in Hfind as [Hin0 Hm0].
  unfold attains in *. apply Qeq_bool_iff in Hm0.
  rewrite <- (usage_at_in usage e0 Hnd Hin0) in Hm0.
  rewrite <- (usage_at_in usage e Hnd Hin). split.
  - intros He%Qeq_bool_iff. split; [by apply in_map |].
    intros ch' Hch'. pose proof (usage_at_bound m usage ch' Hall Hch'). lra.
  - intros [_ Hleast]. apply Qeq_bool_iff.
    pose proof (Hleast (fst e0) (in_map (@fst Z Q) usage e0 Hin0)).
    pose proof (usage_at_bound m usage (fst e) Hall (in_map (@fst Z Q) usage e Hin)).
    lra.
Qed.

Lemma table_entries (usage : list (Z * Q)) :
  map fst usage = table_keys ->
  exists u1 u2 u3 u4 u5 u6 u7 u8 u9 u10 u11,
    usage = [(1, u1); (2, u2); (3, u3); (4, u4); (5, u5); (6, u6);
             (7, u7); (8, u8); (9, u9); (10, u10); (11, u11)].
Proof.
  unfold table_keys. intros H.
  do 11 (destruct usage as [| [? ?] usage]; [discriminate |]).
  destruct usage; [| discriminate].
  cbn in H. injection H as -> -> -> -> -> -> -> -> -> -> ->.
  by repeat eexists.
Qed.

Lemma table_keys_nodup : List.NoDup table_keys.
Proof.
  apply NoDup_ListNoDup. by apply (bool_decide_unpack _).
Qed.

(** Closes the five parts of the statement once the choice is known. *)
Ltac settle_least Hrange :=
  cbn [fst];
  split; [assumption |];
  split; [intros ?; first [reflexivity | contradiction] |];
  split; [intros ? ?; first [reflexivity | contradiction] |];
  split; [intros ? ? ?; first [reflexivity | contradiction] |];
  intros ? ? ? ch Hch;
  destruct (Hrange ch Hch)
    as [-> | [-> | [-> | [-> | [-> | [-> | [-> | [-> | [-> | [-> | ->]]]]]]]]]];
  first [ contradiction | lia ].

(** On a table with the keys 1 to 11 in order the choice is a channel of
    least usage: channel 1 when it is one, else 6, else 11, and else the
    lowest-numbered one. *)
Lemma choose_channel_table (usage : list (Z * Q)) :
  map fst usage = table_keys ->
  least usage (choose_channel usage) /\
  (least usage 1 -> choose_channel usage = 1) /\
  (~ least usage 1 -> least usage 6 -> choose_channel usage = 6) /\
  (~ least usage 1 -> ~ least usage 6 -> least usage 11 ->
   choose_channel usage = 11) /\
  (~ least usage 1 -> ~ least usage 6 -> ~ least usage 11 ->
   forall ch, least usage ch -> choose_channel usage <= ch).
Proof.
  intros Hkeys.
  assert (List.NoDup (map fst usage)) as Hnd
      by (rewrite Hkeys; apply table_keys_nodup).
  destruct (table_entries usage Hkeys)
    as (u1 & u2 & u3 & u4 & u5 & u6 & u7 & u8 & u9 & u10 & u11 & Hu).
  assert (usage <> []) as Hne by (rewrite Hu; discriminate).
  destruct (choose_channel_find usage Hne) as (m & Hall & Hsome & ->).
  pose proof (fun e => attains_least m usage e Hnd Hall Hsome) as Hiff.
  assert (forall ch, least usage ch ->
            ch = 1 \/ ch = 2 \/ ch = 3 \/ ch = 4 \/ ch = 5 \/ ch = 6 \/
            ch = 7 \/ ch = 8 \/ ch = 9 \/ ch = 10 \/ ch = 11) as Hrange.
  { intros ch [Hin _]. rewrite Hkeys in Hin. unfold table_keys in Hin.
    cbn in Hin. intuition. }
  assert (In (1, u1) usage) as I1 by (rewrite Hu; cbn; tauto).
  pose proof (Hiff (1, u1) I1) as H1. clear I1.
  assert (In (2, u2) usage) as I2 by (rewrite Hu; cbn; tauto).
  pose proof (Hiff (2, u2) I2) as H2. clear I2.
  assert (In (3, u3) usage) as I3 by (rewrite Hu; cbn; tauto).
  pose proof (Hiff (3, u3) I3) as H3. clear I3.
  assert (In (4, u4) usage) as I4 by (rewrite Hu; cbn; tauto).
  pose proof (Hiff (4, u4) I4) as H4. clear I4.
  assert (In (5, u5) usage) as I5 by (rewrite Hu; cbn; tauto).
  pose proof (Hiff (5, u5) I5) as H5. clear I5.
  assert (In (6, u6) usage) as I6 by (rewrite Hu; cbn; tauto).
  pose proof (Hiff (6, u6) I6) as H6. clear I6.
  assert (In (7, u7) usage) as I7 by (rewrite Hu; cbn; tauto).
  pose proof (Hiff (7, u7) I7) as H7. clear I7.
  assert (In (8, u8) usage) as I8 by (rewrite Hu; cbn; tauto).
  pose proof (Hiff (8, u8) I8) as H8. clear I8.
  assert (In (9, u9) usage) as I9 by (rewrite Hu; cbn; tauto).
  pose proof (Hiff (9, u9) I9) as H9. clear I9.
  assert (In (10, u10) usage) as I10 by (rewrite Hu; cbn; tauto).
  pose proof (Hiff (10, u10) I10) as H10. clear I10.
  assert (In (11, u11) usage) as I11 by (rewrite Hu; cbn; tauto).
  pose proof (Hiff (11, u11) I11) as H11. clear I11 Hiff.
  cbn [fst] in H1, H2, H3, H4, H5, H6, H7, H8, H9, H10, H11.
  revert Hsome H1 H2 H3 H4 H5 H6 H7 H8 H9 H10 H11 Hrange.
  generalize (least usage). intros L.
  rewrite Hu. cbn [List.find fst In].
  change (is_preferred 1) with true. change (is_preferred 2) with false.
  change (is_preferred 3) with false. change (is_preferred 4) with false.
  change (is_preferred 5) with false. change (is_preferred 6) with true.
  change (is_preferred 7) with false. change (is_preferred 8) with false.
  change (is_preferred 9) with false. change (is_preferred 10) with false.
  change (is_preferred 11) with true.
  rewrite !andb_true_r, !andb_false_r.
  generalize (attains m (1, u1)) (attains m (2, u2)) (attains m (3, u3))
             (attains m (4, u4)) (attains m (5, u5)) (attains m (6, u6))
             (attains m (7, u7)) (attains m (8, u8)) (attains m (9, u9))
             (attains m (10, u10)) (attains m (11, u11)).
  intros b1 b2 b3 b4 b5 b6 b7 b8 b9 b10 b11 Hsome
         H1 H2 H3 H4 H5 H6 H7 H8 H9 H10 H11 Hrange.
  destruct b1.
  { assert (L 1) by (apply H1; reflexivity). settle_least Hrange. }
  assert (~ L 1) by (intros HL; apply H1 in HL; discriminate).
  destruct b6.
  { assert (L 6) by (apply H6; reflexivity). settle_least Hrange. }
  assert (~ L 6) by (intros HL; apply H6 in HL; discriminate).
  destruct b11.
  { assert (L 11) by (apply H11; reflexivity). settle_least Hrange. }
  assert (~ L 11) by (intros HL; apply H11 in HL; discriminate).
  destruct b2.
  { assert (L 2) by (apply H2; reflexivity). settle_least Hrange. }
  assert (~ L 2) by (intros HL; apply H2 in HL; discriminate).
  destruct b3.
  { assert (L 3) by (apply H3; reflexivity). settle_least Hrange. }
  assert (~ L 3) by (intros HL; apply H3 in HL; discriminate).
  destruct b4.
  { assert (L 4) by (apply H4; reflexivity). settle_least Hrange. }
  assert (~ L 4) by (intros HL; apply H4 in HL; discriminate).
  destruct b5.
  { assert (L 5) by (apply H5; reflexivity). settle_least Hrange. }
  assert (~ L 5) by (intros HL; apply H5 in HL; discriminate).
  destruct b7.
  { assert (L 7) by (apply H7; reflexivity). settle_least Hrange. }
  assert (~ L 7) by (intros HL; apply H7 in HL; discriminate).
  destruct b8.
  { assert (L 8) by (apply H8; reflexivity). settle_least Hrange. }
  assert (~ L 8) by (intros HL; apply H8 in HL; discriminate).
  destruct b9.
  { assert (L 9) by (apply H9; reflexivity). settle_least Hrange. }
  assert (~ L 9) by (intros HL; apply H9 in HL; discriminate).
  destruct b10.
  { assert (L 10) by (apply H10; reflexivity). settle_least Hrange. }
  assert (~ L 10) by (intros HL; apply H10 in HL; discriminate).
  destruct Hsome as [? Hsome]. discriminate.
Qed.

(** A channel from 1 to 11 whose weighted count is least among them. *)
Definition lightest (lines : list scan_line) (ch : Z) : Prop :=
  1 <= ch <= 11 /\
  forall ch', 1 <= ch' <= 11 ->
    (weighted_count lines ch <= weighted_count lines ch')%Q.

Lemma in_table_keys ch : In ch table_keys <-> 1 <= ch <= 11.
Proof. unfold table_keys. cbn. lia. Qed.

Lemma least_lightest lines ch :
  least (usage_of_scan lines) ch <-> lightest lines ch.
Proof.
  unfold least, lightest. rewrite usage_of_scan_keys, in_table_keys.
  split; intros [Hch Hall]; (split; [assumption |]); intros ch' Hch'.
  - rewrite <- !usage_of_scan_spec by assumption.
    apply Hall. by apply in_table_keys.
  - apply in_table_keys in Hch'. rewrite !usage_of_scan_spec by assumption.
    by apply Hall.
Qed.

(** C3, as the code has it.
    macOS: the table holds for each channel 1 to 11 the weighted count
    (1 per network on the channel, 1/2 per network one or two channels
    away, networks outside 1 to 11 ignored); the channel returned has the
    least weighted count, and among the least ones 1 is preferred, then 6,
    then 11, then the lowest number; a scan that lists no network gives 1,
    and 6 comes out when there is neither a scan nor a fallback.
    Windows: the channel returned is the one of 1, 6 and 11 with the fewest
    networks within two channels, each counted in full, ties going to 1,
    then 6, then 11; an empty or failed scan gives 6.
    Both return 1 when the count of channel 1 is zero and the count of
    every other candidate is positive. *)
Theorem best_channel_by_platform :
  (forall lines ch, 1 <= ch <= 11 ->
     (usage_at (usage_of_scan lines) ch == weighted_count lines ch)%Q) /\
  (forall lines profiler,
     let r := find_macos_best_channel (mk_macos (Some lines) profiler) in
     lightest lines r /\
     (lightest lines 1 -> r = 1) /\
     (~ lightest lines 1 -> lightest lines 6 -> r = 6) /\
     (~ lightest lines 1 -> ~ lightest lines 6 -> lightest lines 11 -> r = 11) /\
     (~ lightest lines 1 -> ~ lightest lines 6 -> ~ lightest lines 11 ->
      forall ch, lightest lines ch -> r <= ch)) /\
  (forall profiler, find_macos_best_channel (mk_macos (Some []) profiler) = 1) /\
  find_macos_best_channel (mk_macos None None) = 6 /\
  (forall scan,
     find_windows_best_channel scan =
       if negb (Z.eqb (returncode scan) 0) then 6
       else match scanned scan with
            | [] => 6
            | _ => first_least (overlapping 1 (scanned scan))
                               (overlapping 6 (scanned scan))
                               (overlapping 11 (scanned scan))
            end) /\
  (forall rc, find_windows_best_channel (mk_netsh rc []) = 6) /\
  (forall lines profiler,
     (weighted_count lines 1 == 0)%Q ->
     (forall ch, 2 <= ch <= 11 -> (0 < weighted_count lines ch)%Q) ->
     find_macos_best_channel (mk_macos (Some lines) profiler) = 1) /\
  (forall channels,
     overlapping 1 channels = 0 ->
     0 < overlapping 6 channels -> 0 < overlapping 11 channels ->
     find_windows_best_channel (mk_netsh 0 channels) = 1).
Proof.
  assert (forall lines profiler,
     let r := find_macos_best_channel (mk_macos (Some lines) profiler) in
     lightest lines r /\
     (lightest lines 1 -> r = 1) /\
     (~ lightest lines 1 -> lightest lines 6 -> r = 6) /\
     (~ lightest lines 1 -> ~ lightest lines 6 -> lightest lines 11 -> r = 11) /\
     (~ lightest lines 1 -> ~ lightest lines 6 -> ~ lightest lines 11 ->
      forall ch, lightest lines ch -> r <= ch)) as Hmac.
  { intros lines profiler. cbn.
    pose proof (choose_channel_table (usage_of_scan lines)
                  (usage_of_scan_keys lines)) as H.
    setoid_rewrite least_lightest in H. exact H. }
  split; [exact usage_of_scan_spec |].
  split; [exact Hmac |].
  split; [reflexivity |].
  split; [reflexivity |].
  split; [exact find_windows_best_channel_spec |].
  split; [intros rc; rewrite find_windows_best_channel_spec; cbn;
          by destruct (negb _) |].
  split.
  - intros lines profiler H1 Hothers.
    apply (Hmac lines profiler). split; [lia |].
    intros ch' Hch'. destruct (Z.eq_dec ch' 1) as [-> | Hne]; [lra |].
    assert (2 <= ch' <= 11) as H2 by lia.
    pose proof (Hothers ch' H2). lra.
  - intros channels H1 H6 H11.
    destruct channels as [| n rest]; [unfold overlapping in H6; cbn in H6; lia |].
    rewrite find_windows_best_channel_spec.
    cbn [returncode scanned Z.eqb negb]. unfold first_least.
    destruct (Z.ltb_spec (overlapping 6 (n :: rest)) (overlapping 1 (n :: rest)));
      [lia |].
    destruct (Z.ltb_spec (overlapping 11 (n :: rest)) (overlapping 1 (n :: rest)));
      [lia | reflexivity].
Qed.

(** The theorem at a scan with one network on each of the channels 4, 7
    and 10: channel 1 is free, every other channel is touched, and both
    platforms answer 1. *)
Lemma best_channel_free_channel_1 :
  find_macos_best_channel (mk_macos (Some [Some 4; Some 7; Some 10]) None) = 1 /\
  find_windows_best_channel (mk_netsh 0 [4; 7; 10]) = 1.
Proof.
  destruct best_channel_by_platform as (_ & _ & _ & _ & _ & _ & Hmac & Hwin).
  split.
  - apply Hmac.
    + reflexivity.
    + intros ch Hch.
      assert (ch = 2 \/ ch = 3 \/ ch = 4 \/ ch = 5 \/ ch = 6 \/ ch = 7 \/
              ch = 8 \/ ch = 9 \/ ch = 10 \/ ch = 11) as Hc by lia.
      destruct Hc as [-> | [-> | [-> | [-> | [-> | [-> | [-> | [-> | [-> | ->]]]]]]]]];
        reflexivity.
  - apply Hwin; reflexivity.
Defined.

(** C3 as stated fails.
    - Windows, one network on each of 1, 6 and 11: the answer is 1, whose
      weighted count (1) is not the least (channel 2 has 1/2); a network
      two channels away is charged in full, not by half.
    - macOS, a scan that lists no network: the answer is 1, not 6.
    - A scan with no network on channel 1 and at least one on every other
      channel from 2 to 11: both platforms answer 11, not 1. *)
Lemma best_channel_claim_fails :
  let crowded := [2; 2; 2; 3; 3; 3; 4; 5; 6; 7; 8; 9; 10; 11] in
  (find_windows_best_channel (mk_netsh 0 [1; 6; 11]) = 1 /\
   Qlt (weighted_count (map Some [1; 6; 11]) 2)
       (weighted_count (map Some [1; 6; 11]) 1)) /\
  (overlap_count 1 (count_channels [3]) = 1 /\ overlap_weight 2 = (1 # 2)%Q) /\
  find_macos_best_channel (mk_macos (Some []) None) = 1 /\
  (~ In 1 crowded /\ (forall ch, 2 <= ch <= 11 -> In ch crowded) /\
   find_windows_best_channel (mk_netsh 0 crowded) = 11 /\
   find_macos_best_channel (mk_macos (Some (map Some crowded)) None) = 11).
Proof.
  cbv zeta. repeat split; try reflexivity.
  - cbn. intuition discriminate.
  - intros ch Hch. cbn. lia.
Qed.

End ChannelProofs.

(* ===================================================================== *)
(** * Properties of the configuration manager *)
(* ===================================================================== *)
Module ConfigProofs.
Import Config.

Local Open Scope string_scope.
Local Open Scope Z_scope.

(** ** The apply sequence *)

(** The DNS step is entered and the subscript in its message raises. *)
Definition dns_step_fails (config : dict) : Prop :=
  exists dns,
    dict_get "dns" config = Some dns /\
    py_in "nameservers" dns = Some true /\
    subscript dns "nameservers" = None.

(** The DNS step is entered and runs to its end. *)
Definition dns_step_completes (config : dict) : Prop :=
  exists dns servers,
    dict_get "dns" config = Some dns /\
    py_in "nameservers" dns = Some true /\
    subscript dns "nameservers" = Some servers.

Lemma platform_step_applied group label name config r :
  applied (platform_step group label name config r)
  = (applied r ++ if has_key group config then [name] else [])%list.
Proof.
  unfold platform_step. destruct (has_key group config); cbn; [done |].
  by rewrite app_nil_r.
Qed.

Lemma platform_step_failed group label name config r :
  failed (platform_step group label name config r) = failed r.
Proof. unfold platform_step. by destruct (has_key group config). Qed.

(** The names the platform steps append to [applied]. *)
Definition platform_actions (os : os_type) (config : dict) : list string :=
  match platform_names os with
  | Some (p, _) =>
      (if has_key "tcp" config then [String.append p "_tcp"] else [])
        ++ (if has_key "wifi" config then [String.append p "_wifi"] else [])
  | None => []
  end.

Lemma apply_platform_applied os config r :
  applied (apply_platform os config r)
  = (applied r ++ platform_actions os config)%list.
Proof.
  unfold apply_platform, platform_actions. destruct (platform_names os) as [[p name] |].
  - rewrite !platform_step_applied. by rewrite <- app_assoc.
  - by rewrite app_nil_r.
Qed.

Lemma apply_platform_failed os config r :
  failed (apply_platform os config r) = failed r.
Proof.
  unfold apply_platform. destruct (platform_names os) as [[p name] |]; [| done].
  by rewrite !platform_step_failed.
Qed.

(** The lists of a run that returns, in terms of what the platform steps
    and the DNS step did. *)
Lemma apply_optimizations_lists self config r :
  apply_optimizations self config = Some r ->
  let platform := platform_actions (os_type_ self) config in
  success r = negb (Nat.eqb (length (applied r)) 0) /\
  ((dns_step_fails config /\
    applied r = (platform ++ ["dns_servers"])%list /\ failed r = ["dns_servers"]) \/
   (dns_step_completes config /\
    applied r = (platform ++ ["dns_servers"])%list /\ failed r = []) \/
   (~ dns_step_fails config /\ ~ dns_step_completes config /\
    applied r = platform /\ failed r = [])).
Proof.
  intros H platform. unfold apply_optimizations in H.
  destruct (dict_get "dns" config) as [dns |] eqn:Hdns.
  - destruct (py_in "nameservers" dns) as [[|] |] eqn:Hin; [| | discriminate];
      injection H as <-; cbn [success applied failed]; (split; [reflexivity |]).
    + unfold dns_step. destruct (subscript dns "nameservers") as [servers |] eqn:Hsub;
        cbn [applied failed]; rewrite apply_platform_applied, apply_platform_failed;
        cbn [applied failed app].
      * right. left. split; [by exists dns, servers |]. done.
      * left. split; [by exists dns |]. done.
    + right. right. rewrite apply_platform_applied, apply_platform_failed.
      cbn [applied failed app]. repeat split; try done.
      * intros (d & Hd & Hp & _). congruence.
      * intros (d & s & Hd & Hp & _). congruence.
  - injection H as <-. cbn [success applied failed]. split; [reflexivity |].
    right. right. rewrite apply_platform_applied, apply_platform_failed.
    cbn [applied failed app]. repeat split; try done.
    + intros (d & Hd & _). congruence.
    + intros (d & s & Hd & _). congruence.
Qed.

(** The call raises exactly when [config["dns"]] is no container. *)
Lemma apply_optimizations_returns self config :
  apply_optimizations self config = None <->
  exists dns, dict_get "dns" config = Some dns /\ py_in "nameservers" dns = None.
Proof.
  unfold apply_optimizations.
  destruct (dict_get "dns" config) as [dns |].
  - destruct (py_in "nameservers" dns) as [[|] |] eqn:E.
    + split; [discriminate | intros (d & [= <-] & H); congruence].
    + split; [discriminate | intros (d & [= <-] & H); congruence].
    + split; [by exists dns | done].
  - split; [discriminate | intros (d & H & _); discriminate].
Qed.

(** Whenever the DNS step fails in a run that returns, its name is in
    both lists and the report says [success]. *)
Lemma failed_dns_step_in_both_lists self config r :
  apply_optimizations self config = Some r -> dns_step_fails config ->
  In "dns_servers" (applied r) /\ failed r = ["dns_servers"] /\
  success r = true.
Proof.
  intros Hrun Hfails.
  destruct (apply_optimizations_lists self config r Hrun) as [Hs Hcases].
  cbv zeta in Hcases.
  assert (applied r
          = (platform_actions (os_type_ self) config ++ ["dns_servers"])%list
          /\ failed r = ["dns_servers"]) as [Ha Hf].
  { destruct Hcases as [(_ & Ha & Hf) | [(Hc & _) | (Hn & _)]];
      [by split | | contradiction].
    destruct Hfails as (d & Hd1 & Hd2 & Hd3), Hc as (d' & srv & Hc1 & Hc2 & Hc3).
    congruence. }
  split; [rewrite Ha; apply in_or_app; right; by left |].
  split; [exact Hf |].
  rewrite Hs, Ha, length_app. cbn [length].
  by destruct (length (platform_actions (os_type_ self) config)).
Qed.

(** C5 fails on the code.  On Linux, with a configuration that has no TCP
    and no wireless group and whose [dns] entry is the list
    [["nameservers"]], the only step is the DNS step and it fails (the
    subscript [config['dns']['nameservers']] raises inside the [try]); but
    its name was appended to [applied] before that, so the report lists it
    as applied and as failed and says [success = True], although no step
    succeeded.  This holds in general: a DNS step that fails is always
    reported as applied as well, with [success = True].  And when the
    [dns] entry is no container (here the number 5) the membership test,
    which is outside the [try], raises: the call is aborted and returns no
    report. *)
Theorem failed_dns_step_counts_as_applied :
  let self := init [] Linux true in
  apply_optimizations self [("dns", strs ["nameservers"])]
  = Some {| success := true; applied := ["dns_servers"];
            failed := ["dns_servers"];
            messages := [MsgFailed "dns_servers"] |} /\
  platform_actions Linux [("dns", strs ["nameservers"])] = [] /\
  dns_step_fails [("dns", strs ["nameservers"])] /\
  (forall self config r,
      apply_optimizations self config = Some r -> dns_step_fails config ->
      In "dns_servers" (applied r) /\ failed r = ["dns_servers"] /\
      success r = true) /\
  apply_optimizations self [("dns", VInt 5)] = None.
Proof.
  cbv zeta. split; [reflexivity |]. split; [reflexivity |].
  split; [eexists; repeat split; reflexivity |].
  split; [exact failed_dns_step_in_both_lists | reflexivity].
Qed.

(** ** Resolution and the level tables *)

(** C8 fails on the code.  The dict [get_config_for_level] returns holds the
    level tables themselves, so merging the overrides writes into them:
    after one resolution of level "standard" with the override
    [{"tcp": {"tcp_window_size": 1}}], the manager's table holds 1, and a
    later resolution of the same level and connection type without any
    override still yields 1 instead of the 131072 of the static table. *)
Theorem overrides_leak_into_level_tables :
  let override := [("tcp", VDict [("tcp_window_size", VInt 1)])] in
  let fresh := init [] Windows true in
  let self0 := init override Windows true in
  let '(res1, self1) := get_config_for_level self0 "standard" "wifi_2ghz" in
  let self2 := save_custom_config [] self1 in
  let '(res2, self3) := get_config_for_level self2 "standard" "wifi_2ghz" in
  read_param fresh (fst (get_config_for_level fresh "standard" "wifi_2ghz"))
             "tcp" "tcp_window_size" = Some (VInt 131072) /\
  table_get (configs self0) "tcp" "standard"
    = table_get _load_default_configs "tcp" "standard" /\
  read_param self1 res1 "tcp" "tcp_window_size" = Some (VInt 1) /\
  custom_configs self2 = [] /\
  read_param self3 res2 "tcp" "tcp_window_size" = Some (VInt 1) /\
  table_get (configs self3) "tcp" "standard"
    <> table_get _load_default_configs "tcp" "standard".
Proof. vm_compute. repeat split; try reflexivity. discriminate. Qed.

(** Without overrides a resolution leaves the manager as it is. *)
Lemma resolution_without_overrides self level_str conn_type_str :
  custom_configs self = [] ->
  snd (get_config_for_level self level_str conn_type_str) = self.
Proof. intros H. unfold get_config_for_level. by rewrite H. Qed.

End ConfigProofs.

(* ===================================================================== *)
(** * Properties of the [SignalBooster] class *)
(* ===================================================================== *)
Module CoreProofs.
Import Config Core.

Local Open Scope string_scope.
Local Open Scope Z_scope.

(** ** Feature flags *)

Lemma flag_of_set level (settings : gmap string bool) f :
  flag_of f (_set_feature_flags level settings)
  = default (flag_of f (level_flags level)) (settings !! flag_key f).
Proof. by destruct f. Qed.

(** C4.  Without overrides every flag enabled at a level is enabled at
    every higher level; an override for a flag decides that flag whatever
    the level; and a flag without an override has its level's value. *)
Theorem feature_flags_monotone_and_overridable :
  (forall l1 l2 f,
      (level_rank l1 < level_rank l2)%nat ->
      flag_of f (_set_feature_flags l1 ∅) = true ->
      flag_of f (_set_feature_flags l2 ∅) = true) /\
  (forall level (settings : gmap string bool) f b,
      settings !! flag_key f = Some b ->
      flag_of f (_set_feature_flags level settings) = b) /\
  (forall level (settings : gmap string bool) f,
      settings !! flag_key f = None ->
      flag_of f (_set_feature_flags level settings)
      = flag_of f (level_flags level)).
Proof.
  repeat split.
  - intros l1 l2 f Hlt. rewrite !flag_of_set, !lookup_empty. cbn [default].
    destruct l1, l2, f; cbn in *; first [done | lia].
  - intros level settings f b H. by rewrite flag_of_set, H.
  - intros level settings f H. by rewrite flag_of_set, H.
Qed.

(** The theorem at standard below aggressive for bandwidth control, and at
    an override that switches deep packet inspection off at the highest
    level. *)
Lemma feature_flags_examples :
  flag_of BandwidthControl (_set_feature_flags AGGRESSIVE ∅) = true /\
  flag_of DeepPacketInspection
    (_set_feature_flags EXTREME {["deep_packet_inspection" := false]}) = false.
Proof.
  destruct feature_flags_monotone_and_overridable as (Hmono & Hover & _).
  split.
  - apply (Hmono STANDARD AGGRESSIVE BandwidthControl); [cbn; lia | reflexivity].
  - apply (Hover EXTREME {["deep_packet_inspection" := false]}
                 DeepPacketInspection false).
    reflexivity.
Defined.

(** ** [get_current_metrics] *)

(** The value the call starts from: 25 in place of 0. *)
Definition seeded (v : Q) : Q := if Qeq_bool v 0 then 25%Q else v.

Fixpoint nondecreasing (l : list Q) : Prop :=
  match l with
  | [] => True
  | a :: rest =>
      match rest with
      | [] => True
      | b :: _ => (a <= b)%Q
      end /\ nondecreasing rest
  end.

Lemma bump_level_running r st : is_running (bump_level r st) = is_running st.
Proof.
  unfold bump_level.
  destruct (Qeq_bool (optimization_level_value st) 0), (is_running st) eqn:E;
    cbn; rewrite ?E; cbn; by rewrite ?E.
Qed.

Lemma bump_level_value r st :
  is_running st = true ->
  optimization_level_value (bump_level r st)
  = Qmin 98 (seeded (optimization_level_value st) + r)%Q.
Proof.
  intros Hrun. unfold bump_level, seeded. rewrite Hrun, andb_true_r.
  destruct (Qeq_bool (optimization_level_value st) 0); cbn; by rewrite Hrun.
Qed.

Lemma bump_level_idle r st : is_running st = false -> bump_level r st = st.
Proof.
  intros Hrun. unfold bump_level. rewrite Hrun, andb_false_r. by rewrite Hrun.
Qed.

Lemma get_current_metrics_state env st :
  optimization_level_value (snd (get_current_metrics env st))
  = optimization_level_value (bump_level (random_uniform env) st) /\
  is_running (snd (get_current_metrics env st)) = is_running st.
Proof.
  unfold get_current_metrics.
  rewrite <- (bump_level_running (random_uniform env) st).
  generalize (bump_level (random_uniform env) st). intros st1.
  destruct (is_running st1) eqn:Hrun; [| by cbn].
  destruct (metric_signal env) as [sg |]; [destruct (0 <? sg) |];
    (destruct (metric_bandwidth env) as [[download up] |];
     [destruct (Qlt_bool 0 download) |]); cbn; by split.
Qed.

Lemma seeded_bump_bounds v r :
  (0 <= r)%Q ->
  (Qmin 98 (seeded v + r) <= 98)%Q /\
  ((v <= 98)%Q -> (v <= Qmin 98 (seeded v + r))%Q).
Proof.
  intros Hr. split; [apply Q.le_min_l |].
  intros Hv. apply Q.min_glb; [assumption |].
  unfold seeded. destruct (Qeq_bool v 0) eqn:E; [| lra].
  apply Qeq_bool_iff in E. lra.
Qed.

Lemma metrics_calls_bounds envs : forall st,
  is_running st = true ->
  Forall (fun env => (0 <= random_uniform env)%Q) envs ->
  Forall (fun v => (v <= 98)%Q) (metrics_calls envs st) /\
  nondecreasing (metrics_calls envs st) /\
  ((optimization_level_value st <= 98)%Q ->
   Forall (fun v => (optimization_level_value st <= v)%Q) (metrics_calls envs st)).
Proof.
  induction envs as [| env rest IH]; intros st Hrun Hrs; cbn [metrics_calls].
  - repeat split; constructor.
  - apply Forall_cons in Hrs as [Hr Hrs].
    destruct (get_current_metrics_state env st) as [Hv Hrun'].
    set (st' := snd (get_current_metrics env st)) in *.
    rewrite Hrun in Hrun'.
    rewrite (bump_level_value _ _ Hrun) in Hv.
    destruct (seeded_bump_bounds (optimization_level_value st)
                (random_uniform env) Hr) as [Hle Hge].
    rewrite <- Hv in Hle, Hge.
    destruct (IH st' Hrun' Hrs) as (Hall & Hnd & Hfrom).
    specialize (Hfrom Hle).
    split; [by constructor |]. split.
    + cbn [nondecreasing]. split; [| assumption].
      destruct (metrics_calls rest st') as [| b l] eqn:E; [done |].
      by apply Forall_cons in Hfrom as [Hb _].
    + intros Hst. specialize (Hge Hst). constructor; [assumption |].
      eapply Forall_impl; [exact Hfrom |]. cbn. intros v Hv'. lra.
Qed.

(** C10, as the code has it.  While the booster is running, a call of
    [get_current_metrics] with the random draw [r] leaves
    [optimization_level_value] at [min(98, v + r)], where [v] is the value
    before the call, or 25 when that was 0.  So the value after a call
    never exceeds 98; a call does not lower a value that is at most 98,
    and it lowers every value above 98 to 98; and over any run of calls
    with draws from [0, 0.8] and nothing else writing in between, the
    values after the calls never decrease, and none is below a value at
    most 98 held before the first call. *)
Theorem metrics_level_capped_and_nondecreasing :
  (forall env st,
      is_running st = true ->
      optimization_level_value (snd (get_current_metrics env st))
      = Qmin 98 (seeded (optimization_level_value st) + random_uniform env)%Q) /\
  (forall envs st,
      is_running st = true ->
      Forall (fun env => (0 <= random_uniform env <= 8 # 10)%Q) envs ->
      Forall (fun v => (v <= 98)%Q) (metrics_calls envs st) /\
      nondecreasing (metrics_calls envs st) /\
      ((optimization_level_value st <= 98)%Q ->
       Forall (fun v => (optimization_level_value st <= v)%Q)
              (metrics_calls envs st))) /\
  (forall env st,
      is_running st = true -> (0 <= random_uniform env)%Q ->
      let before := optimization_level_value st in
      let after := optimization_level_value (snd (get_current_metrics env st)) in
      (after <= 98)%Q /\
      ((before <= 98)%Q -> (before <= after)%Q) /\
      ((98 < before)%Q -> (after == 98)%Q /\ (after < before)%Q)).
Proof.
  assert (Hcall : forall env st,
             is_running st = true ->
             optimization_level_value (snd (get_current_metrics env st))
             = Qmin 98 (seeded (optimization_level_value st)
                        + random_uniform env)%Q).
  { intros env st Hrun.
    destruct (get_current_metrics_state env st) as [-> _].
    by apply bump_level_value. }
  split; [exact Hcall |]. split.
  - intros envs st Hrun Hrs. apply metrics_calls_bounds; [assumption |].
    eapply Forall_impl; [exact Hrs |]. cbn. intros env [H _]. exact H.
  - intros env st Hrun Hr. cbv zeta. rewrite (Hcall env st Hrun).
    destruct (seeded_bump_bounds (optimization_level_value st)
                (random_uniform env) Hr) as [Hle Hge].
    split; [exact Hle |]. split; [exact Hge |].
    intros Hbig.
    assert (seeded (optimization_level_value st) = optimization_level_value st)
      as Hseed.
    { unfold seeded.
      destruct (Qeq_bool (optimization_level_value st) 0) eqn:E; [| reflexivity].
      apply Qeq_bool_iff in E. lra. }
    rewrite Hseed.
    assert (Qmin 98 (optimization_level_value st + random_uniform env) == 98)%Q
      as Hmin by (apply Q.min_l; lra).
    split; [exact Hmin | lra].
Qed.

(** ** Stopping *)

(** A booster on Windows as [__init__] leaves it: the baseline taken, no
    session running. *)
Definition sample_tcp_probe : tcp_probe :=
  mk_tcp_probe (Some (Some "normal", Some "default"))
               RegNotFound RegNotFound RegNotFound.

Definition sample_windows_settings : windows_settings :=
  mk_windows_settings
    (_get_windows_tcp_params sample_tcp_probe)
    {[ "power_saving_enabled" := true; "selective_suspend" := true ]}
    true [].

Definition idle_booster : SignalBooster :=
  mk_booster Windows false false (Some "Wi-Fi")
             (WindowsBaseline sample_windows_settings) false
             20 85 0 0 0.

(** The same booster in a session. *)
Definition running_booster : SignalBooster :=
  set_thread true (set_flags true true idle_booster).

(** A world in which every command runs, no temporary file exists and the
    monitor thread is still alive when asked. *)
Definition calm_world : stop_env :=
  mk_stop_env (fun _ => false) (fun _ => false) None true.

Definition with_thread_alive (alive : bool) (env : stop_env) : stop_env :=
  mk_stop_env (run_raises env) (path_exists env) (services env) alive.

Lemma try_block_restore raises cmds :
  Forall (fun ev => is_restore ev = true) (try_block raises cmds).
Proof.
  induction cmds as [| [carries argv] rest IH]; cbn; [constructor |].
  constructor; [reflexivity |]. destruct (raises argv); [constructor | exact IH].
Qed.

Lemma restore_events_are_restores env st :
  Forall (fun ev => is_restore ev = true) (_restore_original_settings env st).
Proof.
  unfold _restore_original_settings. apply Forall_app. split.
  - destruct (os st), (original_settings st) as [| s | s | s];
      try constructor.
    + unfold restore_windows. repeat (apply Forall_app; split);
        try apply try_block_restore.
      destruct (active_interface st); [| constructor].
      destruct (default true _); [apply try_block_restore | constructor].
    + unfold restore_linux. repeat (apply Forall_app; split);
        try apply try_block_restore.
      * destruct (path_exists env _); repeat constructor.
      * destruct (active_interface st); [apply try_block_restore | constructor].
    + unfold restore_macos. apply Forall_app. split; [| apply try_block_restore].
      destruct (dns_servers s) as [[| d ds] |], (active_interface st);
        try constructor; [reflexivity |].
      destruct (services env) as [[w |] |];
        [apply try_block_restore | constructor | constructor].
  - apply Forall_map. apply Forall_forall. reflexivity.
Qed.

Lemma restore_ignores_thread alive env st :
  _restore_original_settings (with_thread_alive alive env) st
  = _restore_original_settings env st.
Proof. reflexivity. Qed.

Lemma restore_ignores_flags env a r st :
  _restore_original_settings env (set_flags a r st)
  = _restore_original_settings env st.
Proof. reflexivity. Qed.

(** C6, as the code has it.  [stop_boosting] on a running booster first
    clears both flags, so that the monitor loop makes no further pass; it
    then stops the visualizer and replays the baseline; only after the
    last restore action does it join the monitor thread, with a timeout of
    2 seconds and only if the thread is alive.  The restore actions are
    the same whether or not there is a thread to join. *)
Theorem stop_boosting_restores_then_joins env st :
  active st = true \/ is_running st = true ->
  let st' := fst (stop_boosting env st) in
  let trace := snd (stop_boosting env st) in
  let restore_part := _restore_original_settings env st in
  let join_part :=
    if has_monitor_thread st && thread_alive env then [EvJoin 2%Q] else [] in
  active st' = false /\ is_running st' = false /\
  (forall envs, _monitor_and_optimize envs st' = (st', [])) /\
  trace = EvVisualizerStop :: restore_part ++ join_part /\
  Forall (fun ev => is_restore ev = true) restore_part /\
  Forall (fun ev => is_join ev = true) join_part /\
  (forall alive,
      List.filter is_restore (snd (stop_boosting (with_thread_alive alive env) st))
      = restore_part).
Proof.
  intros Hrun st' trace restore_part join_part.
  assert (negb (active st) && negb (is_running st) = false) as Hguard.
  { destruct Hrun as [-> | ->]; cbn; [done | by rewrite andb_false_r]. }
  assert (forall e, stop_boosting e st
            = (set_flags false false st,
               EvVisualizerStop :: _restore_original_settings e st
                 ++ (if has_monitor_thread st && thread_alive e
                     then [EvJoin 2%Q] else []))) as Hstop.
  { intros e. unfold stop_boosting. by rewrite Hguard. }
  subst st' trace. rewrite Hstop. cbn [fst snd].
  pose proof (restore_events_are_restores env st) as Hres.
  split; [reflexivity |]. split; [reflexivity |].
  split; [intros [| e rest]; reflexivity |].
  split; [reflexivity |]. split; [exact Hres |]. split.
  - subst join_part.
    destruct (has_monitor_thread st && thread_alive env); repeat constructor.
  - intros alive. rewrite Hstop. cbn [snd List.filter is_restore].
    rewrite List.filter_app, restore_ignores_thread.
    fold restore_part in Hres |- *.
    assert (List.filter is_restore restore_part = restore_part) as ->.
    { clear -Hres. induction Hres as [| ev l Hev _ IH]; cbn; [done |].
      by rewrite Hev, IH. }
    destruct (has_monitor_thread st), alive; cbn; apply app_nil_r.
Qed.

(** The theorem at the sample session. *)
Lemma stop_boosting_sample :
  let trace := snd (stop_boosting calm_world running_booster) in
  active (fst (stop_boosting calm_world running_booster)) = false /\
  trace = EvVisualizerStop
            :: _restore_original_settings calm_world running_booster
            ++ [EvJoin 2%Q].
Proof.
  pose proof (stop_boosting_restores_then_joins calm_world running_booster
                (or_introl eq_refl)) as H.
  cbv zeta in H. destruct H as (Ha & _ & _ & Ht & _).
  split; [exact Ha | exact Ht].
Defined.

(** C6 as stated fails: in the sample session the first restore action is
    the second event of the stop and the join is the last one, after all
    five restore commands; and [stop], which clears the flags before it
    calls [stop_boosting], neither joins nor restores. *)
Lemma stop_boosting_joins_last :
  let trace := snd (stop_boosting calm_world running_booster) in
  first_index is_restore trace = Some 1%nat /\
  first_index is_join trace = Some 6%nat /\
  length trace = 7%nat /\
  ~ (exists i j, first_index is_join trace = Some i /\
                 first_index is_restore trace = Some j /\ (i < j)%nat) /\
  snd (stop calm_world running_booster) = [].
Proof.
  vm_compute. repeat split; try reflexivity.
  intros (i & j & [= <-] & [= <-] & H). lia.
Qed.

(** Two calls with the draws 0.5 and 0.8. *)
Definition two_draws : list metrics_env :=
  [mk_metrics_env (5 # 10) None None None;
   mk_metrics_env (8 # 10) None None None].

(** The theorem at the sample session and two calls: the value goes from
    0 to 25.5 and then to 26.3. *)
Lemma metrics_level_sample :
  optimization_level_value
    (snd (get_current_metrics (mk_metrics_env (5 # 10) None None None)
                              running_booster))
  = Qmin 98 (seeded 0 + (5 # 10))%Q /\
  Forall (fun v => (v <= 98)%Q) (metrics_calls two_draws running_booster) /\
  nondecreasing (metrics_calls two_draws running_booster).
Proof.
  destruct metrics_level_capped_and_nondecreasing as (Hcall & Hrun & _).
  split.
  - apply (Hcall (mk_metrics_env (5 # 10) None None None) running_booster).
    reflexivity.
  - assert (Forall (fun env => (0 <= random_uniform env <= 8 # 10)%Q) two_draws)
      as Hdraws.
    { unfold two_draws. repeat (apply List.Forall_cons; [cbn; lra |]).
      apply List.Forall_nil. }
    destruct (Hrun two_draws running_booster eq_refl Hdraws) as (Hcap & Hnd & _).
    split; [exact Hcap | exact Hnd].
Defined.

(** The booster in a session, with a signal of 100% and 30 Mbps measured
    against the targets 85% and 20 Mbps. *)
Definition strong_session : SignalBooster :=
  set_signal 100 (set_speed 30 running_booster).

(** C10 as stated fails: the value is not non-decreasing across the calls
    of a running booster.  [_apply_optimizations] stores
    [min(100/85, 30/20) * 100], about 117.6, and the next call of
    [get_current_metrics] lowers the value to 98. *)
Lemma metrics_level_lowered_to_98 :
  let round := mk_round_env None 0%Q None 0 None in
  let poll := mk_metrics_env (5 # 10) None None None in
  exists st1,
    _apply_optimizations round strong_session = Some st1 /\
    is_running st1 = true /\
    (optimization_level_value st1 == 2000 # 17)%Q /\
    (optimization_level_value (snd (get_current_metrics poll st1)) == 98)%Q /\
    (optimization_level_value (snd (get_current_metrics poll st1))
     < optimization_level_value st1)%Q.
Proof.
  cbv zeta. eexists. split; [vm_compute; reflexivity |].
  repeat split; vm_compute; reflexivity.
Qed.

(** ** Restoring the baseline *)

Lemma times_passed_app key t1 t2 :
  times_passed key (t1 ++ t2) = (times_passed key t1 + times_passed key t2)%nat.
Proof. unfold times_passed. by rewrite List.filter_app, length_app. Qed.

Lemma times_passed_cons key ev t :
  times_passed key (ev :: t)
  = ((match ev with
      | EvRun carries _ => if bool_decide (key ∈ carries) then 1 else 0
      | _ => 0
      end) + times_passed key t)%nat.
Proof.
  unfold times_passed. cbn. destruct ev; try reflexivity.
  by destruct (bool_decide _).
Qed.

(** Commands that carry no parameter pass none. *)
Lemma times_passed_plain key raises cmds :
  Forall (fun c : command => fst c = []) cmds ->
  times_passed key (try_block raises cmds) = 0%nat.
Proof.
  induction 1 as [| [carries argv] rest Hc _ IH]; cbn [try_block]; [done |].
  cbn in Hc. subst carries. rewrite times_passed_cons.
  rewrite bool_decide_eq_false_2 by apply not_elem_of_nil.
  destruct (raises argv); [reflexivity | exact IH].
Qed.


(** The two TCP commands of the Windows restore. *)
Definition windows_tcp_commands (tcp : gmap string setting) : list command :=
  (match tcp !! "window_size" with
   | Some _ =>
       match tcp !! "autotuning" with
       | Some a => [(["autotuning"],
                     netsh_tcp_global ("autotuninglevel=" ++ render a))]
       | None => [([], netsh_tcp_global "autotuninglevel=normal")]
       end
   | None => []
   end)
  ++
  (match tcp !! "congestion_provider" with
   | Some c => [(["congestion_provider"],
                 netsh_tcp_global ("congestionprovider=" ++ render c))]
   | None => []
   end).

Lemma plain_commands (cmds : list command) :
  forallb (fun c => match fst c with [] => true | _ => false end) cmds = true ->
  Forall (fun c : command => fst c = []) cmds.
Proof.
  induction cmds as [| [carries argv] rest IH]; cbn; [constructor |].
  destruct carries; [| discriminate]. intros H. constructor; [done | by apply IH].
Qed.

Lemma restore_windows_passed key env iface s :
  times_passed key (restore_windows env iface s)
  = times_passed key
      (try_block (run_raises env) (windows_tcp_commands (tcp_params s))).
Proof.
  unfold restore_windows. fold (windows_tcp_commands (tcp_params s)).
  rewrite !times_passed_app.
  rewrite (times_passed_plain key (run_raises env)
             [([], delete_rule "SignalBoosterRealTime");
              ([], delete_rule "SignalBoosterWeb")])
    by (by apply plain_commands).
  destruct iface as [i |]; [| cbn; lia].
  destruct (default true _); [| cbn; lia].
  match goal with
  | |- context [try_block _ [([], ?argv)]] =>
      rewrite (times_passed_plain key (run_raises env) [([], argv)])
        by (by apply plain_commands)
  end.
  lia.
Qed.

(** How many of the commands carry [key]. *)
Definition carry_count (key : string) (cmds : list command) : nat :=
  length (List.filter (fun c : command => bool_decide (key ∈ fst c)) cmds).

Lemma times_passed_le_carried key raises cmds :
  (times_passed key (try_block raises cmds) <= carry_count key cmds)%nat.
Proof.
  unfold carry_count.
  induction cmds as [| [carries argv] rest IH]; cbn [try_block]; [done |].
  rewrite times_passed_cons. cbn [List.filter fst].
  destruct (bool_decide (key ∈ carries)), (raises argv); cbn; lia.
Qed.


Lemma carries_one (key name : string) :
  bool_decide (key ∈ [name]) = bool_decide (key = name).
Proof. apply bool_decide_ext. apply list_elem_of_singleton. Qed.

Lemma carries_none (key : string) : bool_decide (key ∈ @nil string) = false.
Proof. apply bool_decide_eq_false_2. apply not_elem_of_nil. Qed.

Lemma windows_tcp_carried key (tcp : gmap string setting) :
  carry_count key (windows_tcp_commands tcp)
  = ((if bool_decide (key = "autotuning") then
        match tcp !! "window_size", tcp !! "autotuning" with
        | Some _, Some _ => 1
        | _, _ => 0
        end
      else 0)
     + (if bool_decide (key = "congestion_provider") then
          match tcp !! "congestion_provider" with Some _ => 1 | None => 0 end
        else 0))%nat.
Proof.
  unfold windows_tcp_commands, carry_count.
  destruct (tcp !! "window_size") as [w |], (tcp !! "autotuning") as [a |],
           (tcp !! "congestion_provider") as [c |];
    cbn [app List.filter fst]; rewrite ?carries_one, ?carries_none;
    destruct (bool_decide (key = "autotuning")),
             (bool_decide (key = "congestion_provider")); reflexivity.
Qed.









Lemma apply_frame env st st' :
  _apply_optimizations env st = Some st' ->
  os st' = os st /\ active st' = active st /\ is_running st' = is_running st /\
  active_interface st' = active_interface st /\
  original_settings st' = original_settings st /\
  has_monitor_thread st' = has_monitor_thread st.
Proof.
  unfold _apply_optimizations.
  destruct (current_signal st <? target_signal_strength st);
    [destruct (signal_after env) |];
    (destruct (_ || _); [discriminate |]); intros [= <-]; by cbn.
Qed.




(** The first round of measurements of a session. *)
Definition first_round : round_env :=
  mk_round_env (Some 5%Q) 0%Q (Some 60) 0 (Some 62).

(** ** The monitor loop *)

Lemma measure_signal_ignores_speed env v st :
  _measure_signal_strength env (set_speed v st) = _measure_signal_strength env st.
Proof. reflexivity. Qed.

(** C9, as the code has it.  A pass of the monitor loop re-applies the
    optimisations exactly when the signal it has just measured is below
    the target signal strength: with a low signal the pass calls
    [_apply_optimizations] (and completes with the re-apply done when the
    targets are not zero), so the first pass of an active loop re-applies;
    with a signal at or above the target the pass re-applies nothing and
    only stores the two measurements, whatever the measured speed. *)
Theorem monitor_reapplies_on_low_signal env st :
  let signal := _measure_signal_strength env st in
  let speed := _measure_current_speed env st in
  (signal < target_signal_strength st ->
   monitor_pass env st = None \/
   exists st', monitor_pass env st = Some (st', true)) /\
  (signal < target_signal_strength st ->
   Qeq_bool (target_speed st) 0 = false -> target_signal_strength st <> 0 ->
   (exists st', monitor_pass env st = Some (st', true)) /\
   (active st = true ->
    forall rest, exists st' log,
        _monitor_and_optimize (env :: rest) st = (st', true :: log))) /\
  (target_signal_strength st <= signal ->
   monitor_pass env st = Some (set_signal signal (set_speed speed st), false) /\
   (active st = true ->
    forall rest, exists st' log,
        _monitor_and_optimize (env :: rest) st = (st', false :: log))).
Proof.
  intros signal speed.
  assert (forall b : bool, (signal <? target_signal_strength st) = b ->
            monitor_pass env st
            = if b then
                match _apply_optimizations env
                        (set_signal signal (set_speed speed st)) with
                | Some st3 => Some (st3, true)
                | None => None
                end
              else Some (set_signal signal (set_speed speed st), false)) as Hpass.
  { intros b Hb. unfold monitor_pass. cbn [current_signal set_signal
      target_signal_strength set_speed].
    rewrite measure_signal_ignores_speed. fold signal. by rewrite Hb. }
  split; [| split].
  - intros Hlow. rewrite (Hpass true) by (by apply Z.ltb_lt).
    destruct (_apply_optimizations env _) as [st3 |]; [right; by exists st3 | by left].
  - intros Hlow Hspeed Htarget.
    assert (exists st3, _apply_optimizations env
                          (set_signal signal (set_speed speed st)) = Some st3)
      as [st3 Happly].
    { unfold _apply_optimizations.
      cbn [current_signal set_signal target_signal_strength set_speed
           target_speed].
      apply Z.ltb_lt in Hlow. rewrite Hlow.
      apply Z.eqb_neq in Htarget.
      destruct (signal_after env);
        cbn [target_speed target_signal_strength set_signal set_speed];
        rewrite Hspeed, Htarget; cbn [orb]; by eexists. }
    assert (monitor_pass env st = Some (st3, true)) as Hp.
    { rewrite (Hpass true) by (by apply Z.ltb_lt). by rewrite Happly. }
    split; [by exists st3 |].
    intros Hact rest. cbn [_monitor_and_optimize]. rewrite Hact, Hp.
    destruct (_monitor_and_optimize rest st3) as [st'' log]. by exists st'', log.
  - intros Hhigh.
    assert (monitor_pass env st
            = Some (set_signal signal (set_speed speed st), false)) as Hp.
    { apply (Hpass false). by apply Z.ltb_ge. }
    split; [exact Hp |].
    intros Hact rest. cbn [_monitor_and_optimize]. rewrite Hact, Hp.
    destruct (_monitor_and_optimize rest _) as [st'' log]. by exists st'', log.
Qed.

(** A round with a download of 5 Mbps and a signal of 60 percent, and one
    with the same download and a signal of 90 percent. *)
Definition weak_round : round_env :=
  mk_round_env (Some 5%Q) 0%Q (Some 60) 0 (Some 62).

Definition strong_round : round_env :=
  mk_round_env (Some 5%Q) 0%Q (Some 90) 0 None.

(** The theorem at the sample session (target speed 20, target signal 85):
    the weak round re-applies, the strong one does not. *)
Lemma monitor_sample_rounds :
  (exists st', monitor_pass weak_round running_booster = Some (st', true)) /\
  (exists st', monitor_pass strong_round running_booster = Some (st', false)).
Proof.
  pose proof (monitor_reapplies_on_low_signal weak_round running_booster) as Hw.
  pose proof (monitor_reapplies_on_low_signal strong_round running_booster) as Hs.
  cbv zeta in Hw, Hs.
  destruct Hw as (_ & Hw & _). destruct Hs as (_ & _ & Hs).
  split.
  - apply Hw; vm_compute; [reflexivity | reflexivity | discriminate].
  - destruct Hs as [Hs _]; [vm_compute; discriminate |]. eexists. exact Hs.
Defined.

(** C9 as stated fails: with a target speed of 20 and a measured download
    of 5 Mbps, but a measured signal of 90 against the target 85, neither
    of the first two passes of the loop re-applies the optimisations. *)
Lemma monitor_ignores_low_speed :
  target_speed running_booster = 20%Q /\
  _measure_current_speed strong_round running_booster = 5%Q /\
  Qlt (_measure_current_speed strong_round running_booster)
      (target_speed running_booster) /\
  snd (_monitor_and_optimize [strong_round; strong_round] running_booster)
  = [false; false].
Proof. vm_compute. repeat split; reflexivity. Qed.

(** ** Congestion and interference *)

Lemma Qsum_bounds lo hi (l : list Q) :
  Forall (fun x => (lo <= x <= hi)%Q) l ->
  (inject_Z (Z.of_nat (length l)) * lo <= Qsum l
   /\ Qsum l <= inject_Z (Z.of_nat (length l)) * hi)%Q.
Proof.
  induction 1 as [| x rest [Hlo Hhi] _ [IHlo IHhi]].
  - change (inject_Z (Z.of_nat (length (@nil Q)))) with 0%Q.
    change (Qsum []) with 0%Q. lra.
  - change (Qsum (x :: rest)) with (x + Qsum rest)%Q.
    cbn [length]. rewrite Nat2Z.inj_succ. unfold Z.succ.
    rewrite inject_Z_plus. change (inject_Z 1) with 1%Q.
    generalize dependent (inject_Z (Z.of_nat (length rest))).
    intros n IHlo IHhi. assert (0 <= n * 0)%Q by lra. nra.
Qed.

(** The mean of a non-empty list lies between any bounds of its
    elements; the division is by the positive length. *)
Lemma mean_bounds lo hi (l : list Q) :
  l <> [] -> Forall (fun x => (lo <= x <= hi)%Q) l ->
  (lo <= mean l <= hi)%Q.
Proof.
  intros Hne Hall. destruct (Qsum_bounds lo hi l Hall) as [Hlo Hhi].
  assert (0 < inject_Z (Z.of_nat (length l)))%Q as Hpos.
  { destruct l; [done |]. rewrite <- (Zlt_Qlt 0). cbn [length]. lia. }
  unfold mean. split.
  - apply Qle_shift_div_l; [exact Hpos | lra].
  - apply Qle_shift_div_r; [exact Hpos | lra].
Qed.

(** The list of congestion factors is never empty: a failed ping
    contributes its two zeros. *)
Lemma congestion_factors_nonempty env : congestion_factors env <> [].
Proof. unfold congestion_factors, latency_factors. discriminate. Qed.

Lemma congestion_is_mean env :
  _analyze_network_congestion env = mean (congestion_factors env).
Proof.
  unfold _analyze_network_congestion.
  pose proof (congestion_factors_nonempty env).
  by destruct (congestion_factors env).
Qed.

Lemma interference_factor_bounds env :
  Forall (fun x => (0 <= x <= 100)%Q) (interference_factors env).
Proof.
  unfold interference_factors. repeat (apply Forall_app; split).
  - destruct (Z.ltb_spec 0 (channel_congestion env)); [| constructor].
    constructor; [| constructor].
    assert (channel_congestion env <= 100) as Hle.
    { unfold channel_congestion. destruct (channel_scan env) as [[c l] |]; [| lia].
      destruct (Z.eqb c 0); lia. }
    split; [rewrite <- (Zle_Qle 0); lia | rewrite <- (Zle_Qle _ 100); lia].
  - unfold variation_factors. destruct (signal_samples env) as [| s l]; [constructor |].
    destruct (Z.ltb_spec 0 (list_max (s :: l) - list_min (s :: l))); [| constructor].
    constructor; [| constructor].
    split; [rewrite <- (Zle_Qle 0); lia | rewrite <- (Zle_Qle _ 100); lia].
  - destruct (Z.ltb_spec 0 (non_wifi_interference env)); [| constructor].
    constructor; [| constructor].
    assert (non_wifi_interference env <= 30) as Hle.
    { unfold non_wifi_interference.
      destruct (if_os env), (band_channel env) as [c |]; try lia.
      destruct (_ && _); lia. }
    split; [rewrite <- (Zle_Qle 0); lia | rewrite <- (Zle_Qle _ 100); lia].
Qed.

(** The interference score never divides by zero, lies in [0, 100], and
    is exactly 20 when no factor was measured. *)
Lemma interference_in_range env :
  (0 <= _check_for_interference env <= 100)%Q /\
  (interference_factors env = [] -> _check_for_interference env = 20%Q).
Proof.
  unfold _check_for_interference.
  pose proof (interference_factor_bounds env) as Hall.
  destruct (interference_factors env) as [| x l] eqn:E.
  - split; [lra | reflexivity].
  - split; [| discriminate]. by apply mean_bounds.
Qed.

(** The measurements are well formed: the ping statistics are ordered and
    the interface counters are not negative. *)
Definition congestion_env_wf (env : congestion_env) : Prop :=
  (lat_min (latency_results env) <= lat_max (latency_results env))%Q /\
  match win_stats env with Some (_, dropped) => 0 <= dropped | None => True end /\
  Forall (fun row => match row with
                     | Some (_, errors, drops) => 0 <= errors /\ 0 <= drops
                     | None => True
                     end) (linux_rows env) /\
  Forall (fun row => match row with
                     | Some (_, errors) => 0 <= errors
                     | None => True
                     end) (mac_rows env).

Lemma percent_of_bounds a b : 0 <= a -> (0 <= percent_of a b <= 100)%Q.
Proof.
  intros Ha. unfold percent_of. split; [| apply Q.le_min_l].
  apply Q.min_glb; [lra |].
  apply Qmult_le_0_compat; [| lra].
  apply Qle_shift_div_l.
  - rewrite <- (Zlt_Qlt 0). lia.
  - rewrite Qmult_0_l, <- (Zle_Qle 0). exact Ha.
Qed.

Lemma congestion_factor_bounds env :
  congestion_env_wf env ->
  Forall (fun x => (0 <= x <= 100)%Q) (congestion_factors env).
Proof.
  intros (Hlat & Hwin & Hlin & Hmac).
  unfold congestion_factors. repeat (apply Forall_app; split).
  - unfold latency_factors. repeat constructor.
    + apply Q.min_glb; lra.
    + apply Q.le_min_l.
    + apply Q.min_glb; [lra | apply Q.le_max_l].
    + apply Q.le_min_l.
  - unfold stats_factors. destruct (cg_interface env); [| constructor].
    destruct (cg_os env); try constructor.
    + destruct (win_stats env) as [[received dropped] |]; [| constructor].
      destruct (0 <? received); [| constructor].
      constructor; [by apply percent_of_bounds | constructor].
    + induction Hlin as [| [[[packets errors] drops] |] rest Hrow _ IH];
        cbn [linux_factors]; try constructor.
      apply Forall_app. split; [| exact IH].
      destruct Hrow as [He Hd]. destruct (0 <? packets); [| constructor].
      repeat constructor; by apply percent_of_bounds.
    + induction Hmac as [| [[packets errors] |] rest Hrow _ IH];
        cbn [mac_factors]; try constructor.
      apply Forall_app. split; [| exact IH].
      destruct (0 <? packets); [| constructor].
      repeat constructor; by apply percent_of_bounds.
  - unfold load_factors. destruct (has_getloadavg env).
    + destruct (loadavg env) as [load |]; [| constructor].
      constructor; [| constructor].
      pose proof (Q.le_min_l 100 (Qmax 0 ((load - 1) / 4 * 100))).
      assert (0 <= Qmin 100 (Qmax 0 ((load - 1) / 4 * 100)))%Q
        by (apply Q.min_glb; [lra | apply Q.le_max_l]).
      lra.
    + destruct (cg_os env); try constructor.
      destruct (cpu_percent env) as [cpu |]; [| constructor].
      destruct (Qlt_bool 80 cpu); [| constructor].
      constructor; [lra | constructor].
Qed.

(** The congestion score never divides by zero and, on well-formed
    measurements, lies in [0, 100]. *)
Lemma congestion_in_range env :
  congestion_env_wf env -> (0 <= _analyze_network_congestion env <= 100)%Q.
Proof.
  intros Hwf. rewrite congestion_is_mean.
  apply mean_bounds; [apply congestion_factors_nonempty |].
  by apply congestion_factor_bounds.
Qed.

(** A Windows host on which nothing can be measured: the ping fails, so
    [measure_latency] returns its three zeros; the adapter statistics
    print nothing that matches; and the processor is not busy. *)
Definition nothing_measured : congestion_env :=
  mk_congestion_env Windows true (mk_latency 0 0 0) None [] [] false None
                    (Some 10%Q).

(** C1 fails on the code.  When every sub-measurement fails, the zeros
    that [measure_latency] returns for a failed ping are taken as two
    measured factors, and the congestion score is their mean 0 instead of
    the default 30 that the code keeps for the case of no factor; the
    default is in fact never reached. *)
Theorem congestion_default_unreachable :
  congestion_factors nothing_measured = [0%Q; 0%Q] /\
  (_analyze_network_congestion nothing_measured == 0)%Q /\
  ~ (_analyze_network_congestion nothing_measured == 30)%Q /\
  (forall env, congestion_factors env <> []) /\
  (forall env, _analyze_network_congestion env = mean (congestion_factors env)).
Proof.
  split; [by vm_compute |]. split; [by vm_compute |].
  split; [by vm_compute |].
  split; [exact congestion_factors_nonempty | exact congestion_is_mean].
Qed.

End CoreProofs.

(* ===================================================================== *)
(** * Accuracy of the MTU search on a network with a path MTU *)
(* ===================================================================== *)
Module MtuAccuracy.
Import Mtu MtuProofs.

(** One turn of the loop on the network [path_mtu m], with the answer of
    the probe turned into an inequality on [m]. *)
Ltac path_turn m :=
  rewrite search_loop_more by (vm_compute; reflexivity);
  unfold step; cbn [max_mtu min_mtu optimal_mtu probe_log length];
  repeat match goal with
         | |- context [(?a + ?b) / 2] =>
             let v := eval vm_compute in ((a + b) / 2) in
             change ((a + b) / 2) with v
         end;
  match goal with
  | |- context [path_mtu m ?n ?p] =>
      let H := fresh "Hp" in
      change (path_mtu m n p) with (m <? p + 28);
      destruct (Z.ltb_spec m (p + 28)) as [H | H]
  end.

Lemma path_search_result (m : Z) :
  let r := optimal_mtu (search_loop (path_mtu m) init_state) in
  (m < 1204 -> r = 1500) /\
  (1204 <= m < 1500 -> r <= m <= r + 4) /\
  (1500 <= m -> r = 1495).
Proof.
  cbv zeta. unfold init_state.
  path_turn m; path_turn m; path_turn m; path_turn m; path_turn m; path_turn m;
    rewrite search_loop_done by (vm_compute; discriminate);
    cbn [optimal_mtu]; lia.
Qed.

(** X1.  On a network with path MTU [m] (a probe gets through exactly when
    its size is at most [m]) the Windows and Linux searches return the same
    value [r]: for [1204 <= m < 1500] it is a deliverable size within 4
    bytes of the path MTU; for [m >= 1500] it is 1495, never 1500; and for
    [m < 1204], where no probe gets through, it is the default 1500, which
    the path cannot carry. *)
Theorem mtu_search_within_four_of_path (m : Z) :
  let r := find_optimal_mtu Linux None (path_mtu m) in
  find_optimal_mtu Windows None (path_mtu m) = r /\
  (1204 <= m < 1500 -> r <= m <= r + 4) /\
  (1500 <= m -> r = 1495) /\
  (m < 1204 -> r = 1500 /\ m < r).
Proof.
  cbv zeta. cbn [find_optimal_mtu].
  unfold _find_windows_optimal_mtu, _find_linux_optimal_mtu.
  destruct (path_search_result m) as (Hlow & Hmid & Hhigh).
  repeat split; try (apply Hmid; lia); try (apply Hhigh; lia).
  - apply Hlow. lia.
  - rewrite Hlow; lia.
Qed.

(** The theorem on a PPPoE line, whose path MTU is 1492. *)
Lemma mtu_search_on_pppoe :
  find_optimal_mtu Linux None (path_mtu 1492) = 1490 /\
  find_optimal_mtu Linux None (path_mtu 1492) <= 1492
  <= find_optimal_mtu Linux None (path_mtu 1492) + 4.
Proof.
  pose proof (mtu_search_within_four_of_path 1492) as H. cbv zeta in H.
  destruct H as (_ & Hmid & _).
  split; [reflexivity |]. apply Hmid. lia.
Defined.

(** The sizes scanned from [c], eight apart. *)
Definition scanned_size (c : Z) (i : nat) : Z := c - 8 * Z.of_nat i.

Lemma macos_scan_path (m c : Z) (k j n : nat) :
  let r := macos_scan (path_mtu m) n (map (scanned_size c) (seq j k)) c in
  (r = c /\ forall i, (j <= i < j + k)%nat -> m < scanned_size c i) \/
  (exists i, (j <= i < j + k)%nat /\ r = scanned_size c i /\ r <= m /\
             forall i', (j <= i' < i)%nat -> m < scanned_size c i').
Proof.
  cbv zeta. revert j n. induction k as [| k IH]; intros j n.
  - left. split; [reflexivity | lia].
  - cbn [seq map macos_scan].
    change (path_mtu m n (scanned_size c j - 28))
      with (m <? scanned_size c j - 28 + 28).
    destruct (Z.ltb_spec m (scanned_size c j - 28 + 28)) as [Hbig | Hok].
    + destruct (IH (S j) (S n)) as [[Hr Hall] | (i & Hi & Hr & Hle & Hbefore)].
      * left. split; [exact Hr |].
        intros i Hi. destruct (decide (i = j)) as [-> | Hne]; [lia |].
        apply Hall. lia.
      * right. exists i. repeat split; try assumption; try lia.
        intros i' Hi'. destruct (decide (i' = j)) as [-> | Hne]; [lia |].
        apply Hbefore. lia.
    + right. exists j. repeat split; try lia.
Qed.

Lemma range_down8_scanned (c : Z) :
  range_down8 c 1400 =
  map (scanned_size c) (seq 0 (Z.to_nat ((c - 1400 + 7) / 8))).
Proof. reflexivity. Qed.

(** X2.  The macOS scan on a network with path MTU [m], started from the
    interface's current MTU [c]: it returns [c] itself when the path
    carries [c], and also when nothing above 1400 gets through (so the
    value returned can exceed the path MTU); for [1408 <= m < c] it
    returns a deliverable size above 1400, a multiple of 8 below [c] and
    less than 8 bytes under the path MTU. *)
Theorem macos_mtu_scan_on_path (m c : Z) :
  let r := find_optimal_mtu Darwin (Some c) (path_mtu m) in
  (c <= m -> r = c) /\
  (m <= 1400 -> r = c) /\
  (1408 <= m < c ->
   1400 < r /\ r <= m < r + 8 /\ r < c /\ (c - r) mod 8 = 0).
Proof.
  cbv zeta. cbn [find_optimal_mtu]. unfold _find_macos_optimal_mtu.
  change (default 1500 (Some c)) with c. rewrite range_down8_scanned.
  set (k := Z.to_nat ((c - 1400 + 7) / 8)).
  assert (Hk : forall i, (i < k)%nat -> 1400 < scanned_size c i).
  { intros i Hi. unfold scanned_size. subst k.
    assert (Z.of_nat i < (c - 1400 + 7) / 8) by lia.
    Z.div_mod_to_equations. lia. }
  assert (Hlast : 1400 < c -> (0 < k)%nat /\ scanned_size c (k - 1) <= 1408).
  { intros Hc. subst k. unfold scanned_size.
    assert (1 <= (c - 1400 + 7) / 8) by (Z.div_mod_to_equations; lia).
    split; [lia |].
    replace (Z.of_nat (Z.to_nat ((c - 1400 + 7) / 8) - 1))
      with ((c - 1400 + 7) / 8 - 1) by lia.
    Z.div_mod_to_equations. lia. }
  pose proof (macos_scan_path m c k 0 0) as Hscan. cbv zeta in Hscan.
  split; [| split].
  - intros Hcm.
    destruct Hscan as [[Hr _] | (i & Hi & Hr & Hle & Hbefore)]; [exact Hr |].
    destruct i as [| i].
    + rewrite Hr. unfold scanned_size. lia.
    + specialize (Hbefore 0%nat). unfold scanned_size in Hbefore. lia.
  - intros Hm.
    destruct Hscan as [[Hr _] | (i & Hi & Hr & Hle & _)]; [exact Hr |].
    specialize (Hk i). rewrite <- Hr in Hk. lia.
  - intros [Hm Hc].
    destruct Hscan as [[_ Hall] | (i & Hi & Hr & Hle & Hbefore)].
    + destruct Hlast as [Hpos Hl]; [lia |].
      specialize (Hall (k - 1)%nat). lia.
    + rewrite Hr in *. specialize (Hk i).
      destruct i as [| i].
      * unfold scanned_size in Hle. lia.
      * specialize (Hbefore i). unfold scanned_size in *.
        repeat split; try lia.
        replace (c - (c - 8 * Z.of_nat (S i))) with (Z.of_nat (S i) * 8) by lia.
        apply Z.mod_mul. lia.
Qed.

(** The theorem for an interface at 1500 on a path that carries 1450. *)
Lemma macos_mtu_scan_on_1450 :
  find_optimal_mtu Darwin (Some 1500) (path_mtu 1450) = 1444 /\
  1400 < find_optimal_mtu Darwin (Some 1500) (path_mtu 1450).
Proof.
  pose proof (macos_mtu_scan_on_path 1450 1500) as H. cbv zeta in H.
  destruct H as (_ & _ & Hmid).
  split; [reflexivity |]. apply Hmid. lia.
Defined.

End MtuAccuracy.

(* ===================================================================== *)
(** * Properties of construction, interface choice and measuring *)
(* ===================================================================== *)
Module SessionProofs.
Import Config Core Session.

Local Open Scope string_scope.
Local Open Scope Z_scope.

Lemma level_of_value_round_trip (l : OptimizationLevel) :
  level_of_value (level_value l) = Some l.
Proof. by destruct l. Qed.

Lemma level_of_value_inv (s : string) (l : OptimizationLevel) :
  level_of_value s = Some l -> s = level_value l.
Proof.
  unfold level_of_value.
  destruct (String.eqb_spec s "light") as [-> | _]; [by intros [= <-] |].
  destruct (String.eqb_spec s "standard") as [-> | _]; [by intros [= <-] |].
  destruct (String.eqb_spec s "aggressive") as [-> | _]; [by intros [= <-] |].
  destruct (String.eqb_spec s "extreme") as [-> | _]; [by intros [= <-] |].
  discriminate.
Qed.

(** X3.  The level an object is created with.  The enum and its string
    values convert back and forth; the level stored is never below the one
    asked for, and is exactly that one when aggressive mode is off; with
    aggressive mode on it is at least [AGGRESSIVE]; a string that names no
    level gives [STANDARD] (lifted to [AGGRESSIVE] by aggressive mode); and
    an object created in aggressive mode has deep packet inspection on
    unless the settings override that flag. *)
Theorem init_level_never_below_request
        (aggressive : bool) (settings : gmap string bool) :
  (forall l, level_of_value (level_value l) = Some l) /\
  (forall s l, level_of_value s = Some l -> s = level_value l) /\
  (forall l0 arg,
     arg = ByEnum l0 \/ arg = ByName (level_value l0) ->
     (level_rank l0 <= level_rank (init_level aggressive arg))%nat /\
     (aggressive = false -> init_level aggressive arg = l0) /\
     (aggressive = true -> (2 <= level_rank (init_level aggressive arg))%nat)) /\
  (forall s, level_of_value s = None ->
             init_level aggressive (ByName s)
             = if aggressive then AGGRESSIVE else STANDARD) /\
  (forall arg, aggressive = true ->
               settings !! "deep_packet_inspection" = None ->
               enable_deep_packet_inspection (init_flags aggressive arg settings)
               = true).
Proof.
  split; [exact level_of_value_round_trip |].
  split; [exact level_of_value_inv |].
  split; [| split].
  - intros l0 arg [-> | ->]; unfold init_level;
      rewrite ?level_of_value_round_trip;
      destruct aggressive, l0; cbn; repeat split; try lia; try reflexivity;
      discriminate.
  - intros s Hs. unfold init_level. rewrite Hs. by destruct aggressive.
  - intros arg -> Hnone. unfold init_flags, _set_feature_flags.
    cbn [enable_deep_packet_inspection]. rewrite Hnone. cbn.
    unfold init_level.
    destruct arg as [s | l]; [destruct (level_of_value s) as [l |] |];
      try destruct l; reflexivity.
Qed.

(** The theorem for an object created with the name ["light"] in
    aggressive mode and no overrides. *)
Lemma init_level_light_aggressive :
  init_level true (ByName "light") = AGGRESSIVE /\
  enable_deep_packet_inspection (init_flags true (ByName "light") ∅) = true.
Proof.
  pose proof (init_level_never_below_request true ∅) as (_ & _ & _ & _ & H).
  split; [reflexivity |].
  apply H; reflexivity.
Defined.

(** ** The interface choice *)

Lemma first_connected_in connect_ok n items i :
  first_connected connect_ok n items = Some i ->
  exists d, In (i, d) items /\ is_wireless d = true /\ has_ip d = true.
Proof.
  revert n. induction items as [| [name d] rest IH]; intros n; cbn.
  - discriminate.
  - destruct (is_wireless d && has_ip d) eqn:E.
    + apply andb_true_iff in E as [Hw Hip].
      destruct (connect_ok n).
      * intros [= <-]. exists d. auto.
      * intros H. destruct (IH _ H) as (d' & Hin & Hd'). exists d'. auto.
    + intros H. destruct (IH _ H) as (d' & Hin & Hd'). exists d'. auto.
Qed.

Lemma first_connected_offline connect_ok n items :
  (forall k, connect_ok k = false) ->
  first_connected connect_ok n items = None.
Proof.
  intros Hoff. revert n. induction items as [| [name d] rest IH]; intros n; cbn.
  - reflexivity.
  - rewrite Hoff. destruct (is_wireless d && has_ip d); apply IH.
Qed.

Lemma first_connected_online connect_ok n items :
  (forall k, connect_ok k = true) ->
  first_connected connect_ok n items
  = fst <$> List.find (fun '(_, d) => is_wireless d && has_ip d) items.
Proof.
  intros Hon. revert n. induction items as [| [name d] rest IH]; intros n; cbn.
  - reflexivity.
  - rewrite Hon. destruct (is_wireless d && has_ip d); [reflexivity | apply IH].
Qed.

Lemma find_has_ip_in (items : list (string * iface_details)) i d :
  List.find (fun '(_, d) => has_ip d) items = Some (i, d) ->
  In (i, d) items /\ has_ip d = true.
Proof.
  intros H. apply find_some in H. exact H.
Qed.

(** X4.  The interface a booster picks from a dict of interfaces: there is
    none exactly when the dict is empty; the one picked is a key of the
    dict; it has an address whenever some interface has one; when every
    connectivity test fails it is the first interface with an address, or
    the first interface at all when none has an address; and when the
    tests succeed a wireless interface with an address is preferred over
    an earlier wired one. *)
Theorem active_interface_is_a_known_interface
        (connect_ok : nat -> bool) (items : list (string * iface_details)) :
  let r := _get_active_interface connect_ok (IfDict items) in
  (r = None <-> items = []) /\
  (forall i, r = Some i -> In i (map fst items)) /\
  (forall i, r = Some i ->
             (exists j d, In (j, d) items /\ has_ip d = true) ->
             exists d, In (i, d) items /\ has_ip d = true) /\
  ((forall k, connect_ok k = false) ->
   r = match List.find (fun '(_, d) => has_ip d) items with
       | Some (i, _) => Some i
       | None => fst <$> head items
       end) /\
  ((forall k, connect_ok k = true) ->
   forall i d, List.find (fun '(_, d) => is_wireless d && has_ip d) items
               = Some (i, d) ->
               r = Some i).
Proof.
  cbv zeta. unfold _get_active_interface.
  destruct items as [| [first d0] rest].
  { repeat split; try discriminate; try reflexivity. }
  set (items := (first, d0) :: rest).
  split; [| split; [| split; [| split]]].
  - split; [| discriminate].
    destruct (first_connected connect_ok 0 items); [discriminate |].
    destruct (List.find _ items) as [[i d] |]; discriminate.
  - intros i.
    destruct (first_connected connect_ok 0 items) as [c |] eqn:Ec.
    + intros [= <-]. destruct (first_connected_in _ _ _ _ Ec) as (d & Hin & _).
      apply (in_map fst) in Hin. exact Hin.
    + destruct (List.find _ items) as [[j d] |] eqn:Ef.
      * intros [= <-]. apply find_has_ip_in in Ef as [Hin _].
        apply (in_map fst) in Hin. exact Hin.
      * intros [= <-]. left. reflexivity.
  - intros i Hr (j & d & Hin & Hip).
    destruct (first_connected connect_ok 0 items) as [c |] eqn:Ec.
    + injection Hr as <-.
      destruct (first_connected_in _ _ _ _ Ec) as (d' & Hin' & _ & Hip').
      exists d'. auto.
    + destruct (List.find _ items) as [[j' d'] |] eqn:Ef.
      * injection Hr as <-. apply find_has_ip_in in Ef. exists d'. exact Ef.
      * exfalso.
        pose proof (find_none _ _ Ef (j, d) Hin) as Hno. cbn in Hno. congruence.
  - intros Hoff. rewrite (first_connected_offline _ _ _ Hoff).
    destruct (List.find _ items) as [[j d] |]; reflexivity.
  - intros Hon i d Hf. rewrite (first_connected_online _ _ _ Hon), Hf.
    reflexivity.
Qed.

(** Two interfaces, the wired one first; the connectivity test succeeds. *)
Definition wired_then_wireless : list (string * iface_details) :=
  [ ("eth0", mk_iface false (Some "192.168.1.10"));
    ("wlan0", mk_iface true (Some "192.168.1.11")) ].

Lemma active_interface_prefers_wireless :
  _get_active_interface (fun _ => true) (IfDict wired_then_wireless)
  = Some "wlan0" /\
  _get_active_interface (fun _ => false) (IfDict wired_then_wireless)
  = Some "eth0".
Proof.
  pose proof (active_interface_is_a_known_interface
                (fun _ => true) wired_then_wireless) as (_ & _ & _ & _ & Hon).
  pose proof (active_interface_is_a_known_interface
                (fun _ => false) wired_then_wireless) as (_ & _ & _ & Hoff & _).
  split.
  - apply (Hon (fun _ => eq_refl) "wlan0" (mk_iface true (Some "192.168.1.11"))).
    reflexivity.
  - rewrite (Hoff (fun _ => eq_refl)). reflexivity.
Defined.

(** ** The measuring helpers *)

Lemma Qlt_bool_true (a b : Q) : Qlt_bool a b = true -> (a < b)%Q.
Proof.
  unfold Qlt_bool. intros H. apply negb_true_iff in H.
  apply Qnot_le_lt. intros Hle. apply Qle_bool_iff in Hle. congruence.
Qed.

Lemma Qmax_half_pos (x : Q) : (0 < Qmax (1 # 2) x)%Q.
Proof.
  apply Qlt_le_trans with (1 # 2)%Q; [reflexivity | apply Q.le_max_l].
Qed.

Lemma measure_current_speed_pos (env : round_env) (st : SignalBooster) :
  (0 < _measure_current_speed env st)%Q.
Proof.
  unfold _measure_current_speed.
  destruct (bandwidth_download env) as [d |]; [| reflexivity].
  destruct (Qlt_bool 0 d) eqn:E; [by apply Qlt_bool_true |].
  destruct (Qlt_bool 0 (current_speed st)); [apply Qmax_half_pos | reflexivity].
Qed.

(** X5.  No measuring helper reports a value at or below zero, whatever
    the platform calls return or raise: the download speed, the upload
    speed and the latency are strictly positive; a speed that had to be
    estimated is at least 0.5 Mbps; the signal is never negative, and it
    is at most 100 whenever the platform's reading is. *)
Theorem measurements_are_positive
        (env : round_env) (upload avg : option Q) (variation : Q)
        (st : SignalBooster) :
  (0 < _measure_current_speed env st)%Q /\
  (0 < _measure_upload_speed upload variation st)%Q /\
  (0 < _measure_latency avg)%Q /\
  (forall d, bandwidth_download env = Some d -> ~ (0 < d)%Q ->
             (1 # 2 <= _measure_current_speed env st)%Q) /\
  (forall u, upload = Some u -> ~ (0 < u)%Q ->
             (1 # 2 <= _measure_upload_speed upload variation st)%Q) /\
  0 <= _measure_signal_strength env st /\
  ((forall s, wifi_signal env = Some s -> s <= 100) ->
   _measure_signal_strength env st <= 100).
Proof.
  repeat split.
  - apply measure_current_speed_pos.
  - unfold _measure_upload_speed.
    destruct upload as [u |]; [| reflexivity].
    destruct (Qlt_bool 0 u) eqn:E; [by apply Qlt_bool_true |].
    apply Qmax_half_pos.
  - unfold _measure_latency.
    destruct avg as [a |]; [| reflexivity].
    destruct (Qlt_bool 0 a) eqn:E; [by apply Qlt_bool_true | reflexivity].
  - intros d Hd Hneg. unfold _measure_current_speed. rewrite Hd.
    destruct (Qlt_bool 0 d) eqn:E; [apply Qlt_bool_true in E; contradiction |].
    destruct (Qlt_bool 0 (current_speed st)); [apply Q.le_max_l | discriminate].
  - intros u -> Hneg. unfold _measure_upload_speed.
    destruct (Qlt_bool 0 u) eqn:E; [apply Qlt_bool_true in E; contradiction |].
    apply Q.le_max_l.
  - unfold _measure_signal_strength.
    destruct (wifi_signal env) as [s |]; [| lia].
    destruct (Z.leb_spec 0 s); [lia |].
    destruct (0 <? current_signal st); lia.
  - intros Hread. unfold _measure_signal_strength.
    destruct (wifi_signal env) as [s |] eqn:E; [| lia].
    specialize (Hread s eq_refl).
    destruct (Z.leb_spec 0 s); [lia |].
    destruct (0 <? current_signal st); lia.
Qed.

End SessionProofs.

(* ===================================================================== *)
(** * The session life cycle: capture, start, metrics, stop *)
(* ===================================================================== *)
Module LifecycleProofs.
Import Config Core CoreProofs.

Local Open Scope string_scope.
Local Open Scope Z_scope.

(** X6.  [stop], the method the GUI calls, clears both flags before it
    delegates, so the delegate takes its "not running" exit: no visualizer
    stop, no restore command and no join happen, whatever the state; and a
    booster that was stopped by either method is left alone by any further
    [stop_boosting] (only a new start makes a stop effective again), with
    its baseline still stored. *)
Theorem gui_stop_runs_no_restore (env env' : stop_env) (st : SignalBooster) :
  stop env st = (set_flags false false st, []) /\
  stop_boosting env' (fst (stop env st)) = (fst (stop env st), []) /\
  stop_boosting env' (fst (stop_boosting env st))
  = (fst (stop_boosting env st), []) /\
  original_settings (fst (stop env st)) = original_settings st /\
  original_settings (fst (stop_boosting env st)) = original_settings st.
Proof.
  unfold stop, stop_boosting.
  destruct st as [o a r i b t ts tg cs cg lv].
  destruct a, r; cbn; repeat split; reflexivity.
Qed.

(** ** Capturing the Windows baseline, then restoring it *)

Lemma capture_autotuning (p : tcp_probe) am cm :
  netsh_global p = Some (am, cm) ->
  _get_windows_tcp_params p !! "autotuning" = SStr <$> am.
Proof.
  unfold _get_windows_tcp_params. intros ->.
  destruct am, cm, (reg_window_size p), (reg_retransmissions p), (reg_ttl p);
    by simplify_map_eq.
Qed.

Lemma capture_window_size (p : tcp_probe) am cm :
  netsh_global p = Some (am, cm) ->
  match reg_window_size p with
  | RegError => _get_windows_tcp_params p !! "window_size" = None
  | _ => is_Some (_get_windows_tcp_params p !! "window_size")
  end.
Proof.
  unfold _get_windows_tcp_params. intros ->.
  destruct am, cm, (reg_window_size p), (reg_retransmissions p), (reg_ttl p);
    simplify_map_eq; try done; by eexists.
Qed.

Lemma capture_nothing (p : tcp_probe) :
  netsh_global p = None -> _get_windows_tcp_params p = ∅.
Proof. unfold _get_windows_tcp_params. by intros ->. Qed.

(** X7.  What the Windows restore does with a baseline that
    [_get_windows_tcp_params] captured.  The auto-tuning level is put back
    first, with the captured value; but the command is only issued when the
    capture also got a [window_size]: if reading the registry value failed
    with an error other than "not found", or [netsh] itself failed, the
    captured auto-tuning level is never handed to any command.  When the
    [netsh] output had no auto-tuning line the restore sets the level to
    [normal]. *)
Theorem windows_restore_of_captured_baseline
        (p : tcp_probe) (power : gmap string bool) (sched : bool)
        (rules : list string) (env : stop_env) (iface : option string) :
  let s := mk_windows_settings (_get_windows_tcp_params p) power sched rules in
  let trace := restore_windows env iface s in
  (netsh_global p = None \/ reg_window_size p = RegError ->
   times_passed "autotuning" trace = 0%nat) /\
  (forall a cm,
     netsh_global p = Some (Some a, cm) -> reg_window_size p <> RegError ->
     head trace
     = Some (EvRun ["autotuning"] (netsh_tcp_global ("autotuninglevel=" ++ a)))) /\
  (forall cm,
     netsh_global p = Some (None, cm) -> reg_window_size p <> RegError ->
     head trace = Some (EvRun [] (netsh_tcp_global "autotuninglevel=normal"))).
Proof.
  cbv zeta. split; [| split].
  - intros Hfail. rewrite restore_windows_passed. cbn [tcp_params].
    apply Nat.le_0_r. etrans; [apply times_passed_le_carried |].
    rewrite windows_tcp_carried. cbn [bool_decide decide_rel].
    rewrite bool_decide_eq_true_2 by reflexivity.
    rewrite (bool_decide_eq_false_2 ("autotuning" = "congestion_provider"))
      by discriminate.
    destruct Hfail as [Hnone | Herr].
    + rewrite (capture_nothing p Hnone), lookup_empty. reflexivity.
    + destruct (netsh_global p) as [[am cm] |] eqn:E.
      * pose proof (capture_window_size p am cm E) as Hw.
        rewrite Herr in Hw. rewrite Hw. reflexivity.
      * rewrite (capture_nothing p E), lookup_empty. reflexivity.
  - intros a cm Hnetsh Hreg. unfold restore_windows. cbn [tcp_params].
    pose proof (capture_window_size p _ _ Hnetsh) as Hw.
    rewrite (capture_autotuning p _ _ Hnetsh). cbn [fmap option_fmap option_map].
    destruct (reg_window_size p); try contradiction;
      destruct Hw as [w ->]; reflexivity.
  - intros cm Hnetsh Hreg. unfold restore_windows. cbn [tcp_params].
    pose proof (capture_window_size p _ _ Hnetsh) as Hw.
    rewrite (capture_autotuning p _ _ Hnetsh). cbn [fmap option_fmap option_map].
    destruct (reg_window_size p); try contradiction;
      destruct Hw as [w ->]; reflexivity.
Qed.

(** A capture in which [netsh] answered but the registry read failed. *)
Definition registry_denied : tcp_probe :=
  mk_tcp_probe (Some (Some "disabled", Some "ctcp")) RegError RegError RegError.

Lemma windows_restore_after_registry_error :
  _get_windows_tcp_params registry_denied !! "autotuning" = Some (SStr "disabled") /\
  times_passed "autotuning"
    (restore_windows calm_world (Some "Wi-Fi")
       (mk_windows_settings (_get_windows_tcp_params registry_denied) ∅ true []))
  = 0%nat.
Proof.
  split; [vm_compute; reflexivity |].
  apply (windows_restore_of_captured_baseline registry_denied ∅ true []
           calm_world (Some "Wi-Fi")).
  right. reflexivity.
Defined.

(** ** Starting *)

(** X8.  [start_boosting] never starts a session.  On a booster that is
    already active, or that has no active interface, it returns and
    changes nothing.  Otherwise it raises: [_run_diagnostics] stores the
    measured speed (positive) and signal (not negative; 5.0 and 50 when
    both measurements raise) and then calls a function that
    [network_utils.py] does not define, before the flags are set and the
    monitor thread is created.  So whatever the call does, both flags, the
    thread, the baseline and the optimisation value are as before; and on
    an object that was idle, a [stop_boosting] after the start issues no
    restore command. *)
Theorem start_boosting_never_starts (env : round_env) (st : SignalBooster) :
  let st' := state_after (start_boosting env st) in
  (active st = true \/ active_interface st = None ->
   start_boosting env st = Returned st) /\
  (active st = false -> is_Some (active_interface st) ->
   start_boosting env st = Raised st' /\
   current_speed st' = _measure_current_speed env st /\
   current_signal st' = _measure_signal_strength env st /\
   (0 < current_speed st')%Q /\ 0 <= current_signal st' /\
   (bandwidth_download env = None -> wifi_signal env = None ->
    current_speed st' = 5%Q /\ current_signal st' = 50)) /\
  active st' = active st /\ is_running st' = is_running st /\
  has_monitor_thread st' = has_monitor_thread st /\
  original_settings st' = original_settings st /\
  optimization_level_value st' = optimization_level_value st /\
  (active st = false -> is_running st = false ->
   forall env', stop_boosting env' st' = (st', [])).
Proof.
  cbv zeta.
  assert (Hidle : active st = false -> forall i, active_interface st = Some i ->
            start_boosting env st
            = Raised (set_signal (_measure_signal_strength env st)
                        (set_speed (_measure_current_speed env st) st))).
  { intros Ha i Hi. unfold start_boosting. by rewrite Ha, Hi. }
  assert (Hsignal : 0 <= _measure_signal_strength env st).
  { unfold _measure_signal_strength.
    destruct (wifi_signal env) as [sg |]; [| lia].
    destruct (Z.leb_spec 0 sg); [lia |].
    destruct (0 <? current_signal st); lia. }
  split; [| split].
  - intros [Ha | Hi]; unfold start_boosting; [by rewrite Ha |].
    rewrite Hi. by destruct (active st).
  - intros Ha [i Hi]. rewrite (Hidle Ha i Hi). cbn [state_after].
    split; [reflexivity |]. split; [reflexivity |].
    split; [reflexivity |].
    split; [apply SessionProofs.measure_current_speed_pos |].
    split; [exact Hsignal |].
    intros Hb Hw. cbn. unfold _measure_current_speed, _measure_signal_strength.
    by rewrite Hb, Hw.
  - destruct (active st) eqn:Ha.
    { unfold start_boosting. rewrite Ha. cbn [state_after].
      repeat split; try reflexivity; try exact Ha. discriminate. }
    destruct (active_interface st) as [i |] eqn:Hi.
    + rewrite (Hidle eq_refl i eq_refl). cbn [state_after].
      repeat split; try reflexivity; try exact Ha.
      intros _ Hr env'. unfold stop_boosting. cbn. by rewrite Ha, Hr.
    + unfold start_boosting. rewrite Ha, Hi. cbn [state_after].
      repeat split; try reflexivity; try exact Ha.
      intros _ Hr env'. unfold stop_boosting. by rewrite Ha, Hr.
Qed.

(** The theorem on the idle sample booster: the start raises with 5 Mbps
    and 60% stored, and a stop after it restores nothing. *)
Lemma start_of_idle_booster_raises :
  start_boosting first_round idle_booster
  = Raised (set_signal 60 (set_speed 5 idle_booster)) /\
  active (state_after (start_boosting first_round idle_booster)) = false /\
  snd (stop_boosting calm_world
         (state_after (start_boosting first_round idle_booster))) = [].
Proof.
  pose proof (start_boosting_never_starts first_round idle_booster) as H.
  cbv zeta in H.
  destruct H as (_ & Hraise & Hactive & _ & _ & _ & _ & Hstop).
  destruct (Hraise eq_refl (ex_intro _ "Wi-Fi" eq_refl)) as [Hr _].
  split; [rewrite Hr; reflexivity |].
  split; [exact Hactive |].
  by rewrite (Hstop eq_refl eq_refl calm_world).
Defined.

(** ** The metrics the GUI polls *)

(** X9.  [get_current_metrics] reports what the object holds after the
    call: the signal, the speed and the optimisation level in the result
    are the attributes just stored; the target speed and the baseline are
    untouched; the latency reported is positive.  On a booster that is not
    running the call measures nothing and changes nothing: it reports the
    stored values, 15% of the stored speed as upload, and 50 ms. *)
Theorem metrics_report_what_is_stored (env : metrics_env) (st : SignalBooster) :
  let m := fst (get_current_metrics env st) in
  let st' := snd (get_current_metrics env st) in
  m_signal_strength m = current_signal st' /\
  m_current_speed m = current_speed st' /\
  m_optimization_level m = optimization_level_value st' /\
  m_target_speed m = target_speed st /\
  target_speed st' = target_speed st /\
  original_settings st' = original_settings st /\
  is_running st' = is_running st /\
  (0 < m_latency m)%Q /\
  (is_running st = false ->
   st' = st /\ m_latency m = 50%Q /\
   m_upload_speed m = (current_speed st * (15 # 100))%Q).
Proof.
  cbv zeta. unfold get_current_metrics, bump_level.
  destruct st as [o a r i b t ts tg cs cg lv].
  destruct r; cbn [is_running set_level_value andb optimization_level_value].
  - destruct (Qeq_bool lv 0); cbn [is_running set_level_value];
      destruct (metric_signal env) as [sg |];
      try destruct (0 <? sg);
      destruct (metric_bandwidth env) as [[download up] |];
      try destruct (Qlt_bool 0 download);
      cbn; repeat split; try discriminate;
      (destruct (metric_latency env) as [avg |]; [| reflexivity];
       destruct (Qlt_bool 0 avg) eqn:E;
       [by apply SessionProofs.Qlt_bool_true | reflexivity]).
  - rewrite andb_false_r. cbn. repeat split.
Qed.

(** The theorem on the idle sample booster. *)
Lemma metrics_of_idle_booster :
  snd (get_current_metrics (mk_metrics_env (1 # 2) (Some 70) None None)
                           idle_booster) = idle_booster /\
  m_latency (fst (get_current_metrics (mk_metrics_env (1 # 2) (Some 70) None None)
                                      idle_booster)) = 50%Q.
Proof.
  pose proof (metrics_report_what_is_stored
                (mk_metrics_env (1 # 2) (Some 70) None None) idle_booster) as H.
  cbv zeta in H.
  destruct H as (_ & _ & _ & _ & _ & _ & _ & _ & Hidle).
  destruct (Hidle eq_refl) as (Hst & Hlat & _).
  split; [exact Hst | exact Hlat].
Defined.

End LifecycleProofs.

(* ===================================================================== *)
(** * Properties of override merging and of resolving then applying *)
(* ===================================================================== *)
Module MergeProofs.
Import Config.

Local Open Scope string_scope.
Local Open Scope Z_scope.

(** What one override entry stores under its key. *)
Definition merged_entry (old : option value) (v : value) : value :=
  match old, v with
  | Some (VDict b), VDict _ => VDict (_merge_configs v b)
  | _, _ => v
  end.

Definition merge_step (base_config : dict) (item : string * value) : dict :=
  dict_set (fst item) (merged_entry (dict_get (fst item) base_config) (snd item))
           base_config.

Lemma merge_configs_fold (items : list (string * value)) (base_config : dict) :
  _merge_configs (VDict items) base_config = fold_left merge_step items base_config.
Proof.
  revert base_config. induction items as [| [key v] rest IH]; intros base_config.
  - reflexivity.
  - cbn [fold_left]. rewrite <- IH. unfold merge_step, merged_entry. cbn [fst snd].
    change (_merge_configs (VDict ((key, v) :: rest)) base_config)
      with (_merge_configs (VDict rest)
              match dict_get key base_config, v with
              | Some (VDict b), VDict _ =>
                  dict_set key (VDict (_merge_configs v b)) base_config
              | _, _ => dict_set key v base_config
              end).
    destruct (dict_get key base_config) as [[| | | | | b] |], v; reflexivity.
Qed.

Lemma dict_get_set_same key v d : dict_get key (dict_set key v d) = Some v.
Proof.
  induction d as [| [k w] rest IH]; cbn.
  - by rewrite String.eqb_refl.
  - destruct (String.eqb k key) eqn:E; cbn; rewrite E; [reflexivity | exact IH].
Qed.

Lemma dict_get_set_other key key' v d :
  key <> key' -> dict_get key' (dict_set key v d) = dict_get key' d.
Proof.
  intros Hne. induction d as [| [k w] rest IH]; cbn.
  - destruct (String.eqb_spec key key'); [contradiction | reflexivity].
  - destruct (String.eqb_spec k key) as [-> | Hk]; cbn.
    + destruct (String.eqb_spec key key'); [contradiction | reflexivity].
    + destruct (String.eqb k key'); [reflexivity | exact IH].
Qed.

Lemma dict_set_keys key v d :
  map fst (dict_set key v d)
  = if has_key key d then map fst d else (map fst d ++ [key])%list.
Proof.
  unfold has_key. induction d as [| [k w] rest IH]; cbn; [reflexivity |].
  destruct (String.eqb k key); cbn; [reflexivity |].
  rewrite IH. by destruct (dict_get key rest).
Qed.

Lemma fold_merge_frame items base_config key :
  ~ In key (map fst items) ->
  dict_get key (fold_left merge_step items base_config) = dict_get key base_config.
Proof.
  revert base_config. induction items as [| [k v] rest IH]; intros base_config Hk.
  - reflexivity.
  - cbn [fold_left]. rewrite IH by (cbn in Hk; tauto).
    unfold merge_step. cbn [fst snd]. apply dict_get_set_other.
    cbn in Hk. tauto.
Qed.

Lemma fold_merge_lookup items base_config key v :
  NoDup (map fst items) -> In (key, v) items ->
  dict_get key (fold_left merge_step items base_config)
  = Some (merged_entry (dict_get key base_config) v).
Proof.
  revert base_config. induction items as [| [k w] rest IH];
    intros base_config Hnd Hin; [destruct Hin |].
  cbn [map fst] in Hnd. apply NoDup_cons in Hnd as [Hk Hnd].
  cbn [fold_left]. destruct Hin as [[= -> ->] | Hin].
  - rewrite fold_merge_frame by (by rewrite <- list_elem_of_In).
    unfold merge_step. cbn [fst snd]. apply dict_get_set_same.
  - rewrite (IH _ Hnd Hin). f_equal. f_equal.
    unfold merge_step. cbn [fst snd]. apply dict_get_set_other.
    intros ->. apply Hk. apply list_elem_of_In.
    apply (in_map fst) in Hin. exact Hin.
Qed.

Lemma fold_merge_keeps_keys items base_config key :
  has_key key base_config = true ->
  has_key key (fold_left merge_step items base_config) = true.
Proof.
  revert base_config. induction items as [| [k w] rest IH];
    intros base_config Hk; [exact Hk |].
  cbn [fold_left]. apply IH. unfold has_key, merge_step. cbn [fst snd].
  destruct (String.eqb_spec k key) as [-> | Hne].
  - by rewrite dict_get_set_same.
  - rewrite dict_get_set_other by exact Hne. exact Hk.
Qed.

(** X10.  Looking up a key after [_merge_configs(base, override)], for an
    override whose keys are distinct (as those of a dict are).  A key the
    override does not mention reads as before.  A key it mentions reads as
    the override's value, except that where both sides hold a dict the two
    are merged recursively; so a plain value always wins over the base,
    and a dict replaces a plain value.  No key of the base is lost. *)
Theorem merge_lookup (items : list (string * value)) (base_config : dict) :
  NoDup (map fst items) ->
  let merged := _merge_configs (VDict items) base_config in
  (forall key, ~ In key (map fst items) ->
               dict_get key merged = dict_get key base_config) /\
  (forall key v, In (key, v) items ->
     dict_get key merged
     = Some (match dict_get key base_config, v with
             | Some (VDict b), VDict _ => VDict (_merge_configs v b)
             | _, _ => v
             end)) /\
  (forall key, has_key key base_config = true -> has_key key merged = true).
Proof.
  intros Hnd. cbv zeta. rewrite merge_configs_fold. split; [| split].
  - intros key Hk. by apply fold_merge_frame.
  - intros key v Hin. by apply fold_merge_lookup.
  - intros key Hk. by apply fold_merge_keeps_keys.
Qed.

(** The theorem for an override that sets one TCP parameter and adds one,
    on the standard TCP table. *)
Lemma merge_lookup_standard_tcp :
  let base := [ ("tcp_window_size", VInt 131072);
                ("max_syn_backlog", VInt 4096);
                ("congestion_algorithm", VStr "cubic") ] in
  let override := [ ("tcp_window_size", VInt 1); ("ecn", VBool true) ] in
  dict_get "tcp_window_size" (_merge_configs (VDict override) base)
  = Some (VInt 1) /\
  dict_get "max_syn_backlog" (_merge_configs (VDict override) base)
  = Some (VInt 4096).
Proof.
  cbv zeta.
  assert (Hnd : NoDup (map fst [ ("tcp_window_size", VInt 1); ("ecn", VBool true) ])).
  { apply NoDup_ListNoDup. repeat constructor; cbn; intuition discriminate. }
  pose proof (merge_lookup _ [ ("tcp_window_size", VInt 131072);
                               ("max_syn_backlog", VInt 4096);
                               ("congestion_algorithm", VStr "cubic") ] Hnd) as H.
  cbv zeta in H. destruct H as (Hframe & Hset & _).
  split.
  - rewrite (Hset "tcp_window_size" (VInt 1)); [reflexivity | left; reflexivity].
  - rewrite Hframe; [reflexivity |]. cbn. intuition discriminate.
Defined.

(** ** Merging twice *)

(** The keys of a dict are distinct, at every depth. *)
Fixpoint unique_keys (v : value) : bool :=
  match v with
  | VDict items =>
      bool_decide (NoDup (map fst items))
      && (fix all (items : list (string * value)) : bool :=
            match items with
            | [] => true
            | (_, w) :: rest => unique_keys w && all rest
            end) items
  | _ => true
  end.

Lemma unique_keys_dict items :
  unique_keys (VDict items) = true ->
  NoDup (map fst items) /\ Forall (fun kv => unique_keys (snd kv) = true) items.
Proof.
  cbn [unique_keys]. intros H. apply andb_true_iff in H as [Hnd Hall].
  split; [by apply bool_decide_eq_true_1 in Hnd |].
  clear Hnd. induction items as [| [k w] rest IH]; [constructor |].
  apply andb_true_iff in Hall as [Hw Hrest].
  constructor; [exact Hw | by apply IH].
Qed.

(** Induction on a value through the entries of its dicts. *)
Lemma value_dict_ind (P : value -> Prop) :
  P VNone -> (forall b, P (VBool b)) -> (forall n, P (VInt n)) ->
  (forall s, P (VStr s)) -> (forall l, P (VList l)) ->
  (forall items, Forall (fun kv => P (snd kv)) items -> P (VDict items)) ->
  forall v, P v.
Proof.
  intros HN HB HI HS HL HD.
  fix IH 1.
  intros [| b | n | s | l | items];
    [apply HN | apply HB | apply HI | apply HS | apply HL |].
  apply HD. induction items as [| [k w] rest IHitems]; constructor.
  - apply IH.
  - exact IHitems.
Qed.

Lemma dict_set_id key v d : dict_get key d = Some v -> dict_set key v d = d.
Proof.
  induction d as [| [k w] rest IH]; cbn; [discriminate |].
  destruct (String.eqb_spec k key) as [-> | Hne].
  - by intros [= ->].
  - intros H. by rewrite IH.
Qed.

Lemma dict_get_in (d : dict) key v :
  NoDup (map fst d) -> In (key, v) d -> dict_get key d = Some v.
Proof.
  induction d as [| [k w] rest IH]; intros Hnd Hin; [destruct Hin |].
  cbn [map fst] in Hnd. apply NoDup_cons in Hnd as [Hk Hnd]. cbn.
  destruct Hin as [[= -> ->] | Hin].
  - by rewrite String.eqb_refl.
  - destruct (String.eqb_spec k key) as [-> | Hne]; [| by apply IH].
    exfalso. apply Hk. apply list_elem_of_In.
    apply (in_map fst) in Hin. exact Hin.
Qed.

(** A pass in which every entry finds its own result already stored
    changes nothing. *)
Lemma fold_merge_fixed items base_config :
  (forall key v, In (key, v) items ->
     exists w, dict_get key base_config = Some w /\
               merged_entry (Some w) v = w) ->
  fold_left merge_step items base_config = base_config.
Proof.
  induction items as [| [k v] rest IH]; intros Hfix; [reflexivity |].
  cbn [fold_left].
  destruct (Hfix k v (or_introl eq_refl)) as (w & Hget & Hw).
  assert (merge_step base_config (k, v) = base_config) as ->.
  { unfold merge_step. cbn [fst snd]. rewrite Hget, Hw. by apply dict_set_id. }
  apply IH. intros key v' Hin. apply Hfix. by right.
Qed.

Lemma merge_stable (v : value) :
  unique_keys v = true ->
  (forall base_config,
     _merge_configs v (_merge_configs v base_config)
     = _merge_configs v base_config) /\
  (forall items, v = VDict items -> _merge_configs v items = items).
Proof.
  induction v as [| b | n | s | l | items IH] using value_dict_ind;
    intros Huniq; try (split; [reflexivity | discriminate]).
  apply unique_keys_dict in Huniq as [Hnd Hall].
  assert (Hentry : forall key v, In (key, v) items ->
            forall old, let w := merged_entry old v in
                        merged_entry (Some w) v = w).
  { intros key v Hin old. cbv zeta.
    rewrite Forall_forall in IH, Hall.
    specialize (IH (key, v) ltac:(by apply list_elem_of_In)).
    specialize (Hall (key, v) ltac:(by apply list_elem_of_In)).
    cbn [snd] in IH, Hall. destruct (IH Hall) as [Hidem Hself].
    unfold merged_entry.
    destruct v as [| | | | | its]; try by destruct old as [[] |].
    destruct old as [[| | | | | b] |]; cbv beta iota;
      try (by rewrite (Hself its eq_refl)).
    by rewrite Hidem. }
  split.
  - intros base_config. rewrite !merge_configs_fold.
    apply fold_merge_fixed. intros key v Hin.
    eexists. split; [by apply fold_merge_lookup |].
    by apply (Hentry key).
  - intros its [= <-]. rewrite merge_configs_fold.
    apply fold_merge_fixed. intros key v Hin.
    exists v. split; [by apply dict_get_in |].
    pose proof (Hentry key v Hin None) as H. cbv zeta in H.
    replace (merged_entry None v) with v in H by (by destruct v).
    exact H.
Qed.

(** X11.  Merging the same override a second time changes nothing: for an
    override whose dicts have distinct keys at every depth, the base after
    two merges is the base after one.  Merging a
    dict into a copy of itself leaves it unchanged as well. *)
Theorem merge_twice_is_merge_once
        (override_config : value) (base_config : dict) :
  unique_keys override_config = true ->
  _merge_configs override_config (_merge_configs override_config base_config)
  = _merge_configs override_config base_config /\
  (forall items, override_config = VDict items ->
                 _merge_configs override_config items = items).
Proof.
  intros Huniq. destruct (merge_stable override_config Huniq) as [H1 H2].
  split; [apply H1 | exact H2].
Qed.

(** The theorem for a nested override on the default tables. *)
Lemma merge_twice_on_default_tables :
  let override :=
    VDict [ ("tcp", VDict [ ("standard", VDict [ ("tcp_window_size", VInt 1) ]) ]);
            ("note", VStr "lab") ] in
  _merge_configs override (_merge_configs override _load_default_configs)
  = _merge_configs override _load_default_configs.
Proof.
  cbv zeta.
  assert (Huniq : unique_keys
            (VDict [ ("tcp", VDict [ ("standard",
                                      VDict [ ("tcp_window_size", VInt 1) ]) ]);
                     ("note", VStr "lab") ]) = true)
    by (vm_compute; reflexivity).
  destruct (merge_twice_is_merge_once _ _load_default_configs Huniq) as [H _].
  exact H.
Defined.

(** ** Resolving, then applying *)

(** X12.  On a manager with the default tables and no custom file, for
    every level and every connection type: resolution leaves the manager
    as it was and returns the five parameter groups (and the
    connection-specific group unless the type is unknown); applying that
    configuration reports success with no failure, the steps being the
    platform's TCP and WiFi steps followed by the DNS step, or the DNS
    step alone on a platform that is none of the three. *)
Theorem resolve_then_apply_succeeds
        (level : OptimizationLevel) (connection_type : ConnectionType)
        (os : os_type) (admin : bool) :
  let self := init [] os admin in
  let res := fst (get_config_for_level self (level_value level)
                                       (connection_value connection_type)) in
  let self' := snd (get_config_for_level self (level_value level)
                                         (connection_value connection_type)) in
  self' = self /\
  map fst res
  = (param_groups
       ++ match connection_type with
          | UNKNOWN => []
          | _ => ["connection_specific"]
          end)%list /\
  exists r, apply_optimizations self' (view self' res) = Some r /\
            success r = true /\ failed r = [] /\
            applied r
            = match platform_names os with
              | Some (p, _) => [p ++ "_tcp"; p ++ "_wifi"; "dns_servers"]
              | None => ["dns_servers"]
              end.
Proof.
  cbv zeta.
  destruct level, connection_type, os, admin;
    (split; [reflexivity |]); (split; [reflexivity |]);
    eexists; (split; [vm_compute; reflexivity |]);
    repeat split; reflexivity.
Qed.

Lemma unknown_level_has_no_table (s : string) (t : dict) :
  String.eqb s "light" = false -> String.eqb s "standard" = false ->
  String.eqb s "aggressive" = false -> String.eqb s "extreme" = false ->
  In t [tcp_params; wifi_params; dns_params; qos_params; buffer_params] ->
  has_key s t = false.
Proof.
  intros H1 H2 H3 H4 Hin.
  rewrite String.eqb_sym in H1, H2, H3, H4.
  unfold has_key.
  destruct Hin as [<- | [<- | [<- | [<- | [<- | []]]]]];
    cbn [dict_get tcp_params wifi_params dns_params qos_params buffer_params];
    by rewrite H1, H2, H3, H4.
Qed.

(** X13.  A level name that is none of the four resolves (on the default
    tables, without a custom file) to a configuration with none of the
    five parameter groups; applying it runs no step and reports
    [success = False] with empty [applied] and [failed] lists. *)
Theorem unknown_level_applies_nothing
        (level_str conn_type_str : string) (os : os_type) (admin : bool) :
  String.eqb level_str "light" = false ->
  String.eqb level_str "standard" = false ->
  String.eqb level_str "aggressive" = false ->
  String.eqb level_str "extreme" = false ->
  let self := init [] os admin in
  let res := fst (get_config_for_level self level_str conn_type_str) in
  let self' := snd (get_config_for_level self level_str conn_type_str) in
  (forall group, In group param_groups -> result_get group res = None) /\
  apply_optimizations self' (view self' res)
  = Some {| success := false; applied := []; failed := [];
            messages := if admin then [] else [MsgAdminWarning] |}.
Proof.
  intros H1 H2 H3 H4. cbv zeta.
  assert (Hno : forall t,
            In t [tcp_params; wifi_params; dns_params; qos_params; buffer_params] ->
            has_key level_str t = false)
    by (intros t; by apply unknown_level_has_no_table).
  assert (Hentries : level_entries _load_default_configs level_str = []).
  { unfold level_entries, param_groups. cbn [fold_left].
    change (dict_get "tcp" _load_default_configs) with (Some (VDict tcp_params)).
    change (dict_get "wifi" _load_default_configs) with (Some (VDict wifi_params)).
    change (dict_get "dns" _load_default_configs) with (Some (VDict dns_params)).
    change (dict_get "qos" _load_default_configs) with (Some (VDict qos_params)).
    change (dict_get "buffer" _load_default_configs)
      with (Some (VDict buffer_params)).
    cbv beta iota.
    rewrite (Hno tcp_params), (Hno wifi_params), (Hno dns_params),
      (Hno qos_params), (Hno buffer_params) by (cbn [In]; auto 10).
    reflexivity. }
  unfold get_config_for_level, init. cbn [configs custom_configs].
  rewrite Hentries.
  change (dict_get "connection_specific" _load_default_configs)
    with (Some (VDict connection_specific)).
  cbv beta iota.
  destruct (has_key conn_type_str connection_specific) eqn:Hc; cbn [fst snd].
  - split.
    + intros group Hin. unfold param_groups in Hin.
      destruct Hin as [<- | [<- | [<- | [<- | [<- | []]]]]]; reflexivity.
    + unfold view. cbn [omap list_omap result_set deref configs].
      destruct (table_get _ _ _) as [v |];
        destruct os, admin; reflexivity.
  - split.
    + intros group Hin. reflexivity.
    + destruct os, admin; reflexivity.
Qed.

(** The theorem for the name ["turbo"] on Linux. *)
Lemma unknown_level_turbo :
  apply_optimizations
    (snd (get_config_for_level (init [] Linux true) "turbo" "wifi_2ghz"))
    (view (snd (get_config_for_level (init [] Linux true) "turbo" "wifi_2ghz"))
          (fst (get_config_for_level (init [] Linux true) "turbo" "wifi_2ghz")))
  = Some {| success := false; applied := []; failed := []; messages := [] |}.
Proof.
  pose proof (unknown_level_applies_nothing "turbo" "wifi_2ghz" Linux true
                eq_refl eq_refl eq_refl eq_refl) as H.
  cbv zeta in H. destruct H as [_ H]. exact H.
Defined.

End MergeProofs.

(* ===================================================================== *)
(** * Properties of the diagnostic helpers *)
(* ===================================================================== *)
Module SimulatedProofs.
Import Simulated.

Local Open Scope string_scope.
Local Open Scope Z_scope.

Lemma response_times_lookup (hash : string -> Z) (l : list string)
      (acc : gmap string Z) (ns : string) :
  foldl (fun results ns => <[ns := 20 + hash ns `mod` 40]> results) acc l !! ns
  = if bool_decide (ns ∈ l) then Some (20 + hash ns `mod` 40) else acc !! ns.
Proof.
  revert acc. induction l as [| x l IH]; intros acc; cbn [foldl].
  - rewrite bool_decide_eq_false_2 by apply not_elem_of_nil. reflexivity.
  - rewrite IH. destruct (decide (ns = x)) as [-> | Hne].
    + rewrite (bool_decide_eq_true_2 (x ∈ x :: l)) by apply list_elem_of_here.
      destruct (bool_decide (x ∈ l)); [reflexivity | apply lookup_insert_eq].
    + rewrite lookup_insert_ne by congruence.
      destruct (bool_decide_reflect (ns ∈ l)) as [Hin | Hnin].
      * rewrite (bool_decide_eq_true_2 (ns ∈ x :: l))
          by (by apply list_elem_of_further).
        reflexivity.
      * rewrite (bool_decide_eq_false_2 (ns ∈ x :: l)); [reflexivity |].
        intros Hin. apply elem_of_cons in Hin as [? | ?]; contradiction.
Qed.

(** X14.  [check_dns_response_times] answers for exactly the nameservers
    it was given (the four well-known ones when none are given, nobody
    when the list is empty), and every time it reports is an integer from
    20 to 59, whatever the hash of the name. *)
Theorem dns_response_times_range (hash : string -> Z)
        (nameservers : option (list string)) :
  let asked := match nameservers with
               | None => default_nameservers
               | Some l => l
               end in
  let results := check_dns_response_times hash nameservers in
  (forall ns, is_Some (results !! ns) <-> ns ∈ asked) /\
  (forall ns t, results !! ns = Some t ->
                t = 20 + hash ns `mod` 40 /\ 20 <= t <= 59) /\
  (nameservers = Some [] -> results = ∅).
Proof.
  cbv zeta. unfold check_dns_response_times.
  set (asked := match nameservers with
                | None => default_nameservers
                | Some l => l
                end).
  split; [| split].
  - intros ns. rewrite response_times_lookup, lookup_empty.
    destruct (bool_decide_reflect (ns ∈ asked)) as [Hin | Hnin].
    + split; [done | by eexists].
    + split; [by intros [? ?] | done].
  - intros ns t. rewrite response_times_lookup, lookup_empty.
    destruct (bool_decide (ns ∈ asked)); [| discriminate].
    intros [= <-]. split; [reflexivity |].
    pose proof (Z.mod_pos_bound (hash ns) 40 ltac:(lia)). lia.
  - intros ->. reflexivity.
Qed.

(** ** The spectrum *)

Lemma py_min_by_spec (key : Z -> option Z) (rest : list Z) (best : Z * Z) :
  (forall x, In x rest -> is_Some (key x)) ->
  key (fst best) = Some (snd best) ->
  exists b kb,
    py_min_by key best rest = Some b /\ key b = Some kb /\
    In b (fst best :: rest) /\ kb <= snd best /\
    (forall x kx, In x rest -> key x = Some kx -> kb <= kx).
Proof.
  revert best. induction rest as [| x rest IH]; intros [b0 k0] Hall Hbest;
    cbn [py_min_by fst snd] in *.
  - exists b0, k0. split; [done |]. split; [done |]. split; [by left |].
    split; [lia |]. intros x kx [].
  - destruct (Hall x (or_introl eq_refl)) as [kx Hkx]. rewrite Hkx.
    assert (Hall' : forall y, In y rest -> is_Some (key y))
      by (intros y Hy; apply Hall; by right).
    destruct (Z.ltb_spec kx k0) as [Hlt | Hge].
    + destruct (IH (x, kx) Hall' Hkx) as (b & kb & Hr & Hkb & Hin & Hle & Hmin).
      cbn [fst snd] in *.
      exists b, kb. split; [done |]. split; [done |]. split; [| split].
      * destruct Hin as [<- | Hin]; [right; by left | right; by right].
      * lia.
      * intros y ky [<- | Hy] Hky; [| by eapply Hmin].
        rewrite Hkx in Hky. injection Hky as <-. exact Hle.
    + destruct (IH (b0, k0) Hall' Hbest) as (b & kb & Hr & Hkb & Hin & Hle & Hmin).
      cbn [fst snd] in *.
      exists b, kb. split; [done |]. split; [done |]. split; [| split].
      * destruct Hin as [<- | Hin]; [by left | right; by right].
      * exact Hle.
      * intros y ky [<- | Hy] Hky; [| by eapply Hmin].
        rewrite Hkx in Hky. injection Hky as <-. lia.
Qed.

Lemma py_min_spec (key : Z -> option Z) (candidates : list Z) :
  candidates <> [] ->
  (forall x, In x candidates -> is_Some (key x)) ->
  exists b kb,
    py_min key candidates = Some b /\ key b = Some kb /\ In b candidates /\
    (forall x kx, In x candidates -> key x = Some kx -> kb <= kx).
Proof.
  destruct candidates as [| x rest]; [done |]. intros _ Hall.
  unfold py_min. destruct (Hall x (or_introl eq_refl)) as [kx Hkx].
  rewrite Hkx.
  destruct (py_min_by_spec key rest (x, kx)) as (b & kb & Hr & Hkb & Hin & Hle & Hmin);
    [intros y Hy; apply Hall; by right | exact Hkx |].
  cbn [fst snd] in *. exists b, kb.
  split; [done |]. split; [done |]. split; [done |].
  intros y ky [<- | Hy] Hky; [| by eapply Hmin].
  rewrite Hkx in Hky. injection Hky as <-. exact Hle.
Qed.

Definition band_2ghz : list Z := [1; 2; 3; 4; 5; 6; 7; 8; 9; 10; 11].

Definition band_5ghz : list Z :=
  [36; 40; 44; 48; 52; 56; 60; 64; 68; 72; 76; 80; 84; 88; 92; 96; 100; 104;
   108; 112; 116; 120; 124; 128; 132; 136; 140; 144; 148; 152; 156; 160; 164].

Lemma utilization_2ghz (hash : string -> Z) (x : Z) :
  In x band_2ghz ->
  utilization_of (spectrum_channels hash) x = Some (hash (pretty x) `mod` 80 + 10).
Proof.
  unfold band_2ghz. cbn [In]. intros H.
  repeat (destruct H as [<- | H]; [reflexivity |]). destruct H.
Qed.

Lemma utilization_5ghz (hash : string -> Z) (x : Z) :
  In x band_5ghz ->
  utilization_of (spectrum_channels hash) x = Some (hash (pretty x) `mod` 60 + 5).
Proof.
  unfold band_5ghz. cbn [In]. intros H.
  repeat (destruct H as [<- | H]; [reflexivity |]). destruct H.
Qed.

(** X15.  [analyze_wifi_spectrum] always returns: its table has the 11
    channels of the 2.4 GHz band with a utilisation from 10 to 89 and 33
    channels of the 5 GHz band (36 to 164 in steps of 4) with a
    utilisation from 5 to 64; and the best channel it names for each band
    is a channel of that band whose utilisation no other channel of the
    band undercuts. *)
Theorem wifi_spectrum_best_is_least (hash : string -> Z) :
  exists s,
    analyze_wifi_spectrum hash = Some s /\
    map fst (channels s) = (band_2ghz ++ band_5ghz)%list /\
    (forall x u, In x band_2ghz -> utilization_of (channels s) x = Some u ->
                 10 <= u <= 89) /\
    (forall x u, In x band_5ghz -> utilization_of (channels s) x = Some u ->
                 5 <= u <= 64) /\
    In (best_2ghz s) band_2ghz /\ In (best_5ghz s) band_5ghz /\
    (forall x u b, In x band_2ghz ->
                   utilization_of (channels s) x = Some u ->
                   utilization_of (channels s) (best_2ghz s) = Some b -> b <= u) /\
    (forall x u b, In x band_5ghz ->
                   utilization_of (channels s) x = Some u ->
                   utilization_of (channels s) (best_5ghz s) = Some b -> b <= u).
Proof.
  unfold analyze_wifi_spectrum.
  change (range_step 1 12 1) with band_2ghz.
  change (range_step 36 165 4) with band_5ghz.
  destruct (py_min_spec (utilization_of (spectrum_channels hash)) band_2ghz)
    as (b2 & k2 & Hr2 & Hk2 & Hin2 & Hmin2);
    [discriminate | intros x Hx; rewrite utilization_2ghz by done; by eexists |].
  destruct (py_min_spec (utilization_of (spectrum_channels hash)) band_5ghz)
    as (b5 & k5 & Hr5 & Hk5 & Hin5 & Hmin5);
    [discriminate | intros x Hx; rewrite utilization_5ghz by done; by eexists |].
  rewrite Hr2, Hr5. eexists. split; [reflexivity |].
  cbn [channels best_2ghz best_5ghz].
  split; [reflexivity |].
  split; [| split; [| split; [exact Hin2 | split; [exact Hin5 | split]]]].
  - intros x u Hx. rewrite utilization_2ghz by done. intros [= <-].
    pose proof (Z.mod_pos_bound (hash (pretty x)) 80 ltac:(lia)). lia.
  - intros x u Hx. rewrite utilization_5ghz by done. intros [= <-].
    pose proof (Z.mod_pos_bound (hash (pretty x)) 60 ltac:(lia)). lia.
  - intros x u b Hx Hu Hb. rewrite Hk2 in Hb. injection Hb as <-.
    by eapply Hmin2.
  - intros x u b Hx Hu Hb. rewrite Hk5 in Hb. injection Hb as <-.
    by eapply Hmin5.
Qed.

(** ** The bandwidth series *)

Lemma range_step_5_length (duration : Z) :
  length (range_step 0 duration 5) = Z.to_nat ((duration + 4) / 5).
Proof.
  unfold range_step. rewrite length_map, length_seq. f_equal. f_equal. lia.
Qed.

Lemma range_step_5_lookup (duration : Z) (k : nat) (t : Z) :
  range_step 0 duration 5 !! k = Some t ->
  t = 5 * Z.of_nat k /\ 0 <= t < duration.
Proof.
  unfold range_step. rewrite list_lookup_fmap.
  destruct (seq 0 _ !! k) as [i |] eqn:E; [| discriminate].
  apply lookup_seq in E as [-> Hlt]. cbn. intros [= <-].
  split; [lia |].
  assert (Z.of_nat k < (duration - 0 + 5 - 1) / 5) by lia.
  Z.div_mod_to_equations. lia.
Qed.

(** X16.  [measure_bandwidth_over_time] returns three series of the same
    length, one entry per started block of 5 seconds (none for a duration
    that is not positive); the timestamps are 0, 5, 10, ... below the
    duration; whatever the random draws, no download entry is below 1 and
    no upload entry below 0.5; and with draws inside the ranges asked for
    the download stays within [40, 60] and the upload within [5, 15]. *)
Theorem bandwidth_series_shape (uniform : nat -> Q) (duration : Z) :
  let s := measure_bandwidth_over_time uniform duration in
  let n := Z.to_nat ((duration + 4) / 5) in
  length (timestamp s) = n /\ length (download_mbps s) = n /\
  length (upload_mbps s) = n /\
  (duration <= 0 -> n = 0%nat) /\
  (forall k t, timestamp s !! k = Some t ->
               t = 5 * Z.of_nat k /\ 0 <= t < duration) /\
  (forall k d, download_mbps s !! k = Some d ->
     (1 <= d)%Q /\
     ((-10 <= uniform (2 * k)%nat <= 10)%Q -> (40 <= d <= 60)%Q)) /\
  (forall k u, upload_mbps s !! k = Some u ->
     (1 # 2 <= u)%Q /\
     ((-5 <= uniform (2 * k + 1)%nat <= 5)%Q -> (5 <= u <= 15)%Q)).
Proof.
  cbv zeta. unfold measure_bandwidth_over_time.
  cbn [timestamp download_mbps upload_mbps].
  rewrite !length_imap, range_step_5_length.
  split; [reflexivity |]. split; [reflexivity |]. split; [reflexivity |].
  split; [| split; [| split]].
  - intros Hd. assert ((duration + 4) / 5 <= 0) by (Z.div_mod_to_equations; lia).
    lia.
  - intros k t Hk. by apply range_step_5_lookup in Hk.
  - intros k d Hk. rewrite list_lookup_imap in Hk.
    destruct (range_step 0 duration 5 !! k); [| discriminate].
    injection Hk as <-. split; [apply Q.le_max_l |].
    intros [Hlo Hhi]. cbn [Nat.mul] in *. split.
    + eapply Qle_trans; [| apply Q.le_max_r]. lra.
    + apply Q.max_lub; lra.
  - intros k u Hk. rewrite list_lookup_imap in Hk.
    destruct (range_step 0 duration 5 !! k); [| discriminate].
    injection Hk as <-. split; [apply Q.le_max_l |].
    intros [Hlo Hhi]. cbn [Nat.mul] in *. split.
    + eapply Qle_trans; [| apply Q.le_max_r]. lra.
    + apply Q.max_lub; lra.
Qed.

(** The theorem for a run of 12 seconds with every draw at its upper end. *)
Lemma bandwidth_series_of_12_seconds :
  timestamp (measure_bandwidth_over_time (fun n => if Nat.even n then 10 else 5)%Q 12)
  = [0; 5; 10] /\
  exists d,
    download_mbps (measure_bandwidth_over_time
                     (fun n => if Nat.even n then 10 else 5)%Q 12) !! 1%nat
    = Some d /\ (40 <= d <= 60)%Q.
Proof.
  pose proof (bandwidth_series_shape (fun n => if Nat.even n then 10 else 5)%Q 12)
    as H.
  cbv zeta in H. destruct H as (_ & _ & _ & _ & _ & Hdown & _).
  split; [reflexivity |].
  eexists. split; [reflexivity |].
  apply (Hdown 1%nat _ eq_refl). cbn. split; discriminate.
Defined.

End SimulatedProofs.

(* ===================================================================== *)
(** * Properties of the platform helpers *)
(* ===================================================================== *)
Module PlatformProofs.
Import Core Platform.

Local Open Scope string_scope.
Local Open Scope Z_scope.

(** X17.  The macOS signal strength is always a percentage: it lies in
    [0, 100] whatever the tools print.  On the airport reading it is
    [2 * (rssi + 100)] clamped, so it grows with the RSSI, is 0 from
    -100 dBm down and 100 from -50 dBm up; on the [system_profiler]
    reading it is 2.5 times the signal-to-noise ratio, capped at 100; and
    it is the default 60 when neither tool gives a reading or the RSSI
    line does not parse. *)
Theorem macos_signal_is_a_percentage (env : macos_signal_env) :
  (0 <= get_macos_wifi_signal env <= 100)%Q /\
  (forall rssi snr,
     let s := get_macos_wifi_signal (mk_macos_signal (Some (RssiInt rssi)) snr) in
     (rssi <= -100 -> s = 0%Q) /\ (-50 <= rssi -> s = 100%Q) /\
     (-100 <= rssi <= -50 -> s = inject_Z (2 * (rssi + 100))) /\
     (forall rssi', rssi <= rssi' ->
        (s <= get_macos_wifi_signal
                (mk_macos_signal (Some (RssiInt rssi')) snr))%Q)) /\
  (forall snr, (40 <= snr)%N ->
     (get_macos_wifi_signal (mk_macos_signal None (Some snr)) == 100)%Q) /\
  (forall snr, get_macos_wifi_signal (mk_macos_signal (Some RssiNotInt) snr)
               = 60%Q) /\
  get_macos_wifi_signal (mk_macos_signal None None) = 60%Q.
Proof.
  split; [| split; [| split; [| split]]].
  - unfold get_macos_wifi_signal.
    destruct (airport_rssi env) as [[rssi |] |].
    + split.
      * change 0%Q with (inject_Z 0). rewrite <- Zle_Qle. lia.
      * change 100%Q with (inject_Z 100). rewrite <- Zle_Qle. lia.
    + split; discriminate.
    + destruct (profiler_snr env) as [snr |]; [| split; discriminate].
      split.
      * apply Q.min_glb; [discriminate | apply Q.le_max_l].
      * apply Q.le_min_l.
  - intros rssi snr. cbv zeta. unfold get_macos_wifi_signal.
    cbn [airport_rssi]. repeat split.
    + intros H. replace (Z.max 0 (Z.min 100 (2 * (rssi + 100)))) with 0 by lia.
      reflexivity.
    + intros H. replace (Z.max 0 (Z.min 100 (2 * (rssi + 100)))) with 100 by lia.
      reflexivity.
    + intros H. f_equal. lia.
    + intros rssi' H. rewrite <- Zle_Qle. lia.
  - intros snr Hsnr. unfold get_macos_wifi_signal. cbn [airport_rssi profiler_snr].
    apply Q.min_l. eapply Qle_trans; [| apply Q.le_max_r].
    assert (40 <= Z.of_N snr) as H40 by lia.
    rewrite Zle_Qle in H40. change (inject_Z 40) with 40%Q in H40. lra.
  - reflexivity.
  - reflexivity.
Qed.

(** ** The Windows reading *)


(** ** Setting the DNS servers on Windows *)



(** ** Congestion on Windows *)

Lemma win_factors_length (env : win_congestion_env) :
  (2 <= length (win_congestion_factors env) <= 5)%nat.
Proof.
  unfold win_congestion_factors. rewrite !length_app. cbn [length].
  destruct (adapter_counts env) as [[e p] |]; [destruct (0 <? Z.of_N p) |];
    destruct (tcp_connections env); (destruct (cpu_usage env) as [c |];
    [destruct (Qlt_bool 70 c) |]); cbn [length]; lia.
Qed.

Lemma Qlt_bool_70 (c : Q) : Qlt_bool 70 c = true -> (70 < c)%Q.
Proof.
  unfold Qlt_bool. intros H. apply negb_true_iff in H.
  apply Qnot_le_lt. intros Hle. apply Qle_bool_iff in Hle. congruence.
Qed.

Lemma win_factors_bounds (env : win_congestion_env) :
  (0 <= jitter env)%Q -> (0 <= packet_loss env <= 100)%Q ->
  (forall n, tcp_connections env = Some n -> 0 <= n) ->
  (forall c, cpu_usage env = Some c -> (c <= 100)%Q) ->
  Forall (fun x => (0 <= x <= 100)%Q) (win_congestion_factors env).
Proof.
  intros Hj Hl Ht Hc. unfold win_congestion_factors.
  repeat (apply Forall_app; split).
  - constructor; [| constructor; [exact Hl | constructor]].
    split; [| apply Q.le_min_l]. apply Q.min_glb; [discriminate | lra].
  - destruct (adapter_counts env) as [[e p] |]; [| constructor].
    destruct (0 <? Z.of_N p); [| constructor].
    constructor; [| constructor]. split; [| apply Q.le_min_l].
    apply Q.min_glb; [discriminate |].
    assert (0 <= inject_Z (Z.of_N e))%Q
      by (change 0%Q with (inject_Z 0); rewrite <- Zle_Qle; lia).
    assert (0 < inject_Z (Z.max 1 (Z.of_N p)))%Q
      by (change 0%Q with (inject_Z 0); rewrite <- Zlt_Qlt; lia).
    apply Qmult_le_0_compat; [| discriminate].
    apply Qle_shift_div_l; [assumption | lra].
  - destruct (tcp_connections env) as [n |] eqn:E; [| constructor].
    constructor; [| constructor]. split; [| apply Q.le_min_l].
    apply Q.min_glb; [discriminate |].
    assert (0 <= inject_Z n)%Q
      by (change 0%Q with (inject_Z 0); rewrite <- Zle_Qle; by apply Ht).
    apply Qmult_le_0_compat; [| discriminate].
    apply Qle_shift_div_l; [reflexivity | lra].
  - destruct (cpu_usage env) as [c |] eqn:E; [| constructor].
    destruct (Qlt_bool 70 c) eqn:E70; [| constructor].
    apply Qlt_bool_70 in E70. specialize (Hc c eq_refl).
    constructor; [| constructor]. split; lra.
Qed.

(** X20.  [analyze_windows_network_congestion] returns its default 30.0
    exactly on the path where no interface is given and none is detected.
    With an interface it always returns the mean of its factors, of which
    there are at least two (jitter and packet loss are recorded even when
    their measurement failed and gave 0) and at most five, so the final
    default is never reached; and for a jitter that is not negative, a
    loss percentage, a connection count that is not negative and a
    processor load of at most 100 the result lies in [0, 100]. *)
Theorem windows_congestion_is_a_mean (env : win_congestion_env) :
  (interface_given env = false -> interface_detected env = false ->
   analyze_windows_network_congestion env = 30%Q) /\
  (interface_given env = true \/ interface_detected env = true ->
   analyze_windows_network_congestion env = mean (win_congestion_factors env)) /\
  (2 <= length (win_congestion_factors env) <= 5)%nat /\
  ((0 <= jitter env)%Q -> (0 <= packet_loss env <= 100)%Q ->
   (forall n, tcp_connections env = Some n -> 0 <= n) ->
   (forall c, cpu_usage env = Some c -> (c <= 100)%Q) ->
   (0 <= analyze_windows_network_congestion env <= 100)%Q).
Proof.
  pose proof (win_factors_length env) as Hlen.
  assert (Hne : win_congestion_factors env <> [])
    by (intros E; rewrite E in Hlen; cbn in Hlen; lia).
  assert (Hmean : negb (interface_given env) && negb (interface_detected env)
                  = false ->
                  analyze_windows_network_congestion env
                  = mean (win_congestion_factors env)).
  { intros Hguard. unfold analyze_windows_network_congestion. rewrite Hguard.
    by destruct (win_congestion_factors env). }
  split; [| split; [| split; [exact Hlen |]]].
  - intros Hg Hd. unfold analyze_windows_network_congestion.
    by rewrite Hg, Hd.
  - intros [Hg | Hd]; apply Hmean; [by rewrite Hg |].
    rewrite Hd. apply andb_false_r.
  - intros Hj Hl Ht Hc.
    destruct (negb (interface_given env) && negb (interface_detected env)) eqn:E.
    + unfold analyze_windows_network_congestion. rewrite E. split; discriminate.
    + rewrite (Hmean eq_refl).
      apply CoreProofs.mean_bounds; [exact Hne |].
      by apply win_factors_bounds.
Qed.

(** A Windows host with an interface on which both measurements failed. *)
Definition silent_windows_host : win_congestion_env :=
  mk_win_congestion true false 0 0 None None None.

Lemma windows_congestion_of_silent_host :
  (analyze_windows_network_congestion silent_windows_host == 0)%Q /\
  (0 <= analyze_windows_network_congestion silent_windows_host <= 100)%Q.
Proof.
  destruct (windows_congestion_is_a_mean silent_windows_host)
    as (_ & _ & _ & Hrange).
  split; [reflexivity |].
  apply Hrange; cbn; try discriminate; split; discriminate.
Defined.

End PlatformProofs.

(* ===================================================================== *)
(** * Properties of the interface helpers *)
(* ===================================================================== *)
Module InterfacesProofs.
Import Platform Interfaces.

Local Open Scope string_scope.
Local Open Scope Z_scope.

Lemma land_255 (x : Z) : Z.land x 255 = x mod 256.
Proof. change 255 with (Z.ones 8). apply Z.land_ones. lia. Qed.

Lemma netmask_octets_eq (n : Z) :
  netmask_octets n
  = [ (n / 16777216) mod 256; (n / 65536) mod 256; (n / 256) mod 256;
      n mod 256 ].
Proof.
  unfold netmask_octets. cbn [map]. rewrite !land_255.
  change (24 - 0 * 8) with 24. change (24 - 1 * 8) with 16.
  change (24 - 2 * 8) with 8. change (24 - 3 * 8) with 0.
  rewrite !Z.shiftr_div_pow2 by lia.
  change (2 ^ 24) with 16777216. change (2 ^ 16) with 65536.
  change (2 ^ 8) with 256. change (2 ^ 0) with 1. rewrite Z.div_1_r.
  reflexivity.
Qed.

(** The netmask of a prefix length, as an integer. *)
Definition mask_of_prefix (p : Z) : Z := 2 ^ 32 - 2 ^ (32 - p).

(** X21.  The dotted form of a netmask and its prefix length.  The four
    numbers that [_get_macos_interfaces] prints for a 32-bit netmask are
    bytes, and they recompose to the netmask (most significant first);
    and for the netmask of any prefix length from 0 to 32 the bit count
    that the Windows listing takes of those four numbers gives the prefix
    length back. *)
Theorem netmask_octets_round_trip :
  (forall n, 0 <= n < 2 ^ 32 ->
     exists a b c d,
       netmask_octets n = [a; b; c; d] /\
       0 <= a <= 255 /\ 0 <= b <= 255 /\ 0 <= c <= 255 /\ 0 <= d <= 255 /\
       a * 2 ^ 24 + b * 2 ^ 16 + c * 2 ^ 8 + d = n) /\
  (forall p, 0 <= p <= 32 ->
     prefix_of_mask (netmask_octets (mask_of_prefix p)) = p) /\
  netmask_dotted 4294967040 = "255.255.255.0".
Proof.
  split; [| split].
  - intros n Hn. rewrite netmask_octets_eq.
    change (2 ^ 32) with 4294967296 in Hn.
    change (2 ^ 24) with 16777216. change (2 ^ 16) with 65536.
    change (2 ^ 8) with 256.
    eexists _, _, _, _. split; [reflexivity |].
    Z.div_mod_to_equations. lia.
  - intros p Hp.
    assert (exists k : nat, (k <= 32)%nat /\ p = Z.of_nat k) as (k & Hk & ->)
      by (exists (Z.to_nat p); lia).
    clear Hp.
    do 33 (destruct k as [| k]; [vm_compute; reflexivity |]). lia.
  - vm_compute. reflexivity.
Qed.

(** The theorem for the netmask [0xfffffe00] of a /23 network. *)
Lemma netmask_of_slash_23 :
  netmask_octets 4294966784 = [255; 255; 254; 0] /\
  prefix_of_mask (netmask_octets (mask_of_prefix 23)) = 23.
Proof.
  destruct netmask_octets_round_trip as (_ & Hprefix & _).
  split; [reflexivity |]. apply Hprefix. lia.
Defined.

(** ** The active interface *)

Lemma first_reachable_has_address connect_ok n ifs i :
  first_reachable connect_ok n ifs = Some i ->
  exists ip, In (i, ip) ifs /\ has_address ip = true.
Proof.
  revert n. induction ifs as [| [name ip] rest IH]; intros n; cbn.
  - discriminate.
  - destruct (has_address ip) eqn:E.
    + destruct (connect_ok n).
      * intros [= <-]. exists ip. auto.
      * intros H. destruct (IH _ H) as (ip' & Hin & Hip). exists ip'. auto.
    + intros H. destruct (IH _ H) as (ip' & Hin & Hip). exists ip'. auto.
Qed.

Lemma first_reachable_steady connect_ok n ifs :
  (forall k m, connect_ok k = connect_ok m) ->
  first_reachable connect_ok n ifs
  = if connect_ok 0%nat then first_with_address ifs else None.
Proof.
  intros Hsteady. unfold first_with_address. revert n.
  induction ifs as [| [name ip] rest IH]; intros n; cbn.
  - by destruct (connect_ok 0%nat).
  - destruct (has_address ip).
    + rewrite (Hsteady n 0%nat). destruct (connect_ok 0%nat) eqn:E.
      * reflexivity.
      * rewrite IH. reflexivity.
    + apply IH.
Qed.

Lemma first_with_address_spec ifs :
  match first_with_address ifs with
  | Some i => exists ip, In (i, ip) ifs /\ has_address ip = true
  | None => forall i ip, In (i, ip) ifs -> has_address ip = false
  end.
Proof.
  unfold first_with_address.
  destruct (List.find _ ifs) as [[i ip] |] eqn:E; cbn.
  - apply find_some in E. exists ip. exact E.
  - intros i ip Hin. exact (find_none _ _ E (i, ip) Hin).
Qed.

(** X22.  [get_active_interface] of the interfaces module.  On Linux and
    macOS a device named by the default route is returned as it is.
    Otherwise (always so on Windows, where the route lookup can match no
    entry) the answer is an interface that has an address, and there is
    no answer exactly when no interface has one; if the connectivity test
    gives the same outcome at every attempt the answer is the first
    interface with an address, whether the test succeeds or fails. *)
Theorem default_route_or_first_address
        (os : os_type) (route_device : option string)
        (connect_ok : nat -> bool) (ifs : interfaces) :
  let r := get_active_interface os route_device connect_ok ifs in
  (forall device, (os = Linux \/ os = Darwin) -> route_device = Some device ->
                  r = Some device) /\
  (os = Windows \/ os = OtherOS \/ route_device = None ->
   (forall i, r = Some i -> exists ip, In (i, ip) ifs /\ has_address ip = true) /\
   (r = None <-> forall i ip, In (i, ip) ifs -> has_address ip = false) /\
   ((forall k m, connect_ok k = connect_ok m) -> r = first_with_address ifs)).
Proof.
  cbv zeta. split.
  - intros device [-> | ->] ->; reflexivity.
  - intros Hloops.
    assert (get_active_interface os route_device connect_ok ifs
            = match first_reachable connect_ok 0 ifs with
              | Some interface => Some interface
              | None => first_with_address ifs
              end) as ->.
    { unfold get_active_interface.
      destruct Hloops as [-> | [-> | ->]]; [reflexivity | reflexivity |].
      by destruct os. }
    pose proof (first_with_address_spec ifs) as Hfirst.
    split; [| split].
    + intros i. destruct (first_reachable connect_ok 0 ifs) as [j |] eqn:E.
      * intros [= <-]. by eapply first_reachable_has_address.
      * intros Hr. rewrite Hr in Hfirst. exact Hfirst.
    + destruct (first_reachable connect_ok 0 ifs) as [j |] eqn:E.
      * split; [discriminate |]. intros Hnone.
        destruct (first_reachable_has_address _ _ _ _ E) as (ip & Hin & Hip).
        rewrite (Hnone j ip Hin) in Hip. discriminate.
      * destruct (first_with_address ifs) as [i |].
        -- split; [discriminate |]. intros Hnone.
           destruct Hfirst as (ip & Hin & Hip).
           rewrite (Hnone i ip Hin) in Hip. discriminate.
        -- split; [intros _; exact Hfirst | reflexivity].
    + intros Hsteady. rewrite (first_reachable_steady _ _ _ Hsteady).
      destruct (connect_ok 0%nat); [| reflexivity].
      by destruct (first_with_address ifs).
Qed.

(** The theorem on a Windows host with a virtual adapter without address
    listed first, while the network is down. *)
Lemma active_interface_offline_windows :
  get_active_interface Windows (Some "9") (fun _ => false)
                       [("vEthernet", ""); ("Wi-Fi", "192.168.1.20")]
  = Some "Wi-Fi".
Proof.
  destruct (default_route_or_first_address
              Windows (Some "9") (fun _ => false)
              [("vEthernet", ""); ("Wi-Fi", "192.168.1.20")]) as [_ H].
  destruct (H (or_introl eq_refl)) as (_ & _ & Hsteady).
  rewrite Hsteady; [reflexivity |]. reflexivity.
Defined.

End InterfacesProofs.

(* ===================================================================== *)
(** * Properties of the connection quality score *)
(* ===================================================================== *)
Module DiagnosticsProofs.
Import Core Diagnostics.

Local Open Scope string_scope.
Local Open Scope Z_scope.

Lemma py_round_cases (q : Q) :
  py_round q = Qfloor q \/
  (py_round q = Qfloor q + 1 /\ (inject_Z (Qfloor q) < q)%Q).
Proof.
  unfold py_round.
  destruct (Qcompare_spec (q - inject_Z (Qfloor q)) (1 # 2)) as [H | H | H].
  - destruct (Z.even (Qfloor q)); [by left |]. right. split; [reflexivity |].
    lra.
  - by left.
  - right. split; [reflexivity |]. lra.
Qed.

Lemma py_round_le (q : Q) (n : Z) : (q <= inject_Z n)%Q -> py_round q <= n.
Proof.
  intros Hq. pose proof (Qfloor_le q) as Hf.
  destruct (py_round_cases q) as [-> | [-> Hlt]].
  - rewrite Zle_Qle. by eapply Qle_trans.
  - assert (inject_Z (Qfloor q) < inject_Z n)%Q as H by lra.
    rewrite <- Zlt_Qlt in H. lia.
Qed.

Lemma py_round_ge (q : Q) (n : Z) : (inject_Z n <= q)%Q -> n <= py_round q.
Proof.
  intros Hq.
  assert (n <= Qfloor q) as H.
  { rewrite <- (Qfloor_Z n). by apply Qfloor_resp_le. }
  destruct (py_round_cases q) as [-> | [-> _]]; lia.
Qed.

Lemma Qlt_bool_spec (a b : Q) : Qlt_bool a b = true <-> (a < b)%Q.
Proof.
  unfold Qlt_bool. rewrite negb_true_iff. split.
  - intros H. apply Qnot_le_lt. intros Hle. apply Qle_bool_iff in Hle. congruence.
  - intros H. destruct (Qle_bool b a) eqn:E; [| reflexivity].
    apply Qle_bool_iff in E. lra.
Qed.

(** X23.  The quality score of [check_connection_quality].  For readings
    that are not negative the score lies in [0, 100].  A ping that printed
    nothing, or nothing the patterns match, is scored 100 and rated
    "Excellent" with no issue reported.  And a connection rated
    "Excellent" has neither the "High latency" nor the "High jitter"
    issue, although it may have "Packet loss detected". *)
Theorem quality_score_range (out : ping_output) :
  let q := check_connection_quality out in
  ((0 <= avg_latency q)%Q -> (0 <= jitter q)%Q -> (0 <= packet_loss q)%Q ->
   0 <= quality_score q <= 100 /\
   (quality_rating q = "Excellent" ->
    ~ In "High latency" (quality_issues q) /\
    ~ In "High jitter/instability" (quality_issues q))) /\
  (out = NoOutput \/ out = WindowsPing None None \/ out = UnixPing None None ->
   quality_score q = 100 /\ quality_rating q = "Excellent" /\
   quality_issues q = []).
Proof.
  cbv zeta. split.
  - unfold check_connection_quality.
    set (loss := match out with
                 | WindowsPing (Some l) _ | UnixPing (Some l) _ => l
                 | _ => 0%Q
                 end).
    destruct (match out with
              | WindowsPing _ (Some (mn, mx, avg)) =>
                  (mn, mx, avg, ((mx - mn) / 2)%Q)
              | UnixPing _ (Some (mn, avg, mx, mdev)) => (mn, mx, avg, mdev)
              | _ => (0, 0, 0, 0)%Q
              end) as [[[mn mx] avg] jit].
    cbn [avg_latency jitter packet_loss quality_score quality_rating
         quality_issues].
    intros Havg Hjit Hloss.
    change (avg / 5)%Q with (avg * (1 # 5))%Q.
    set (ls := Qmax 0 (40 - avg * (1 # 5))%Q).
    set (js := Qmax 0 (30 - jit * (6 # 10))%Q).
    set (ps := Qmax 0 (30 - loss * 3)%Q).
    assert (Hls : (0 <= ls <= 40)%Q).
    { subst ls. split; [apply Q.le_max_l |]. apply Q.max_lub; lra. }
    assert (Hjs : (0 <= js <= 30)%Q).
    { subst js. split; [apply Q.le_max_l |]. apply Q.max_lub; lra. }
    assert (Hps : (0 <= ps <= 30)%Q).
    { subst ps. split; [apply Q.le_max_l |]. apply Q.max_lub; lra. }
    split.
    + split.
      * apply py_round_ge. change (inject_Z 0) with 0%Q. lra.
      * apply py_round_le. change (inject_Z 100) with 100%Q. lra.
    + unfold rating_of. intros Hrating.
      destruct (Z.leb_spec 90 (py_round (ls + js + ps))) as [H90 | H90].
      2: { destruct (70 <=? _); [discriminate |].
           destruct (50 <=? _); [discriminate |].
           destruct (30 <=? _); discriminate. }
      split.
      * destruct (Qlt_bool 100 avg) eqn:E; [exfalso |].
        -- apply Qlt_bool_spec in E.
           assert (ls <= 20)%Q by (subst ls; apply Q.max_lub; lra).
           assert (py_round (ls + js + ps) <= 80)
             by (apply py_round_le; change (inject_Z 80) with 80%Q; lra).
           lia.
        -- cbn [app]. destruct (Qlt_bool 20 jit), (Qlt_bool 1 loss); cbn;
             intuition discriminate.
      * destruct (Qlt_bool 20 jit) eqn:E; [exfalso |].
        -- apply Qlt_bool_spec in E.
           assert (js <= 18)%Q by (subst js; apply Q.max_lub; lra).
           assert (py_round (ls + js + ps) <= 88)
             by (apply py_round_le; change (inject_Z 88) with 88%Q; lra).
           lia.
        -- destruct (Qlt_bool 100 avg), (Qlt_bool 1 loss); cbn;
             intuition discriminate.
  - intros [-> | [-> | ->]]; vm_compute; repeat split; reflexivity.
Qed.

(** The theorem for a Windows ping of 12/48/20 ms with 2% loss. *)
Lemma quality_of_a_good_ping :
  quality_score (check_connection_quality
                   (WindowsPing (Some 2%Q) (Some (12, 48, 20)%Q))) = 79 /\
  0 <= quality_score (check_connection_quality
                        (WindowsPing (Some 2%Q) (Some (12, 48, 20)%Q))) <= 100.
Proof.
  pose proof (quality_score_range (WindowsPing (Some 2%Q) (Some (12, 48, 20)%Q)))
    as [H _].
  cbv zeta in H.
  split; [vm_compute; reflexivity |].
  apply H; vm_compute; discriminate.
Defined.

End DiagnosticsProofs.

(* ===================================================================== *)
(** * Properties of the visualizer and of the GUI helpers *)
(* ===================================================================== *)
Module GuiProofs.
Import Core Session Gui.

Local Open Scope string_scope.
Local Open Scope Z_scope.

Lemma keep_last_drop {A} (m : nat) (l : list A) :
  m <> 0%nat -> keep_last m l = drop (length l - m) l.
Proof.
  intros Hm. unfold keep_last. destruct (Nat.ltb_spec m (length l)).
  - destruct m; [contradiction | reflexivity].
  - replace (length l - m)%nat with 0%nat by lia. reflexivity.
Qed.

Lemma keep_last_none {A} (l : list A) : keep_last 0 l = l.
Proof. unfold keep_last. by destruct (0 <? length l)%nat. Qed.

(** Pushing onto the kept tail of a sequence keeps the tail of the longer
    sequence. *)
Lemma keep_last_push {A} (m : nat) (seen : list A) (x : A) :
  keep_last m (keep_last m seen ++ [x]) = keep_last m (seen ++ [x]).
Proof.
  destruct (decide (m = 0%nat)) as [-> | Hm].
  { rewrite !keep_last_none. reflexivity. }
  rewrite !keep_last_drop by exact Hm.
  rewrite !length_app, length_drop. cbn [length].
  destruct (Nat.le_gt_cases (length seen) m) as [Hle | Hgt].
  - replace (length seen - m)%nat with 0%nat by lia. rewrite drop_0.
    rewrite Nat.sub_0_r. reflexivity.
  - rewrite (drop_app_le seen [x] (length seen + 1 - m)) by lia.
    rewrite drop_app_le by (rewrite length_drop; lia).
    rewrite drop_drop. f_equal. f_equal. lia.
Qed.

Lemma series_after {A} (m : nat) (get : data_point -> A)
      (field : viz_data -> list A) (points : list data_point) :
  (forall d p, field (add_data_point m d p)
               = keep_last m (field d ++ [get p])) ->
  field empty_data = [] ->
  field (foldl (add_data_point m) empty_data points)
  = keep_last m (map get points).
Proof.
  intros Hstep Hempty.
  induction points as [| p points IH] using rev_ind.
  - cbn. rewrite Hempty. reflexivity.
  - rewrite foldl_snoc, Hstep, IH, map_app. cbn [map]. apply keep_last_push.
Qed.

(** X24.  The visualizer's six series after any number of data points,
    starting from the empty ones: all have the same length, the number of
    points but never more than [max_points] (100); and each holds exactly
    the most recent values in arrival order, the oldest having been
    dropped from the front. *)
Theorem visualizer_keeps_the_last_points (points : list data_point) :
  let d := foldl (add_data_point max_points) empty_data points in
  let k := (length points - max_points)%nat in
  time d = drop k (map p_time points) /\
  signal_strength d = drop k (map p_signal_strength points) /\
  download_speed d = drop k (map p_download_speed points) /\
  upload_speed d = drop k (map p_upload_speed points) /\
  latency d = drop k (map p_latency points) /\
  optimization_level d = drop k (map p_optimization_level points) /\
  length (time d) = Nat.min (length points) max_points /\
  length (signal_strength d) = length (time d) /\
  length (download_speed d) = length (time d) /\
  length (upload_speed d) = length (time d) /\
  length (latency d) = length (time d) /\
  length (optimization_level d) = length (time d).
Proof.
  cbv zeta.
  assert (Htime := series_after max_points p_time time points
                     (fun _ _ => eq_refl) eq_refl).
  assert (Hsig := series_after max_points p_signal_strength signal_strength
                    points (fun _ _ => eq_refl) eq_refl).
  assert (Hdown := series_after max_points p_download_speed download_speed
                     points (fun _ _ => eq_refl) eq_refl).
  assert (Hup := series_after max_points p_upload_speed upload_speed points
                   (fun _ _ => eq_refl) eq_refl).
  assert (Hlat := series_after max_points p_latency latency points
                    (fun _ _ => eq_refl) eq_refl).
  assert (Hopt := series_after max_points p_optimization_level
                    optimization_level points (fun _ _ => eq_refl) eq_refl).
  rewrite keep_last_drop, length_map in Htime, Hsig, Hdown, Hup, Hlat, Hopt
    by discriminate.
  rewrite Htime, Hsig, Hdown, Hup, Hlat, Hopt.
  rewrite !length_drop, !length_map.
  repeat split; try reflexivity. lia.
Qed.

(** ** The status bar *)

Lemma Qle_bool_false (a b : Q) : Qle_bool a b = false -> (b < a)%Q.
Proof.
  intros H. apply Qnot_le_lt. intros Hle. apply Qle_bool_iff in Hle. congruence.
Qed.

Lemma clamp_unit (x : Q) : (0 <= Qmax 0 (Qmin x 1) <= 1)%Q.
Proof.
  split; [apply Q.le_max_l |]. apply Q.max_lub; [discriminate | apply Q.le_min_r].
Qed.

(** X25.  The three bars of the status bar.  A zero target speed makes
    [update_indicators] raise.  Otherwise every bar is set to a position
    in [0, 1]; and for a positive target the speed bar is green exactly
    when the current speed is at least 70% of the target, amber from 40%
    up to that, and red below 40%. *)
Theorem status_bar_positions_and_colours
        (signal current_speed target_speed level : Q) :
  ((target_speed == 0)%Q ->
   update_indicators signal current_speed target_speed level = None) /\
  (~ (target_speed == 0)%Q ->
   exists i,
     update_indicators signal current_speed target_speed level = Some i /\
     (0 <= signal_norm i <= 1)%Q /\ (0 <= speed_norm i <= 1)%Q /\
     (0 <= opt_norm i <= 1)%Q /\
     ((0 < target_speed)%Q ->
      (speed_color i = "#4CAF50"
       <-> (target_speed * (7 # 10) <= current_speed)%Q) /\
      (speed_color i = "#FFC107"
       <-> (target_speed * (4 # 10) <= current_speed
            /\ current_speed < target_speed * (7 # 10))%Q) /\
      (speed_color i = "#F44336"
       <-> (current_speed < target_speed * (4 # 10))%Q))).
Proof.
  unfold update_indicators. split.
  - intros H. apply Qeq_bool_iff in H. by rewrite H.
  - intros Hne. destruct (Qeq_bool target_speed 0) eqn:E;
      [apply Qeq_bool_iff in E; contradiction |].
    eexists. split; [reflexivity |].
    cbn [signal_norm speed_norm opt_norm speed_color].
    split; [apply clamp_unit |]. split; [apply clamp_unit |].
    split; [apply clamp_unit |].
    intros Hpos.
    set (ratio := (current_speed / target_speed)%Q).
    assert (Hratio : forall c : Q,
              (c <= ratio <-> target_speed * c <= current_speed)%Q).
    { intros c. subst ratio. split; intros H.
      - apply (Qmult_le_l _ _ target_speed Hpos) in H.
        rewrite Qmult_div_r in H by exact Hne. exact H.
      - apply (Qmult_le_l _ _ target_speed Hpos).
        rewrite Qmult_div_r by exact Hne. exact H. }
    assert (Hnorm : forall c : Q, (0 < c <= 1)%Q ->
              (c * 100 <= Qmax 0 (Qmin ratio 1) * 100 <-> c <= ratio)%Q).
    { intros c [Hc0 Hc1]. split; intros H.
      - assert (c <= Qmax 0 (Qmin ratio 1))%Q as H' by lra.
        destruct (Q.max_spec 0 (Qmin ratio 1)) as [[Hm Hmax] | [Hm Hmax]];
          rewrite Hmax in H'; [| lra].
        destruct (Q.min_spec ratio 1) as [[Hr Hmin] | [Hr Hmin]];
          rewrite Hmin in H'; lra.
      - assert (c <= Qmax 0 (Qmin ratio 1))%Q; [| lra].
        eapply Qle_trans; [| apply Q.le_max_r]. apply Q.min_glb; lra. }
    unfold get_quality_color.
    assert (H70 : (70 <= Qmax 0 (Qmin ratio 1) * 100
                   <-> target_speed * (7 # 10) <= current_speed)%Q).
    { pose proof (Hnorm (7 # 10) ltac:(split; reflexivity || discriminate))
        as [Ha Hb].
      pose proof (Hratio (7 # 10)) as [Hc Hd]. split; intros Hx.
      - apply Hc, Ha. lra.
      - assert ((7 # 10) * 100 <= Qmax 0 (Qmin ratio 1) * 100)%Q
          by apply Hb, Hd, Hx.
        lra. }
    assert (H40 : (40 <= Qmax 0 (Qmin ratio 1) * 100
                   <-> target_speed * (4 # 10) <= current_speed)%Q).
    { pose proof (Hnorm (4 # 10) ltac:(split; reflexivity || discriminate))
        as [Ha Hb].
      pose proof (Hratio (4 # 10)) as [Hc Hd]. split; intros Hx.
      - apply Hc, Ha. lra.
      - assert ((4 # 10) * 100 <= Qmax 0 (Qmin ratio 1) * 100)%Q
          by apply Hb, Hd, Hx.
        lra. }
    destruct (Qle_bool 70 _) eqn:E70; [| destruct (Qle_bool 40 _) eqn:E40].
    + apply Qle_bool_iff in E70. apply H70 in E70.
      repeat split; try discriminate; try (intros; assumption || reflexivity).
      * intros [_ H]. lra.
      * intros H. lra.
    + apply Qle_bool_false in E70. apply Qle_bool_iff in E40. apply H40 in E40.
      assert (current_speed < target_speed * (7 # 10))%Q
        by (apply Qnot_le_lt; intros H; apply H70 in H; lra).
      repeat split; try discriminate; try (intros; assumption || reflexivity);
        intros; lra.
    + apply Qle_bool_false in E70. apply Qle_bool_false in E40.
      assert (current_speed < target_speed * (4 # 10))%Q
        by (apply Qnot_le_lt; intros H; apply H40 in H; lra).
      repeat split; try discriminate; try (intros; assumption || reflexivity);
        intros; lra.
Qed.

(** The theorem for a speed of 7 against a target of 10. *)
Lemma status_bar_at_seventy_percent :
  exists i, update_indicators 60 7 10 50 = Some i /\
            speed_color i = "#4CAF50".
Proof.
  destruct (status_bar_positions_and_colours 60 7 10 50) as [_ H].
  destruct (H ltac:(discriminate)) as (i & Hi & _ & _ & _ & Hcol).
  exists i. split; [exact Hi |].
  destruct (Hcol eq_refl) as ((_ & Hgreen) & _).
  apply Hgreen. discriminate.
Defined.

(** ** The two gradings of the signal *)

Lemma append_inj_l (a b c : string) : a ++ b = a ++ c -> b = c.
Proof.
  induction a as [| ch a IH]; cbn; [done |]. intros [= H]. by apply IH.
Qed.

Lemma Qle_bool_inject (n s : Z) :
  Qle_bool (inject_Z n) (inject_Z s) = (n <=? s).
Proof.
  destruct (Z.leb_spec n s) as [H | H].
  - apply Qle_bool_iff. by rewrite <- Zle_Qle.
  - destruct (Qle_bool _ _) eqn:E; [| reflexivity].
    apply Qle_bool_iff in E. rewrite <- Zle_Qle in E. lia.
Qed.

(** X26.  The console's signal text ([_signal_strength_to_text]) and the
    caption of the dashboard's signal card have the same layout but grade
    by different thresholds (75/50/30 against 80/60/40/20): for a whole
    percentage the two texts are the same exactly when the signal is at
    least 80, or in one of the ranges 60..74, 40..49 and 20..29. *)
Theorem console_and_dashboard_grades (signal : Z) :
  _signal_strength_to_text signal = signal_card_text signal
  <-> (80 <= signal \/ 60 <= signal < 75 \/ 40 <= signal < 50
       \/ 20 <= signal < 30).
Proof.
  unfold _signal_strength_to_text, signal_card_text, get_signal_quality_text.
  change 80%Q with (inject_Z 80). change 60%Q with (inject_Z 60).
  change 40%Q with (inject_Z 40). change 20%Q with (inject_Z 20).
  rewrite !Qle_bool_inject.
  destruct (Z.leb_spec 75 signal), (Z.leb_spec 50 signal),
    (Z.leb_spec 30 signal), (Z.leb_spec 80 signal), (Z.leb_spec 60 signal),
    (Z.leb_spec 40 signal), (Z.leb_spec 20 signal); try lia;
    (split; [intros Heq; apply append_inj_l in Heq; try discriminate; lia
            | intros Hrange; try reflexivity; lia]).
Qed.

End GuiProofs.

(* ===================================================================== *)
(** * Properties of changing the level of a live object *)
(* ===================================================================== *)
Module LevelsProofs.
Import Config Core Session Levels.

Local Open Scope string_scope.

Lemma set_level_by_enum config_ok active apply_ok l self :
  snd (set_optimization_level config_ok active apply_ok (ByEnum l) self)
  = if config_ok
    then with_flags (_set_feature_flags l (Levels.advanced_settings self))
                    (with_level l self)
    else with_level l self.
Proof.
  unfold set_optimization_level. destruct config_ok; [| reflexivity].
  by destruct active.
Qed.

(** X27.  [start] and [set_optimization_level] store the level they are
    given, whatever the aggressive mode: unlike [__init__], they do not
    lift [LIGHT] and [STANDARD] to [AGGRESSIVE], so the two agree exactly
    when aggressive mode is off or the level is at least [AGGRESSIVE].
    When the configuration is rebuilt without error the flags are those of
    the new level under the merged overrides; when rebuilding it raises in
    [set_optimization_level], the call returns [False] with the new level
    already stored and the old flags still in place.  A name that is no
    level changes nothing and gives [False]; otherwise the result is
    [True] unless the configuration or, on an active object, the
    re-application raises. *)
Theorem start_stores_the_level_asked_for
        (a : bool) (l : OptimizationLevel)
        (new : option (gmap string bool))
        (level_config_ok settings_config_ok active apply_ok : bool)
        (self : level_state) :
  let self' := fst (start (Some a) (Some (ByEnum l)) new level_config_ok
                          settings_config_ok active apply_ok self) in
  Levels.optimization_level self' = l /\
  Levels.aggressive self' = a /\
  Levels.advanced_settings self'
  = match new with
    | Some new => new ∪ Levels.advanced_settings self
    | None => Levels.advanced_settings self
    end /\
  (init_level a (ByEnum l) = Levels.optimization_level self'
   <-> a = false \/ (2 <= level_rank l)%nat) /\
  (level_config_ok = true -> new = None \/ settings_config_ok = true ->
   flags self' = _set_feature_flags l (Levels.advanced_settings self')) /\
  (level_config_ok = false -> new = None \/ settings_config_ok = false ->
   flags self' = flags self) /\
  (forall s, level_of_value s = None ->
     set_optimization_level level_config_ok active apply_ok (ByName s) self
     = (false, self)) /\
  (forall arg, arg = ByEnum l \/ arg = ByName (level_value l) ->
     fst (set_optimization_level level_config_ok active apply_ok arg self)
     = level_config_ok && (negb active || apply_ok)).
Proof.
  cbv zeta. unfold start. rewrite set_level_by_enum.
  split; [by destruct new, level_config_ok, settings_config_ok |].
  split; [by destruct new, level_config_ok, settings_config_ok |].
  split; [by destruct new, level_config_ok, settings_config_ok |].
  split; [| split; [| split; [| split]]].
  - assert (Levels.optimization_level
              (fst match new with
                   | Some new0 =>
                       if settings_config_ok
                       then (with_flags _ _, true)
                       else (_, false)
                   | None => (_, true)
                   end) = l) as ->
      by (by destruct new, level_config_ok, settings_config_ok).
    unfold init_level. destruct a, l; cbn; split; intros H;
      try discriminate; try reflexivity; try lia; auto;
      destruct H as [H | H]; try discriminate; lia.
  - intros -> [-> | ->]; [reflexivity |]. by destruct new.
  - intros -> [-> | ->]; [reflexivity |]. by destruct new.
  - intros s Hs. unfold set_optimization_level. by rewrite Hs.
  - intros arg [-> | ->]; unfold set_optimization_level;
      rewrite ?SessionProofs.level_of_value_round_trip;
      by destruct level_config_ok, active, apply_ok.
Qed.

(** An object created as the GUI creates it ([STANDARD], not aggressive,
    no overrides). *)
Definition gui_booster : level_state :=
  mk_level_state false STANDARD ∅ (init_flags false (ByEnum STANDARD) ∅).

(** The theorem for the GUI's start with the aggressive box ticked: the
    level stays [STANDARD] and deep packet inspection stays off, where a
    new object with the same arguments is [AGGRESSIVE]. *)
Lemma start_aggressive_from_the_gui :
  Levels.optimization_level
    (fst (start (Some true) (Some (ByEnum STANDARD)) (Some ∅)
                true true false true gui_booster)) = STANDARD /\
  enable_deep_packet_inspection
    (flags (fst (start (Some true) (Some (ByEnum STANDARD)) (Some ∅)
                       true true false true gui_booster))) = false /\
  init_level true (ByEnum STANDARD) = AGGRESSIVE.
Proof.
  pose proof (start_stores_the_level_asked_for
                true STANDARD (Some ∅) true true false true gui_booster) as H.
  cbv zeta in H. destruct H as (Hlevel & _ & _ & _ & Hflags & _).
  split; [exact Hlevel |]. split; [| reflexivity].
  rewrite (Hflags eq_refl (or_intror eq_refl)). reflexivity.
Defined.

End LevelsProofs.

(* ===================================================================== *)
(** * Properties of the settings the GUI collects *)
(* ===================================================================== *)
Module GuiSettingsProofs.
Import Config Core GuiSettings.

Local Open Scope string_scope.

Section Settings.
Context {V : Type}.

Lemma assoc_set_in {A} (k k0 : string) (e e0 : A) (d : list (string * A)) :
  In (k, e) (assoc_set k0 e0 d) -> (k, e) = (k0, e0) \/ In (k, e) d.
Proof.
  induction d as [| [k1 e1] rest IH]; cbn.
  - intros [H | []]. left. by symmetry.
  - destruct (String.eqb_spec k1 k0) as [-> | Hne]; cbn.
    + intros [H | H]; [left; by symmetry | right; by right].
    + intros [H | H]; [right; by left |].
      destruct (IH H) as [? | ?]; [by left | right; by right].
Qed.

Lemma assoc_get_in {A} (k : string) (e : A) (d : list (string * A)) :
  assoc_get k d = Some e -> In (k, e) d.
Proof.
  induction d as [| [k1 e1] rest IH]; cbn; [discriminate |].
  destruct (String.eqb_spec k1 k) as [-> | Hne].
  - intros [= ->]. by left.
  - intros H. right. by apply IH.
Qed.

Lemma assoc_get_set_same {A} (k : string) (e : A) (d : list (string * A)) :
  assoc_get k (assoc_set k e d) = Some e.
Proof.
  induction d as [| [k1 e1] rest IH]; cbn.
  - by rewrite String.eqb_refl.
  - destruct (String.eqb_spec k1 k) as [-> | Hne]; cbn.
    + by rewrite String.eqb_refl.
    + destruct (String.eqb_spec k1 k); [contradiction | exact IH].
Qed.

Lemma assoc_get_absent {A} (k : string) (d : list (string * A)) :
  ~ In k (map fst d) -> assoc_get k d = None.
Proof.
  induction d as [| [k1 e1] rest IH]; cbn; [reflexivity |].
  intros Hk. destruct (String.eqb_spec k1 k) as [-> | Hne].
  - exfalso. apply Hk. by left.
  - apply IH. intros Hin. apply Hk. by right.
Qed.

Definition categories : list string := ["tcp"; "wifi"; "dns"; "features"].

Lemma category_of_cases (name category : string) :
  category_of name = Some category ->
  In category categories /\ name <> "optimization_level"
  /\ name <> "all_settings".
Proof.
  intros H. split; [| split].
  - unfold category_of in H.
    repeat match type of H with
           | (if ?b then _ else _) = _ => destruct b
           end;
      try discriminate; injection H as <-; cbn; auto.
  - intros ->. vm_compute in H. discriminate.
  - intros ->. vm_compute in H. discriminate.
Qed.

(** What every settings dict of the window looks like: the level as a plain
    value and, under the four categories, dicts. *)
Definition well_shaped (s : settings V) : Prop :=
  forall k e, In (k, e) s ->
    k = "optimization_level" \/
    (In k categories /\ exists items, e = Group items).

Lemma get_all_settings_shape (optimization_level : V) widgets :
  well_shaped (get_all_settings optimization_level widgets).
Proof.
  intros k e Hin. unfold get_all_settings in Hin. cbn [In] in Hin.
  destruct Hin as [[= <- <-] | Hin]; [by left |]. right.
  repeat (destruct Hin as [[= <- <-] | Hin];
          [split; [cbn; auto | by eexists] |]).
  destruct Hin.
Qed.

Lemma category_holds_a_dict (s : settings V) category e :
  well_shaped s -> In category categories ->
  assoc_get category s = Some e -> exists items, e = Group items.
Proof.
  intros Hs Hc Hget. apply assoc_get_in in Hget.
  destruct (Hs _ _ Hget) as [-> | [_ Hitems]]; [| exact Hitems].
  exfalso. cbn in Hc. intuition discriminate.
Qed.

Lemma well_shaped_set (s : settings V) category items :
  well_shaped s -> In category categories ->
  well_shaped (assoc_set category (Group items) s).
Proof.
  intros Hs Hc k e Hin. apply assoc_set_in in Hin as [[= -> ->] | Hin].
  - right. split; [exact Hc | by eexists].
  - by apply Hs.
Qed.

(** One call of the frame keeps the shape, never raises, and files a
    widget's value under the widget's category. *)
Lemma on_change_shape (s : settings V) (c : call V) :
  well_shaped s -> frame_call c ->
  exists s', on_advanced_setting_change s c = Some s' /\ well_shaped s' /\
    forall name value category,
      c = WidgetCall name value -> category_of name = Some category ->
      exists items, assoc_get category s' = Some (Group items) /\
                    assoc_get name items = Some value.
Proof.
  intros Hs Hc. unfold on_advanced_setting_change.
  destruct c as [level | document | name value]; cbn [call_name].
  - exists s. cbn. split; [reflexivity |]. split; [exact Hs |]. discriminate.
  - destruct Hc as (l & w & ->). eexists. cbn. split; [reflexivity |].
    split; [apply get_all_settings_shape | discriminate].
  - cbn in Hc.
    destruct (String.eqb_spec name "optimization_level") as [-> | Hn1].
    { exists s. split; [reflexivity |]. split; [exact Hs |].
      intros n v cat [= <- <-] Hcat. vm_compute in Hcat. discriminate. }
    destruct (String.eqb_spec name "all_settings") as [-> | Hn2];
      [contradiction |].
    destruct (category_of name) as [category |] eqn:Ecat.
    2: { exists s. split; [reflexivity |]. split; [exact Hs |].
         intros n v cat [= <- <-] Hcat. congruence. }
    destruct (category_of_cases _ _ Ecat) as (Hin & _ & _).
    set (s1 := match assoc_get category s with
               | Some _ => s
               | None => assoc_set category (Group []) s
               end).
    assert (Hs1 : well_shaped s1).
    { subst s1. destruct (assoc_get category s); [exact Hs |].
      by apply well_shaped_set. }
    assert (exists items, assoc_get category s1 = Some (Group items))
      as [items Hitems].
    { subst s1. destruct (assoc_get category s) as [e |] eqn:E.
      - destruct (category_holds_a_dict s category e Hs Hin E) as [items ->].
        by exists items.
      - exists []. apply assoc_get_set_same. }
    rewrite Hitems. eexists. split; [reflexivity |].
    split; [by apply well_shaped_set |].
    intros n v cat [= <- <-] Hcat. rewrite Ecat in Hcat. injection Hcat as <-.
    eexists. split; [apply assoc_get_set_same | apply assoc_get_set_same].
Qed.

Lemma after_calls_snoc (calls : list (call V)) (c : call V) :
  after_calls (calls ++ [c])
  = match after_calls calls with
    | Some s => on_advanced_setting_change s c
    | None => None
    end.
Proof. unfold after_calls. by rewrite foldl_snoc. Qed.

Lemma after_calls_shape (calls : list (call V)) :
  Forall frame_call calls ->
  exists s, after_calls calls = Some s /\ well_shaped s.
Proof.
  induction calls as [| c calls IH] using rev_ind; intros Hcalls.
  - exists []. split; [reflexivity |]. intros k e [].
  - apply Forall_app in Hcalls as [Hinit Hc].
    apply Forall_cons in Hc as [Hc _].
    destruct (IH Hinit) as (s & Hrun & Hs).
    destruct (on_change_shape s c Hs Hc) as (s' & Hstep & Hs' & _).
    exists s'. by rewrite after_calls_snoc, Hrun.
Qed.

Lemma well_shaped_keys (s : settings V) (k : string) :
  well_shaped s -> In k (map fst s) -> In k window_keys.
Proof.
  intros Hs Hin. apply in_map_iff in Hin as ([k' e] & <- & Hin). cbn.
  destruct (Hs _ _ Hin) as [-> | [Hc _]]; [by left |].
  right. exact Hc.
Qed.

End Settings.

Lemma no_override_no_change (level : OptimizationLevel)
      (overrides : gmap string bool) :
  (forall k, In k flag_keys -> overrides !! k = None) ->
  _set_feature_flags level overrides = level_flags level.
Proof.
  intros Hnone. unfold _set_feature_flags.
  rewrite !Hnone by (cbn; auto 10). by destruct (level_flags level).
Qed.

(** X28.  The settings the window collects never reach the feature flags.
    After any sequence of calls that the settings frame makes, starting from
    the empty dict, the handler has never raised and the dict has no other
    keys than [optimization_level], [tcp], [wifi], [dns] and [features]; a
    widget's value is filed under its category (the last switch moved is
    found there), so none of the five keys that [_set_feature_flags] looks
    for is a key of the dict, and flags computed from overrides taken from
    its keys are the defaults of the level. *)
Theorem gui_switches_never_reach_the_flags {V} (calls : list (call V)) :
  Forall frame_call calls ->
  exists s,
    after_calls calls = Some s /\
    (forall k, In k (map fst s) -> In k window_keys) /\
    (forall k, In k flag_keys -> assoc_get k s = None) /\
    (forall level (overrides : gmap string bool),
       (forall k, is_Some (overrides !! k) -> In k (map fst s)) ->
       _set_feature_flags level overrides = level_flags level) /\
    (forall init name value category,
       calls = (init ++ [WidgetCall name value])%list ->
       category_of name = Some category ->
       exists items, assoc_get category s = Some (Group items) /\
                     assoc_get name items = Some value).
Proof.
  intros Hcalls.
  destruct (after_calls_shape calls Hcalls) as (s & Hrun & Hs).
  exists s. split; [exact Hrun |].
  assert (Hkeys : forall k, In k (map fst s) -> In k window_keys)
    by (intros k; by apply well_shaped_keys).
  assert (Hflag : forall k, In k flag_keys -> ~ In k (map fst s)).
  { intros k Hk Hin. apply Hkeys in Hin. cbn in Hk, Hin.
    destruct Hk as [<- | [<- | [<- | [<- | [<- | []]]]]];
      intuition discriminate. }
  split; [exact Hkeys |]. split; [| split].
  - intros k Hk. apply assoc_get_absent. by apply Hflag.
  - intros level overrides Hdom. apply no_override_no_change.
    intros k Hk. destruct (overrides !! k) as [b |] eqn:E; [| reflexivity].
    exfalso. apply (Hflag k Hk). apply Hdom. by eexists.
  - intros init name value category -> Hcat.
    apply Forall_app in Hcalls as [Hinit Hc].
    apply Forall_cons in Hc as [Hc _].
    destruct (after_calls_shape init Hinit) as (s0 & Hrun0 & Hs0).
    destruct (on_change_shape s0 _ Hs0 Hc) as (s' & Hstep & _ & Hfiled).
    rewrite after_calls_snoc, Hrun0, Hstep in Hrun. injection Hrun as <-.
    by eapply Hfiled.
Qed.

(** A session at the window: a switch is moved, the level is changed, the
    settings are saved, and the switch for deep packet inspection is
    turned on. *)
Definition sample_calls : list (call bool) :=
  [ WidgetCall "dns_prefetching" false;
    LevelCall "extreme";
    AllSettingsCall (get_all_settings true [ ("tcp_autotuning", true);
                                             ("dns_prefetching", false) ]);
    WidgetCall "deep_packet_inspection" true ].

(** The theorem for that session: the switch is recorded under
    [features], and the flag of a [STANDARD] object stays off. *)
Lemma gui_switch_for_deep_packet_inspection :
  exists s,
    after_calls sample_calls = Some s /\
    assoc_get "deep_packet_inspection" s = None /\
    (exists items, assoc_get "features" s = Some (Group items) /\
                   assoc_get "deep_packet_inspection" items = Some true) /\
    enable_deep_packet_inspection (_set_feature_flags STANDARD ∅) = false.
Proof.
  assert (Hframe : Forall frame_call sample_calls).
  { unfold sample_calls. repeat constructor; try discriminate.
    by eexists _, _. }
  destruct (gui_switches_never_reach_the_flags sample_calls Hframe)
    as (s & Hrun & _ & Hflag & Hlevel & Hfiled).
  exists s. split; [exact Hrun |].
  split; [apply Hflag; cbn; auto |].
  split.
  - apply (Hfiled (take 3 sample_calls) "deep_packet_inspection" true
                  "features"); reflexivity.
  - rewrite (Hlevel STANDARD ∅); [reflexivity |].
    intros k [b Hb]. by rewrite lookup_empty in Hb.
Defined.

End GuiSettingsProofs.

(* ===================================================================== *)
(** * Properties of the metrics measured through the compatibility module *)
(* ===================================================================== *)
Module CompatProofs.
Import Core Session Compat.

Local Open Scope string_scope.
Local Open Scope Z_scope.

Lemma bump_level_keeps_measurements (r : Q) (st : SignalBooster) :
  current_signal (bump_level r st) = current_signal st /\
  current_speed (bump_level r st) = current_speed st /\
  is_running (bump_level r st) = is_running st.
Proof.
  unfold bump_level.
  destruct st as [o a run i b t ts tg cs cg lv].
  destruct run; cbn; [| by rewrite andb_false_r].
  destruct (Qeq_bool lv 0); cbn; auto.
Qed.

(** X29.  What the GUI's poll shows when it measures through the module
    that [core.py] imports as [net_utils].  The signal function there is a
    placeholder that returns 0, so [get_current_metrics] never refreshes
    the signal: it reports the stored value and leaves it stored.  Without
    the speedtest library a running booster reports 10 Mbps down and 2 Mbps
    up, and stores the 10; when the library finds no server or its download
    raises, the stored speed is reported with 15% of it as upload.  A ping
    whose summary was not found gives the default latency of 50 ms. *)
Theorem metrics_poll_through_net_utils
        (r : Q) (s : speedtest) (p : ping_stats) (st : SignalBooster) :
  let m := fst (get_current_metrics (metrics_env_of r s p) st) in
  let st' := snd (get_current_metrics (metrics_env_of r s p) st) in
  current_signal st' = current_signal st /\
  m_signal_strength m = current_signal st /\
  (s = NotInstalled -> is_running st = true ->
   m_current_speed m = 10%Q /\ m_upload_speed m = 2%Q /\
   current_speed st' = 10%Q) /\
  ((exists d u q, s = Installed false d u q) \/
   (exists u q, s = Installed true None u q) ->
   m_current_speed m = current_speed st /\
   m_upload_speed m = (current_speed st * (15 # 100))%Q /\
   current_speed st' = current_speed st) /\
  (p = NoStats -> m_latency m = 50%Q).
Proof.
  cbv zeta. unfold get_current_metrics, metrics_env_of.
  cbn [random_uniform metric_signal metric_bandwidth metric_latency
       get_wifi_signal_strength Z.ltb Z.compare].
  destruct (bump_level_keeps_measurements r st) as (Hsig & Hspeed & Hrun).
  destruct (is_running (bump_level r st)) eqn:Erun.
  - split; [| split; [| split; [| split]]].
    + destruct (Qlt_bool 0 (download (measure_speed s))); cbn; exact Hsig.
    + destruct (Qlt_bool 0 (download (measure_speed s))); cbn; exact Hsig.
    + intros -> _. cbn. repeat split; reflexivity.
    + intros Hfail.
      assert (measure_speed s = mk_speed 0 0 0) as ->
        by (destruct Hfail as [(d & u & q & ->) | (u & q & ->)]; reflexivity).
      cbn [download upload]. change (Qlt_bool 0 0) with false.
      cbn. rewrite Hspeed. repeat split; reflexivity.
    + intros ->. cbn. by destruct (Qlt_bool 0 (download (measure_speed s))).
  - cbn. split; [exact Hsig |]. split; [exact Hsig |].
    split; [| split].
    + intros _ Hr. congruence.
    + intros _. rewrite Hspeed. repeat split; reflexivity.
    + reflexivity.
Qed.

End CompatProofs.
